(** * Alert analytics dashboard: a shallow embedding of [alert_dashboard.py]

    The script is one linear pass: it generates a mock table of alert
    events, narrows it with four sidebar filters, and computes a fixed menu
    of aggregations over the narrowed table.  The pandas operations the
    script calls are written out here as list functions over rows; a
    [DataFrame] value carries the rows together with the one column the
    script adds later ([ResBin]). *)

From Stdlib Require Import List Bool Arith ZArith QArith Qround String Ascii.
From Stdlib Require Import Permutation Sorted Lia Lqa FinFun.
Import ListNotations.

Local Open Scope string_scope.
Local Open Scope Z_scope.

(* ================================================================== *)
(** * Generic pandas-style list operations                              *)
(* ================================================================== *)

Section Frames.
Context {A : Type}.
Variable eqb : A -> A -> bool.

(** [Series.isin(values)]: membership of a cell in the selected list. *)
Definition isin (values : list A) (x : A) : bool := existsb (eqb x) values.

(** Number of cells equal to [k]. *)
Definition count_eq (k : A) (col : list A) : nat :=
  List.length (filter (eqb k) col).

(** [Series.unique()]: distinct values in order of first appearance. *)
Fixpoint unique (col : list A) : list A :=
  match col with
  | [] => []
  | x :: t => x :: filter (fun y => negb (eqb x y)) (unique t)
  end.

(** [Series.nunique()]. *)
Definition nunique (col : list A) : nat := List.length (unique col).
End Frames.

Section Sorting.
Context {A : Type}.
Variable leb : A -> A -> bool.

(** Insertion into a sorted list, before the first element that is not
    smaller: equal keys keep their arrival order. *)
Fixpoint insert (x : A) (l : list A) : list A :=
  match l with
  | [] => [x]
  | y :: t => if leb x y then x :: y :: t else y :: insert x t
  end.

Definition isort (l : list A) : list A := fold_right insert [] l.
End Sorting.

(** Number of rows satisfying a predicate. *)
Fixpoint count_rows {A : Type} (p : A -> bool) (l : list A) : nat :=
  match l with
  | [] => O
  | x :: t => if p x then S (count_rows p t) else count_rows p t
  end.

(* ================================================================== *)
(** * Data model                                                        *)
(* ================================================================== *)

(** One row of the table.  [Date] is the proleptic Gregorian ordinal of the
    calendar day (the rows carry midnight timestamps only);
    [ResolutionTime] is the value of the float cell as an exact rational. *)
Record AlertEvent : Type := mkAlert {
  Date : Z;
  Fleet : string;
  Vessel : string;
  AlertType : string;
  ResolutionTime : Q;
  AutoCleared : bool
}.

Definition fleets : list string :=
  ["Fleet A"; "Fleet B"; "Fleet C"; "Fleet D"].

Definition alert_types : list string :=
  ["Speeding"; "Late Report"; "Excess Slip"; "Bilge ROB"; "Sludge ROB";
   "AE Usage"; "Shaft Generator Usage"].

(** Decimal rendering of a positive number, for the f-string
    [f"Vessel_{i}"]. *)
Definition digit_char (d : nat) : ascii := ascii_of_nat (48 + d).

Fixpoint decimal_fuel (fuel n : nat) (acc : string) : string :=
  match fuel with
  | O => acc
  | S fuel' =>
      let acc' := String (digit_char (n mod 10)) acc in
      if (n / 10 =? 0)%nat then acc' else decimal_fuel fuel' (n / 10) acc'
  end.

Definition decimal (n : nat) : string := decimal_fuel (S n) n "".

Definition vessels : list string :=
  map (fun i => "Vessel_" ++ decimal i) (seq 1 20).

(* ================================================================== *)
(** * Float cells                                                       *)
(* ================================================================== *)

(** A float64 cell or scalar: a finite value (carried as an exact
    rational), one of the two infinities, or NaN. *)
Inductive pyfloat : Type :=
| NaN
| NegInf
| PosInf
| Float (q : Q).

Definition Qlt_bool (x y : Q) : bool := negb (Qle_bool y x).

(** IEEE comparisons: every comparison with NaN is false. *)
Definition fleb (x y : pyfloat) : bool :=
  match x, y with
  | NaN, _ | _, NaN => false
  | NegInf, _ => true
  | _, PosInf => true
  | PosInf, _ => false
  | _, NegInf => false
  | Float a, Float b => Qle_bool a b
  end.

Definition fltb (x y : pyfloat) : bool :=
  match x, y with
  | NaN, _ | _, NaN => false
  | NegInf, NegInf => false
  | NegInf, _ => true
  | PosInf, _ => false
  | _, PosInf => true
  | _, NegInf => false
  | Float a, Float b => Qlt_bool a b
  end.

Definition feqb (x y : pyfloat) : bool :=
  match x, y with
  | NegInf, NegInf | PosInf, PosInf => true
  | Float a, Float b => Qeq_bool a b
  | _, _ => false
  end.

Definition fneg (x : pyfloat) : pyfloat :=
  match x with
  | NaN => NaN
  | NegInf => PosInf
  | PosInf => NegInf
  | Float q => Float (- q)
  end.

Definition inf_times (inf : pyfloat) (q : Q) : pyfloat :=
  if Qeq_bool q 0 then NaN
  else if Qlt_bool 0 q then inf else fneg inf.

Definition fmul (x y : pyfloat) : pyfloat :=
  match x, y with
  | NaN, _ | _, NaN => NaN
  | Float a, Float b => Float (a * b)
  | Float a, inf => inf_times inf a
  | inf, Float b => inf_times inf b
  | PosInf, PosInf | NegInf, NegInf => PosInf
  | _, _ => NegInf
  end.

(** numpy true division of an integer scalar by an integer: a zero divisor
    gives NaN or an infinity (with a warning), never an exception. *)
Definition np_true_divide (a b : Z) : pyfloat :=
  if b =? 0 then
    (if a =? 0 then NaN else if 0 <? a then PosInf else NegInf)
  else Float (inject_Z a / inject_Z b).

(** Rounding to the nearest integer, halves to even. *)
Definition round_half_even (q : Q) : Z :=
  let f := Qfloor q in
  match Qcompare (q - inject_Z f) (1 # 2) with
  | Lt => f
  | Gt => f + 1
  | Eq => if Z.even f then f else f + 1
  end.

(** [round(x, ndigits)]: NaN and the infinities pass through. *)
Definition py_round (x : pyfloat) (ndigits : nat) : pyfloat :=
  match x with
  | Float q =>
      let scale := inject_Z (10 ^ Z.of_nat ndigits) in
      Float (inject_Z (round_half_even (q * scale)) / scale)
  | _ => x
  end.

Definition Qsum (col : list Q) : Q := fold_right Qplus 0%Q col.

(** [Series.mean()]: NaN on an empty column. *)
Definition series_mean (col : list Q) : pyfloat :=
  match col with
  | [] => NaN
  | _ => Float (Qsum col / inject_Z (Z.of_nat (List.length col)))
  end.

Definition Q_of_bool (b : bool) : Q := if b then 1%Q else 0%Q.
Definition Z_of_bool (b : bool) : Z := if b then 1 else 0.

(* ================================================================== *)
(** * Calendar arithmetic of timestamps                                 *)
(* ================================================================== *)

(** Day ordinals and their year/month/day fields, following the
    algorithms of Python's [datetime] (ordinal 1 is 0001-01-01). *)
Module Calendar.

Definition DAYS_IN_MONTH : list Z :=
  [-1; 31; 28; 31; 30; 31; 30; 31; 31; 30; 31; 30; 31].

Definition DAYS_BEFORE_MONTH : list Z :=
  [-1; 0; 31; 59; 90; 120; 151; 181; 212; 243; 273; 304; 334].

Definition is_leap (year : Z) : bool :=
  (year mod 4 =? 0) && (negb (year mod 100 =? 0) || (year mod 400 =? 0)).

Definition days_before_year (year : Z) : Z :=
  let y := year - 1 in
  y * 365 + y / 4 - y / 100 + y / 400.

Definition days_in_month (year month : Z) : Z :=
  if (month =? 2) && is_leap year then 29
  else nth (Z.to_nat month) DAYS_IN_MONTH 0.

Definition days_before_month (year month : Z) : Z :=
  nth (Z.to_nat month) DAYS_BEFORE_MONTH 0
  + Z_of_bool ((2 <? month) && is_leap year).

Definition ymd2ord (year month day : Z) : Z :=
  days_before_year year + days_before_month year month + day.

Definition DI400Y : Z := 146097.
Definition DI100Y : Z := 36524.
Definition DI4Y : Z := 1461.

Definition ord2ymd (n : Z) : Z * Z * Z :=
  let n := n - 1 in
  let n400 := n / DI400Y in
  let n := n mod DI400Y in
  let year := n400 * 400 + 1 in
  let n100 := n / DI100Y in
  let n := n mod DI100Y in
  let n4 := n / DI4Y in
  let n := n mod DI4Y in
  let n1 := n / 365 in
  let n := n mod 365 in
  let year := year + (n100 * 100 + n4 * 4 + n1) in
  if (n1 =? 4) || (n100 =? 4) then (year - 1, 12, 31)
  else
    let leapyear := (n1 =? 3) && (negb (n4 =? 24) || (n100 =? 3)) in
    let month := Z.shiftr (n + 50) 5 in
    let preceding :=
      nth (Z.to_nat month) DAYS_BEFORE_MONTH 0
      + Z_of_bool ((2 <? month) && leapyear) in
    if n <? preceding then
      let month := month - 1 in
      let preceding :=
        preceding - (nth (Z.to_nat month) DAYS_IN_MONTH 0
                     + Z_of_bool ((month =? 2) && leapyear)) in
      (year, month, n - preceding + 1)
    else (year, month, n - preceding + 1).

Definition year (t : Z) : Z := fst (fst (ord2ymd t)).
Definition month (t : Z) : Z := snd (fst (ord2ymd t)).
Definition day (t : Z) : Z := snd (ord2ymd t).

(** [pd.Timestamp(year, month, day)]. *)
Definition Timestamp (year month day : Z) : Z := ymd2ord year month day.

End Calendar.

(* ================================================================== *)
(** * Mock data generation (script lines 12-31)                         *)
(* ================================================================== *)

(** State-passing computations. *)
Definition State (S A : Type) : Type := S -> A * S.

Definition ret {S A : Type} (a : A) : State S A := fun s => (a, s).

Definition bind {S A B : Type} (m : State S A) (k : A -> State S B)
  : State S B :=
  fun s => let (a, s') := m s in k a s'.

Notation "x <- m ;; k" := (bind m (fun x => k))
  (at level 61, m at next level, right associativity).
Notation "m ;;; k" := (bind m (fun _ => k))
  (at level 61, right associativity).

(** The draws the script takes from numpy's global random state, with the
    ranges numpy documents for them. *)
Class RandomState (G : Type) : Type := {
  seed : Z -> G;
  (** [randint(low, high)]: an integer in the half-open range [low, high). *)
  randint : Z -> Z -> State G Z;
  (** position drawn by [choice(a)] on a sequence of [n] entries *)
  choice_index : nat -> State G nat;
  (** position drawn by [choice(a, p=p)] *)
  choice_index_p : list Q -> State G nat;
  (** [exponential(scale)] *)
  exponential : Q -> State G Q;
  randint_range : forall low high g,
    low < high -> low <= fst (randint low high g) < high;
  choice_index_range : forall n g,
    (0 < n)%nat -> (fst (choice_index n g) < n)%nat;
  choice_index_p_range : forall p g,
    p <> [] -> (fst (choice_index_p p g) < List.length p)%nat;
  exponential_nonneg : forall scale g,
    (0 <= scale)%Q -> (0 <= fst (exponential scale g))%Q
}.

Section MockData.
Context {G : Type} {RS : RandomState G}.

Definition choice {A : Type} (default : A) (a : list A) : State G A :=
  i <- choice_index (List.length a) ;; ret (nth i a default).

Definition choice_p {A : Type} (default : A) (a : list A) (p : list Q)
  : State G A :=
  i <- choice_index_p p ;; ret (nth i a default).

(** [round(x, 2)] on a finite float. *)
Definition round2 (x : Q) : Q :=
  (inject_Z (round_half_even (x * 100)) / 100)%Q.

(** One dict literal: the five draws in source order. *)
Definition mock_row (date : Z) : State G AlertEvent :=
  fleet <- choice "" fleets ;;
  vessel <- choice "" vessels ;;
  alert <- choice "" alert_types ;;
  res <- exponential 2 ;;
  cleared <- choice_p false [true; false] [(3 # 5)%Q; (2 # 5)%Q] ;;
  ret (mkAlert date fleet vessel alert (round2 res) cleared).

(** [for _ in range(n): data.append(...)]. *)
Fixpoint mock_rows (n : nat) (date : Z) : State G (list AlertEvent) :=
  match n with
  | O => ret []
  | S n' =>
      r <- mock_row date ;;
      rs <- mock_rows n' date ;;
      ret (r :: rs)
  end.

(** [for date in dates]: the rows of a day follow those of the days
    before it. *)
Fixpoint mock_days (dates : list Z) : State G (list AlertEvent) :=
  match dates with
  | [] => ret []
  | date :: rest =>
      n <- randint 5 15 ;;
      today_rows <- mock_rows (Z.to_nat n) date ;;
      later_rows <- mock_days rest ;;
      ret (today_rows ++ later_rows)%list
  end.
End MockData.

Definition base_date : Z := Calendar.Timestamp 2025 1 1.

(** [pd.date_range(start=base_date, end=base_date + 120 days)]. *)
Definition dates : list Z :=
  map (fun i => base_date + Z.of_nat i) (seq 0 121).

Definition mock_data {G : Type} {RS : RandomState G} : list AlertEvent :=
  fst (mock_days dates (seed 42)).

(** A linear congruential generator, as a concrete random state. *)
Definition lcg_next (g : Z) : Z := (g * 1103515245 + 12345) mod 2147483648.

#[export] Instance LcgState : RandomState Z.
Proof.
  refine {|
    seed := fun s => s mod 2147483648;
    randint := fun low high g =>
      (if low <? high then low + lcg_next g mod (high - low) else low,
       lcg_next g);
    choice_index := fun n g =>
      (Z.to_nat (lcg_next g mod Z.of_nat n), lcg_next g);
    choice_index_p := fun p g =>
      (Z.to_nat (lcg_next g mod Z.of_nat (List.length p)), lcg_next g);
    exponential := fun scale g =>
      ((scale * (lcg_next g mod 1000 # 100))%Q, lcg_next g)
  |}.
  - intros low high g H. simpl.
    destruct (Z.ltb_spec low high); [|lia].
    pose proof (Z.mod_pos_bound (lcg_next g) (high - low)). lia.
  - intros n g H. simpl.
    pose proof (Z.mod_pos_bound (lcg_next g) (Z.of_nat n)). lia.
  - intros p g H. simpl.
    assert (0 < List.length p)%nat by (destruct p; simpl; [congruence|lia]).
    pose proof (Z.mod_pos_bound (lcg_next g) (Z.of_nat (List.length p))). lia.
  - intros scale g H. simpl.
    apply Qmult_le_0_compat; [exact H|].
    pose proof (Z.mod_pos_bound (lcg_next g) 1000).
    unfold Qle; simpl. lia.
Defined.

(* ================================================================== *)
(** * Period presets (script lines 35-54)                               *)
(* ================================================================== *)

Inductive Period : Type :=
| Last7Days
| Last30Days
| QuarterToDate
| YearToDate
| CustomRange.

(** [df["Date"].max()]; there is no maximum (NaT) on an empty table. *)
Definition max_date (df : list AlertEvent) : option Z :=
  match df with
  | [] => None
  | r :: rest => Some (fold_left Z.max (map Date rest) (Date r))
  end.

(** [timedelta(days=n)] subtracted from a timestamp. *)
Definition minus_days (t n : Z) : Z := t - n.

(** The [(start_date, end_date)] pair chosen by the if-chain; the two date
    pickers are only consulted in the last branch. *)
Definition period_range (period : Period) (today : Z)
    (picked_start picked_end : Z) : Z * Z :=
  match period with
  | Last7Days => (minus_days today 7, today)
  | Last30Days => (minus_days today 30, today)
  | QuarterToDate =>
      (Calendar.Timestamp (Calendar.year today)
         ((Calendar.month today - 1) / 3 * 3 + 1) 1,
       today)
  | YearToDate => (Calendar.Timestamp (Calendar.year today) 1 1, today)
  | CustomRange => (picked_start, picked_end)
  end.

(* ================================================================== *)
(** * Filter pipeline (script lines 56-63)                              *)
(* ================================================================== *)

Definition date_in_range (start_date end_date : Z) (r : AlertEvent) : bool :=
  (start_date <=? Date r) && (Date r <=? end_date).

Definition filter_date (start_date end_date : Z) (df : list AlertEvent) :=
  filter (date_in_range start_date end_date) df.

Definition filter_fleet (selected_fleets : list string) (df : list AlertEvent) :=
  filter (fun r => isin String.eqb selected_fleets (Fleet r)) df.

Definition filter_alert (selected_alerts : list string) (df : list AlertEvent) :=
  filter (fun r => isin String.eqb selected_alerts (AlertType r)) df.

Definition filter_vessel (selected_vessels : list string) (df : list AlertEvent) :=
  filter (fun r => isin String.eqb selected_vessels (Vessel r)) df.

(** The four successive [df = df[mask]] statements. *)
Definition filter_pipeline (start_date end_date : Z)
    (selected_fleets selected_alerts selected_vessels : list string)
    (df : list AlertEvent) : list AlertEvent :=
  let df := filter_date start_date end_date df in
  let df := filter_fleet selected_fleets df in
  let df := filter_alert selected_alerts df in
  filter_vessel selected_vessels df.

(** The conjunction of the four membership predicates on one row. *)
Definition matches_selection (start_date end_date : Z)
    (selected_fleets selected_alerts selected_vessels : list string)
    (r : AlertEvent) : bool :=
  date_in_range start_date end_date r
  && isin String.eqb selected_fleets (Fleet r)
  && isin String.eqb selected_alerts (AlertType r)
  && isin String.eqb selected_vessels (Vessel r).

Definition available_vessels (df : list AlertEvent) : list string :=
  isort String.leb (unique String.eqb (map Vessel df)).

(** The sidebar state after one run of the script. *)
Record Selection : Type := mkSelection {
  period : Period;
  picked_start : Z;
  picked_end : Z;
  selected_fleets : list string;
  selected_alerts : list string;
  selected_vessels : list string
}.

(** Lines 36-63 on the generated table.  On an empty table [today] is NaT,
    every date comparison is false, and the result is empty as well. *)
Definition sidebar_filter (sel : Selection) (df : list AlertEvent)
  : list AlertEvent :=
  match max_date df with
  | None => []
  | Some today =>
      let (start_date, end_date) :=
        period_range (period sel) today (picked_start sel) (picked_end sel) in
      filter_pipeline start_date end_date (selected_fleets sel)
        (selected_alerts sel) (selected_vessels sel) df
  end.

(* ================================================================== *)
(** * KPI values (script lines 66-71 and 143-145)                       *)
(* ================================================================== *)

Definition total_alerts (df : list AlertEvent) : nat := List.length df.

Definition vessels_with_alerts (df : list AlertEvent) : nat :=
  nunique String.eqb (map Vessel df).

Definition auto_cleared_percent (df : list AlertEvent) : pyfloat :=
  py_round
    (fmul (series_mean (map (fun r => Q_of_bool (AutoCleared r)) df))
       (Float 100)) 1.

Definition avg_resolution (df : list AlertEvent) : pyfloat :=
  py_round (series_mean (map ResolutionTime df)) 2.

Definition active_alerts (df : list AlertEvent) : nat :=
  List.length (filter (fun r => negb (AutoCleared r)) df).

Definition resolved_alerts (df : list AlertEvent) : nat :=
  List.length (filter AutoCleared df).

Definition sla_threshold : Q := 2.

Definition within_sla_pct (df : list AlertEvent) : pyfloat :=
  py_round
    (fmul
       (series_mean
          (map (fun r => Q_of_bool (Qle_bool (ResolutionTime r) sla_threshold))
             df))
       (Float 100)) 1.

(** [Series.sum()] of the boolean column: an integer scalar. *)
Definition auto_cleared_sum (df : list AlertEvent) : Z :=
  fold_right Z.add 0 (map (fun r => Z_of_bool (AutoCleared r)) df).

Definition resolution_rate (df : list AlertEvent) : pyfloat :=
  py_round
    (fmul (np_true_divide (auto_cleared_sum df) (Z.of_nat (List.length df)))
       (Float 100)) 1.

(* ================================================================== *)
(** * Alerts over time (script lines 74-77)                             *)
(* ================================================================== *)

(** [groupby(key).size()]: one entry per observed key, keys sorted. *)
Definition groupby_size {K : Type} (eqb leb : K -> K -> bool)
    (keys : list K) : list (K * nat) :=
  map (fun k => (k, count_eq eqb k keys)) (isort leb (unique eqb keys)).

(** [left.merge(right, on="Date", how="left")]: every left row is kept, in
    order, once per matching right row, and once with a missing value when
    nothing matches. *)
Definition merge_left {V W : Type} (left : list (Z * V)) (right : list (Z * W))
  : list (Z * (V * option W)) :=
  flat_map
    (fun kv =>
       match filter (fun kw => fst kw =? fst kv) right with
       | [] => [(fst kv, (snd kv, None))]
       | matches =>
           map (fun kw => (fst kv, (snd kv, Some (snd kw)))) matches
       end)
    left.

Definition fillna (value : nat) (cell : option nat) : nat :=
  match cell with
  | Some v => v
  | None => value
  end.

Record TimeRow : Type := mkTimeRow {
  tr_date : Z;
  tr_total : nat;
  tr_active : nat;
  tr_resolved : nat
}.

Definition date_sizes (df : list AlertEvent) : list (Z * nat) :=
  groupby_size Z.eqb Z.leb (map Date df).

Definition active_df (df : list AlertEvent) : list (Z * nat) :=
  date_sizes (filter (fun r => negb (AutoCleared r)) df).

Definition resolved_df (df : list AlertEvent) : list (Z * nat) :=
  date_sizes (filter AutoCleared df).

(** The two chained left merges, before [fillna]. *)
Definition alerts_time_merged (df : list AlertEvent)
  : list (Z * ((nat * option nat) * option nat)) :=
  merge_left (merge_left (date_sizes df) (active_df df)) (resolved_df df).

Definition alerts_time_df (df : list AlertEvent) : list TimeRow :=
  map (fun row =>
         mkTimeRow (fst row) (fst (fst (snd row)))
           (fillna 0 (snd (fst (snd row)))) (fillna 0 (snd (snd row))))
    (alerts_time_merged df).

(* ================================================================== *)
(** * Categorical breakdowns and top-5 lists (lines 110-111, 157-170)   *)
(* ================================================================== *)

(** [sort_values(ascending=False)] on a column of counts; entries with
    equal counts keep their relative order. *)
Definition sort_values_desc {K : Type} (s : list (K * nat)) : list (K * nat) :=
  isort (fun x y => (snd y <=? snd x)%nat) s.

(** [Series.value_counts()]: one entry per distinct value, taken in order
    of first appearance and then sorted by descending count. *)
Definition first_seen_counts (col : list string) : list (string * nat) :=
  map (fun k => (k, count_eq String.eqb k col)) (unique String.eqb col).

Definition value_counts (col : list string) : list (string * nat) :=
  sort_values_desc (first_seen_counts col).

Definition head {A : Type} (n : nat) (s : list A) : list A := firstn n s.

Definition alert_type_counts (df : list AlertEvent) : list (string * nat) :=
  value_counts (map AlertType df).

Definition fleet_alerts (df : list AlertEvent) : list (string * nat) :=
  value_counts (map Fleet df).

Definition top_alerts (df : list AlertEvent) : list (string * nat) :=
  head 5 (value_counts (map AlertType df)).

Definition top_vessels (df : list AlertEvent) : list (string * nat) :=
  head 5 (value_counts (map Vessel df)).

(** [groupby('Alert Type')['Resolution Time (hrs)'].mean()]. *)
Definition mean_by_alert_type (df : list AlertEvent) : list (string * pyfloat) :=
  map (fun k =>
         (k, series_mean
               (map ResolutionTime
                  (filter (fun r => String.eqb k (AlertType r)) df))))
    (isort String.leb (unique String.eqb (map AlertType df))).

(** Descending order on float cells, missing values last. *)
Definition fdesc (x y : pyfloat) : bool :=
  match x, y with
  | _, NaN => true
  | NaN, _ => false
  | _, _ => fleb y x
  end.

Definition sort_values_desc_float {K : Type} (s : list (K * pyfloat))
  : list (K * pyfloat) :=
  isort (fun x y => fdesc (snd x) (snd y)) s.

Definition slowest_types (df : list AlertEvent) : list (string * pyfloat) :=
  head 5 (sort_values_desc_float (mean_by_alert_type df)).

(* ================================================================== *)
(** * Resolution time distribution (script lines 130-133)               *)
(* ================================================================== *)

Definition bins : list pyfloat :=
  [Float 0; Float (1 # 4); Float 1; Float 3; Float 6; Float 12; PosInf].

Definition labels : list string :=
  ["0–15 min"; "15–60 m"; "1–3 hrs"; "3–6 hrs"; "6–12 hrs"; "> 12 hrs"].

(** [a.searchsorted(x, side="left")] on a sorted array. *)
Definition searchsorted_left (a : list pyfloat) (x : pyfloat) : nat :=
  List.length (filter (fun b => fltb b x) a).

(** [pd.cut(x, bins, labels=labels, include_lowest=True)] on one cell: the
    code of its category, or nothing when the cell is outside every bin. *)
Definition cut (x : Q) : option nat :=
  let ids := searchsorted_left bins (Float x) in
  let ids := if feqb (Float x) (nth 0 bins NaN) then 1%nat else ids in
  if (ids =? 0)%nat || (ids =? List.length bins)%nat then None
  else Some (ids - 1)%nat.

Definition code_eqb (x y : option nat) : bool :=
  match x, y with
  | Some a, Some b => (a =? b)%nat
  | None, None => true
  | _, _ => false
  end.

(** [value_counts()] on a categorical column: every category has an entry,
    also with count zero; missing cells are dropped. *)
Definition categorical_value_counts (ncat : nat) (col : list (option nat))
  : list (nat * nat) :=
  sort_values_desc
    (map (fun c => (c, count_eq code_eqb (Some c) col)) (seq 0 ncat)).

(** [sort_index()]: back to category order. *)
Definition sort_index (s : list (nat * nat)) : list (nat * nat) :=
  isort (fun x y => (fst x <=? fst y)%nat) s.

Definition bin_counts (col : list (option nat)) : list (string * nat) :=
  map (fun cn => (nth (fst cn) labels "", snd cn))
    (sort_index (categorical_value_counts (List.length labels) col)).

(* ================================================================== *)
(** * Repeat alerts and heatmap (script lines 181-186)                  *)
(* ================================================================== *)

Definition pair_eqb (x y : string * string) : bool :=
  String.eqb (fst x) (fst y) && String.eqb (snd x) (snd y).

Definition pair_leb (x y : string * string) : bool :=
  if String.eqb (fst x) (fst y) then String.leb (snd x) (snd y)
  else String.leb (fst x) (fst y).

(** [df.groupby(['Vessel', 'Alert Type']).size()]. *)
Definition vessel_alert_sizes (df : list AlertEvent)
  : list ((string * string) * nat) :=
  groupby_size pair_eqb pair_leb (map (fun r => (Vessel r, AlertType r)) df).

Definition repeat_alerts (df : list AlertEvent)
  : list ((string * string) * nat) :=
  filter (fun kc => (3 <=? snd kc)%nat) (vessel_alert_sizes df).

(** The frame handed to [st.dataframe]. *)
Definition repeat_alerts_table (df : list AlertEvent)
  : list ((string * string) * nat) :=
  sort_values_desc (repeat_alerts df).

Definition lookup_pair (k : string * string)
    (s : list ((string * string) * nat)) : option nat :=
  option_map snd (find (fun kc => pair_eqb k (fst kc)) s).

(** [unstack()]: first key level as the index, second as the columns; a
    combination without an entry is a missing cell. *)
Definition unstack (s : list ((string * string) * nat))
  : list (string * list (string * option nat)) :=
  let index :=
    isort String.leb (unique String.eqb (map (fun kc => fst (fst kc)) s)) in
  let columns :=
    isort String.leb (unique String.eqb (map (fun kc => snd (fst kc)) s)) in
  map (fun v => (v, map (fun a => (a, lookup_pair (v, a) s)) columns)) index.

Definition heatmap_df (df : list AlertEvent)
  : list (string * list (string * nat)) :=
  map (fun vrow =>
         (fst vrow, map (fun ac => (fst ac, fillna 0 (snd ac))) (snd vrow)))
    (unstack (vessel_alert_sizes df)).

(** [heatmap_df.loc[vessel, alert]]; nothing when a label is not on its
    axis. *)
Definition heatmap_cell (hm : list (string * list (string * nat)))
    (vessel alert : string) : option nat :=
  match find (fun vrow => String.eqb vessel (fst vrow)) hm with
  | None => None
  | Some vrow =>
      option_map snd (find (fun ac => String.eqb alert (fst ac)) (snd vrow))
  end.

(* ================================================================== *)
(** * The script as a sequence of statements on [df]                    *)
(* ================================================================== *)

(** The table bound to [df] after filtering: its rows and, once line 132
    has run, the added [ResBin] column. *)
Record DataFrame : Type := mkDataFrame {
  rows : list AlertEvent;
  ResBin : option (list (option nat))
}.

Definition filtered_frame (df : list AlertEvent) : DataFrame :=
  mkDataFrame df None.

(** An expression that only reads [df]. *)
Definition reads {A : Type} (f : list AlertEvent -> A) : State DataFrame A :=
  fun df => (f (rows df), df).

(** Line 132: [df['ResBin'] = pd.cut(...)]. *)
Definition assign_ResBin : State DataFrame unit :=
  fun df =>
    (tt, mkDataFrame (rows df)
           (Some (map (fun r => cut (ResolutionTime r)) (rows df)))).

(** Line 133; reading a column that is not there is a [KeyError]. *)
Definition res_time_counts : State DataFrame (option (list (string * nat))) :=
  fun df => (option_map bin_counts (ResBin df), df).

Record ScalarKPIs : Type := mkScalarKPIs {
  kpi_total_alerts : nat;
  kpi_vessels_with_alerts : nat;
  kpi_auto_cleared_percent : pyfloat;
  kpi_avg_resolution : pyfloat;
  kpi_active_alerts : nat;
  kpi_resolved_alerts : nat;
  kpi_within_sla_pct : pyfloat;
  kpi_resolution_rate : pyfloat
}.

Definition scalar_kpis (df : list AlertEvent) : ScalarKPIs :=
  mkScalarKPIs (total_alerts df) (vessels_with_alerts df)
    (auto_cleared_percent df) (avg_resolution df) (active_alerts df)
    (resolved_alerts df) (within_sla_pct df) (resolution_rate df).

Record Breakdowns : Type := mkBreakdowns {
  bd_alert_type_counts : list (string * nat);
  bd_fleet_alerts : list (string * nat);
  bd_top_alerts : list (string * nat);
  bd_top_vessels : list (string * nat);
  bd_slowest_types : list (string * pyfloat)
}.

Definition breakdowns (df : list AlertEvent) : Breakdowns :=
  mkBreakdowns (alert_type_counts df) (fleet_alerts df) (top_alerts df)
    (top_vessels df) (slowest_types df).

(** The menu of aggregations. *)
Inductive Aggregation : Type :=
| AggScalarKPIs
| AggTimeSeries
| AggBreakdowns
| AggBinnedDistribution
| AggRepeatOffenders
| AggHeatmap.

Inductive AggValue : Type :=
| ValScalarKPIs (v : ScalarKPIs)
| ValTimeSeries (v : list TimeRow)
| ValBreakdowns (v : Breakdowns)
| ValBinnedDistribution (v : option (list (string * nat)))
| ValRepeatOffenders (v : list ((string * string) * nat))
| ValHeatmap (v : list (string * list (string * nat))).

(** The statements that compute one aggregation. *)
Definition aggregate (a : Aggregation) : State DataFrame AggValue :=
  match a with
  | AggScalarKPIs => v <- reads scalar_kpis ;; ret (ValScalarKPIs v)
  | AggTimeSeries => v <- reads alerts_time_df ;; ret (ValTimeSeries v)
  | AggBreakdowns => v <- reads breakdowns ;; ret (ValBreakdowns v)
  | AggBinnedDistribution =>
      assign_ResBin ;;;
      v <- res_time_counts ;;
      ret (ValBinnedDistribution v)
  | AggRepeatOffenders =>
      v <- reads repeat_alerts_table ;; ret (ValRepeatOffenders v)
  | AggHeatmap => v <- reads heatmap_df ;; ret (ValHeatmap v)
  end.

(** The aggregations, ordered by their first statement in the script. *)
Definition script_order : list Aggregation :=
  [AggScalarKPIs; AggTimeSeries; AggBreakdowns; AggBinnedDistribution;
   AggRepeatOffenders; AggHeatmap].

Fixpoint run_all (todo : list Aggregation) : State DataFrame (list AggValue) :=
  match todo with
  | [] => ret []
  | a :: rest =>
      v <- aggregate a ;;
      vs <- run_all rest ;;
      ret (v :: vs)
  end.

Definition dashboard : State DataFrame (list AggValue) := run_all script_order.

(* ================================================================== *)
(** * The top-5 lists under any [kind=] of sort                         *)
(* ================================================================== *)

(** The script calls [value_counts()] and [sort_values(ascending=False)]
    without a [kind=] argument, and pandas' default kind does not promise
    an order among equal values.  A [SortKind] is one way of doing these
    two sorts; [sort_values_desc] and [sort_values_desc_float] above are
    the way that keeps equal values in their order of arrival. *)
Record SortKind : Type := mkSortKind {
  sort_counts : forall K : Type, list (K * nat) -> list (K * nat);
  sort_floats : forall K : Type, list (K * pyfloat) -> list (K * pyfloat)
}.

(** What every kind of sort does: it rearranges the entries and leaves
    them in descending order, missing values last. *)
Definition sorts_descending (kind : SortKind) : Prop :=
  (forall (K : Type) (s : list (K * nat)),
      Permutation (sort_counts kind K s) s
      /\ StronglySorted (fun x y => (snd y <= snd x)%nat)
           (sort_counts kind K s))
  /\ (forall (K : Type) (s : list (K * pyfloat)),
        Permutation (sort_floats kind K s) s
        /\ StronglySorted (fun x y => fdesc (snd x) (snd y) = true)
             (sort_floats kind K s)).

(** Equal values stay in their order of arrival. *)
Definition stable_kind : SortKind :=
  mkSortKind (fun K s => sort_values_desc s)
    (fun K s => sort_values_desc_float s).

(** Equal values come out in the reverse of their order of arrival. *)
Definition reversing_kind : SortKind :=
  mkSortKind (fun K s => sort_values_desc (rev s))
    (fun K s => sort_values_desc_float (rev s)).

Definition value_counts_by (kind : SortKind) (col : list string)
  : list (string * nat) :=
  sort_counts kind string (first_seen_counts col).

Definition top_alerts_by (kind : SortKind) (df : list AlertEvent)
  : list (string * nat) :=
  head 5 (value_counts_by kind (map AlertType df)).

Definition top_vessels_by (kind : SortKind) (df : list AlertEvent)
  : list (string * nat) :=
  head 5 (value_counts_by kind (map Vessel df)).

(** [groupby('Alert Type')['Resolution Time (hrs)'].mean()], with the mean
    of a group left open: [series_mean] is the exact mean, the script's is
    the float64 one. *)
Definition mean_by_alert_type_with (mean : list Q -> pyfloat)
    (df : list AlertEvent) : list (string * pyfloat) :=
  map (fun k =>
         (k, mean
               (map ResolutionTime
                  (filter (fun r => String.eqb k (AlertType r)) df))))
    (isort String.leb (unique String.eqb (map AlertType df))).

Definition slowest_types_by (kind : SortKind) (mean : list Q -> pyfloat)
    (df : list AlertEvent) : list (string * pyfloat) :=
  head 5 (sort_floats kind string (mean_by_alert_type_with mean df)).

(** No two entries have the same count. *)
Definition no_tied_counts {K : Type} (s : list (K * nat)) : Prop :=
  NoDup (map snd s).

(** No two entries are each at least the other. *)
Definition no_tied_floats {K : Type} (s : list (K * pyfloat)) : Prop :=
  forall x y,
    In x s -> In y s ->
    fdesc (snd x) (snd y) = true -> fdesc (snd y) (snd x) = true -> x = y.

(* ================================================================== *)
(** * Vocabulary of the statements                                      *)
(* ================================================================== *)

(** What every generated row satisfies, whatever the random draws. *)
Definition well_formed_row (r : AlertEvent) : Prop :=
  In (Fleet r) fleets /\ In (Vessel r) vessels
  /\ In (AlertType r) alert_types /\ (0 <= ResolutionTime r)%Q.

(** Number of rows of a vessel with an alert type. *)
Definition pair_count (df : list AlertEvent) (vessel alert : string) : nat :=
  count_rows
    (fun r => String.eqb (Vessel r) vessel && String.eqb (AlertType r) alert)
    df.

(** Entries whose count is [c]. *)
Definition with_count {K : Type} (c : nat) (e : K * nat) : bool :=
  (snd e =? c)%nat.

(** Entries whose mean equals [m]. *)
Definition with_mean {K : Type} (m : pyfloat) (e : K * pyfloat) : bool :=
  feqb (snd e) m.

(** The key pairs of the grouping by vessel and alert type. *)
Definition vessel_alert_pairs (df : list AlertEvent) : list (string * string) :=
  map (fun r => (Vessel r, AlertType r)) df.

Definition vessel_alert_keys (df : list AlertEvent) : list (string * string) :=
  isort pair_leb (unique pair_eqb (vessel_alert_pairs df)).

(** The two axes of the heatmap. *)
Definition heatmap_index (df : list AlertEvent) : list string :=
  isort String.leb
    (unique String.eqb (map (fun kc => fst (fst kc)) (vessel_alert_sizes df))).

Definition heatmap_columns (df : list AlertEvent) : list string :=
  isort String.leb
    (unique String.eqb (map (fun kc => snd (fst kc)) (vessel_alert_sizes df))).

(** A filtered table with a single row. *)
Definition one_speeding_row : list AlertEvent :=
  [mkAlert 739252 "Fleet A" "Vessel_1" "Speeding" (1 # 2) true].

(** The six buckets in the words of the chart: up to 15 minutes, to one
    hour, to 3, 6 and 12 hours, and beyond; a negative time is in none. *)
Definition bucket_of (x : Q) : option nat :=
  if Qlt_bool x 0 then None
  else if Qle_bool x (1 # 4) then Some 0%nat
  else if Qle_bool x 1 then Some 1%nat
  else if Qle_bool x 3 then Some 2%nat
  else if Qle_bool x 6 then Some 3%nat
  else if Qle_bool x 12 then Some 4%nat
  else Some 5%nat.

(** Number of rows whose resolution time is in bucket [i]. *)
Definition bucket_count (df : list AlertEvent) (i : nat) : nat :=
  count_rows (fun r => code_eqb (Some i) (bucket_of (ResolutionTime r))) df.

(** The binned distribution as the script computes it on a freshly
    filtered table: line 132 followed by line 133. *)
Definition binned_distribution (df : list AlertEvent)
  : option (list (string * nat)) :=
  fst ((assign_ResBin ;;; res_time_counts) (filtered_frame df)).

(** Rows with the given resolution times. *)
Definition rows_with_times (times : list Q) : list AlertEvent :=
  map (fun x => mkAlert 739252 "Fleet A" "Vessel_1" "Speeding" x true) times.

(** First month of the quarter of a month. *)
Definition quarter_month (month : Z) : Z := (month - 1) / 3 * 3 + 1.

(** The month estimate of [ord2ymd] and its correction, on day [n] of a
    year (counted from 0). *)
Definition month_check (leapyear : bool) (n : Z) : bool :=
  let month := Z.shiftr (n + 50) 5 in
  let preceding :=
    nth (Z.to_nat month) Calendar.DAYS_BEFORE_MONTH 0
    + Z_of_bool ((2 <? month) && leapyear) in
  let mp :=
    if n <? preceding then
      (month - 1,
       preceding - (nth (Z.to_nat (month - 1)) Calendar.DAYS_IN_MONTH 0
                    + Z_of_bool ((month - 1 =? 2) && leapyear)))
    else (month, preceding) in
  (1 <=? fst mp) && (fst mp <=? 12) && (snd mp <=? n)
  && (snd mp =? nth (Z.to_nat (fst mp)) Calendar.DAYS_BEFORE_MONTH 0
                + Z_of_bool ((2 <? fst mp) && leapyear)).

(** A table whose latest date is 2025-05-01. *)
Definition two_row_table : list AlertEvent :=
  [mkAlert 739300 "Fleet A" "Vessel_1" "Speeding" 1 true;
   mkAlert 739372 "Fleet B" "Vessel_2" "AE Usage" 2 false].

(** Sum of a column of counts. *)
Definition sum_counts (col : list nat) : nat := fold_right Nat.add 0%nat col.

(** The table bound to [df] at line 61, where the vessel options are read
    off: after the date, fleet and alert-type filters. *)
Definition before_vessel_filter (start_date end_date : Z)
    (selected_fleets selected_alerts : list string) (df : list AlertEvent)
  : list AlertEvent :=
  filter_alert selected_alerts
    (filter_fleet selected_fleets (filter_date start_date end_date df)).

(** The sidebar as first rendered for a period: the three multi-selects at
    their [default=] lists and the two date pickers at their defaults. *)
Definition default_selection (p : Period) (today : Z) (df : list AlertEvent)
  : Selection :=
  let range := period_range p today (minus_days today 30) today in
  mkSelection p (minus_days today 30) today fleets alert_types
    (available_vessels
       (before_vessel_filter (fst range) (snd range) fleets alert_types df)).

(** A finite float cell within bounds. *)
Definition finite_between (lo hi : Q) (x : pyfloat) : Prop :=
  match x with
  | Float q => (lo <= q)%Q /\ (q <= hi)%Q
  | _ => False
  end.

(** A non-negative whole number of hundredths: what [round(x, 2)] leaves
    of a non-negative draw. *)
Definition whole_hundredths (q : Q) : Prop :=
  exists z : Z, 0 <= z /\ q = (inject_Z z / 100)%Q.

(* ================================================================== *)
(** * Theorems                                                          *)
(* ================================================================== *)

Lemma filter_filter {A : Type} (p q : A -> bool) (l : list A) :
  filter q (filter p l) = filter (fun x => p x && q x) l.
Proof.
  induction l as [| x l IH]; simpl; [reflexivity|].
  destruct (p x); simpl; [destruct (q x)|]; now rewrite IH.
Qed.

Lemma count_rows_filter {A : Type} (p : A -> bool) (l : list A) :
  count_rows p l = List.length (filter p l).
Proof.
  induction l as [| x l IH]; simpl; [reflexivity|].
  destruct (p x); simpl; now rewrite IH.
Qed.

Lemma filter_none {A : Type} (p : A -> bool) (l : list A) :
  (forall x, p x = false) -> filter p l = [].
Proof.
  intros Hp. induction l as [| x l IH]; simpl; [reflexivity|].
  now rewrite Hp.
Qed.

Lemma filter_pipeline_spec s e F T V df :
  filter_pipeline s e F T V df = filter (matches_selection s e F T V) df.
Proof.
  unfold filter_pipeline, filter_vessel, filter_alert, filter_fleet, filter_date.
  rewrite !filter_filter. apply filter_ext. intros r.
  unfold matches_selection. now rewrite !andb_assoc.
Qed.

(* ------------------------------------------------------------------ *)
(** ** Distinct values and counts                                       *)
(* ------------------------------------------------------------------ *)

Section FramesFacts.
Context {A : Type}.
Variable eqb : A -> A -> bool.
Hypothesis eqb_eq : forall x y, eqb x y = true <-> x = y.

Lemma eqb_refl_true x : eqb x x = true.
Proof. now apply eqb_eq. Qed.

Lemma isin_In (values : list A) (x : A) :
  isin eqb values x = true <-> In x values.
Proof.
  unfold isin. rewrite existsb_exists. split.
  - intros [y [Hy E]]. apply eqb_eq in E. now subst.
  - intros H. exists x. split; [exact H | apply eqb_refl_true].
Qed.

Lemma unique_In (col : list A) (x : A) : In x (unique eqb col) <-> In x col.
Proof.
  induction col as [| a col IH]; simpl; [tauto|].
  rewrite filter_In, IH. split.
  - intros [H | [H _]]; auto.
  - intros [H | H]; [now left|].
    destruct (eqb a x) eqn:E.
    + left. now apply eqb_eq.
    + right. now split.
Qed.

Lemma unique_NoDup (col : list A) : NoDup (unique eqb col).
Proof.
  induction col as [| a col IH]; simpl; constructor.
  - rewrite filter_In. intros [_ H]. now rewrite eqb_refl_true in H.
  - now apply NoDup_filter.
Qed.

Lemma count_eq_pos (k : A) (col : list A) :
  (0 < count_eq eqb k col)%nat <-> In k col.
Proof.
  unfold count_eq. induction col as [| a col IH]; simpl.
  - split; [lia | tauto].
  - destruct (eqb k a) eqn:E; simpl.
    + apply eqb_eq in E. subst. split; [now left | lia].
    + rewrite IH. split; [now right|].
      intros [H | H]; [|exact H]. subst.
      now rewrite eqb_refl_true in E.
Qed.

Lemma count_eq_zero (k : A) (col : list A) :
  ~ In k col -> count_eq eqb k col = 0%nat.
Proof.
  intros H. destruct (count_eq eqb k col) eqn:E; [reflexivity|].
  exfalso. apply H, count_eq_pos. lia.
Qed.

Lemma count_eq_map {B : Type} (f : B -> A) (k : A) (l : list B) :
  count_eq eqb k (map f l) = count_rows (fun r => eqb k (f r)) l.
Proof.
  unfold count_eq. induction l as [| b l IH]; simpl; [reflexivity|].
  destruct (eqb k (f b)); simpl; now rewrite IH.
Qed.

(** A lookup by key in a table built from distinct keys. *)
Lemma find_keyed {B : Type} (f : A -> B) (k : A) (keys : list A) :
  find (fun kv => eqb k (fst kv)) (map (fun k' => (k', f k')) keys)
  = if isin eqb keys k then Some (k, f k) else None.
Proof.
  unfold isin. induction keys as [| a keys IH]; simpl; [reflexivity|].
  destruct (eqb k a) eqn:E; simpl; [|exact IH].
  apply eqb_eq in E. now subst.
Qed.
End FramesFacts.

Lemma count_rows_split {A : Type} (p q : A -> bool) (l : list A) :
  (count_rows (fun x => p x && q x) l
   + count_rows (fun x => p x && negb (q x)) l)%nat
  = count_rows p l.
Proof.
  induction l as [| x l IH]; simpl; [reflexivity|].
  destruct (p x), (q x); simpl; lia.
Qed.

Lemma count_rows_filter_and {A : Type} (p q : A -> bool) (l : list A) :
  count_rows p (filter q l) = count_rows (fun x => p x && q x) l.
Proof.
  induction l as [| x l IH]; simpl; [reflexivity|].
  destruct (q x); simpl; rewrite ?andb_true_r, ?andb_false_r;
    [destruct (p x)|]; now rewrite IH.
Qed.

Lemma count_rows_ext {A : Type} (p q : A -> bool) (l : list A) :
  (forall x, p x = q x) -> count_rows p l = count_rows q l.
Proof.
  intros H. induction l as [| x l IH]; simpl; [reflexivity|].
  now rewrite H, IH.
Qed.

(* ------------------------------------------------------------------ *)
(** ** Insertion sort: permutation, order, stability                    *)
(* ------------------------------------------------------------------ *)

Section SortingFacts.
Context {A : Type}.
Variable leb : A -> A -> bool.

Lemma insert_perm (x : A) (l : list A) : Permutation (insert leb x l) (x :: l).
Proof.
  induction l as [| y l IH]; simpl; [reflexivity|].
  destruct (leb x y); [reflexivity|].
  rewrite IH. apply perm_swap.
Qed.

Lemma isort_perm (l : list A) : Permutation (isort leb l) l.
Proof.
  induction l as [| x l IH]; simpl; [reflexivity|].
  rewrite insert_perm. now constructor.
Qed.

Lemma isort_In (l : list A) (x : A) : In x (isort leb l) <-> In x l.
Proof.
  split; apply Permutation_in;
    [apply isort_perm | apply Permutation_sym, isort_perm].
Qed.

Lemma isort_length (l : list A) : List.length (isort leb l) = List.length l.
Proof. apply Permutation_length, isort_perm. Qed.

Lemma isort_NoDup (l : list A) : NoDup l -> NoDup (isort leb l).
Proof.
  apply Permutation_NoDup, Permutation_sym, isort_perm.
Qed.

Lemma isort_map_NoDup {B : Type} (f : A -> B) (l : list A) :
  NoDup (map f l) -> NoDup (map f (isort leb l)).
Proof.
  apply Permutation_NoDup, Permutation_map, Permutation_sym, isort_perm.
Qed.

Hypothesis leb_total : forall x y, leb x y = true \/ leb y x = true.
Hypothesis leb_trans :
  forall x y z, leb x y = true -> leb y z = true -> leb x z = true.

Let ordered (x y : A) : Prop := leb x y = true.

Lemma insert_sorted (x : A) (l : list A) :
  StronglySorted ordered l -> StronglySorted ordered (insert leb x l).
Proof.
  induction 1 as [| y l Hs IH Hy]; simpl.
  - repeat constructor.
  - destruct (leb x y) eqn:E.
    + constructor; [now constructor|].
      constructor; [exact E|].
      eapply Forall_impl; [|exact Hy]. intros z Hz. now apply leb_trans with y.
    + constructor; [exact IH|].
      apply (Permutation_Forall (Permutation_sym (insert_perm x l))).
      constructor; [|exact Hy].
      destruct (leb_total x y) as [H | H]; [congruence | exact H].
Qed.

Lemma isort_sorted (l : list A) : StronglySorted ordered (isort leb l).
Proof.
  induction l as [| x l IH]; simpl; [constructor | now apply insert_sorted].
Qed.
End SortingFacts.

Section Stability.
Context {A : Type}.
Variable leb : A -> A -> bool.
(** [tied] selects one class of entries that the order does not separate. *)
Variable tied : A -> bool.
Hypothesis tied_leb : forall x y, tied x = true -> tied y = true -> leb x y = true.

Lemma insert_stable (x : A) (l : list A) :
  filter tied (insert leb x l) = filter tied (x :: l).
Proof.
  induction l as [| y l IH]; simpl; [reflexivity|].
  destruct (leb x y) eqn:E; [reflexivity|].
  simpl. rewrite IH. simpl.
  destruct (tied x) eqn:Tx, (tied y) eqn:Ty; try reflexivity.
  rewrite tied_leb in E by assumption. discriminate.
Qed.

Lemma isort_stable (l : list A) : filter tied (isort leb l) = filter tied l.
Proof.
  induction l as [| x l IH]; simpl; [reflexivity|].
  rewrite insert_stable. simpl. now rewrite IH.
Qed.
End Stability.

(** Two sorted arrangements of the same entries coincide when the order
    separates distinct entries. *)
Lemma sorted_perm_eq {A : Type} (R : A -> A -> Prop) (l1 l2 : list A) :
  (forall x y, In x l1 -> In y l1 -> R x y -> R y x -> x = y) ->
  StronglySorted R l1 -> StronglySorted R l2 -> Permutation l1 l2 -> l1 = l2.
Proof.
  revert l2. induction l1 as [| a l1 IH]; intros l2 Hanti S1 S2 P.
  - apply Permutation_nil in P. now subst.
  - destruct l2 as [| b l2].
    + apply Permutation_sym, Permutation_nil in P. discriminate.
    + inversion S1 as [| ? ? S1' F1]; subst.
      inversion S2 as [| ? ? S2' F2]; subst.
      assert (a = b) as ->.
      { assert (Hb : In b (a :: l1))
          by (apply (Permutation_in _ (Permutation_sym P)); now left).
        assert (Ha : In a (b :: l2))
          by (apply (Permutation_in _ P); now left).
        destruct Hb as [-> | Hb]; [reflexivity|].
        destruct Ha as [-> | Ha]; [reflexivity|].
        rewrite Forall_forall in F1, F2.
        apply Hanti; [now left | now right | now apply F1 | now apply F2]. }
      f_equal. apply IH; auto.
      * intros x y Hx Hy. apply Hanti; now right.
      * now apply Permutation_cons_inv in P.
Qed.

(* ------------------------------------------------------------------ *)
(** ** The filter pipeline                                              *)
(* ------------------------------------------------------------------ *)

(** C2.  For every date interval and every selection of fleets, alert
    types and vessels, the filtered table is exactly the rows satisfying
    the conjunction of the four membership tests, so its size is the number
    of such rows; an empty selection in any of the three multi-selects
    leaves no row. *)
Theorem filter_pipeline_conjunction :
  forall (start_date end_date : Z) (F T V : list string)
         (df : list AlertEvent),
    filter_pipeline start_date end_date F T V df
    = filter (matches_selection start_date end_date F T V) df
    /\ List.length (filter_pipeline start_date end_date F T V df)
       = count_rows (matches_selection start_date end_date F T V) df
    /\ (forall r,
          In r (filter_pipeline start_date end_date F T V df)
          <-> In r df
              /\ start_date <= Date r <= end_date
              /\ In (Fleet r) F /\ In (AlertType r) T /\ In (Vessel r) V)
    /\ filter_pipeline start_date end_date [] T V df = []
    /\ filter_pipeline start_date end_date F [] V df = []
    /\ filter_pipeline start_date end_date F T [] df = [].
Proof.
  intros s e F T V df. repeat split.
  - apply filter_pipeline_spec.
  - now rewrite filter_pipeline_spec, count_rows_filter.
  - rewrite filter_pipeline_spec in H. now apply filter_In in H.
  - rewrite filter_pipeline_spec in H. apply filter_In in H.
    destruct H as [_ H]. unfold matches_selection, date_in_range in H.
    rewrite !andb_true_iff in H. lia.
  - rewrite filter_pipeline_spec in H. apply filter_In in H.
    destruct H as [_ H]. unfold matches_selection, date_in_range in H.
    rewrite !andb_true_iff in H. lia.
  - rewrite filter_pipeline_spec in H. apply filter_In in H.
    destruct H as [_ H]. unfold matches_selection in H.
    rewrite !andb_true_iff in H. now apply (isin_In _ String.eqb_eq).
  - rewrite filter_pipeline_spec in H. apply filter_In in H.
    destruct H as [_ H]. unfold matches_selection in H.
    rewrite !andb_true_iff in H. now apply (isin_In _ String.eqb_eq).
  - rewrite filter_pipeline_spec in H. apply filter_In in H.
    destruct H as [_ H]. unfold matches_selection in H.
    rewrite !andb_true_iff in H. now apply (isin_In _ String.eqb_eq).
  - intros (Hin & Hd & Hf & Ht & Hv).
    rewrite filter_pipeline_spec. apply filter_In. split; [exact Hin|].
    unfold matches_selection, date_in_range. rewrite !andb_true_iff.
    repeat split; try (now apply (isin_In _ String.eqb_eq)); lia.
  - rewrite filter_pipeline_spec. apply filter_none. intros r.
    unfold matches_selection. simpl. now rewrite andb_false_r.
  - rewrite filter_pipeline_spec. apply filter_none. intros r.
    unfold matches_selection. simpl. now rewrite andb_false_r.
  - rewrite filter_pipeline_spec. apply filter_none. intros r.
    unfold matches_selection. simpl. now rewrite andb_false_r.
Qed.

(* ------------------------------------------------------------------ *)
(** ** KPI values on an empty table                                     *)
(* ------------------------------------------------------------------ *)

Lemma filter_pipeline_reversed_range s e F T V df :
  e < s -> filter_pipeline s e F T V df = [].
Proof.
  intros H. rewrite filter_pipeline_spec. apply filter_none. intros r.
  unfold matches_selection, date_in_range.
  destruct (Z.leb_spec s (Date r)), (Z.leb_spec (Date r) e);
    simpl; try reflexivity; lia.
Qed.

(** C1, as the claim has it, fails: on the empty table the auto-cleared
    percentage and the average resolution are NaN and not zero. *)
Lemma empty_set_percentages_not_zero :
  feqb (auto_cleared_percent []) (Float 0) = false
  /\ feqb (avg_resolution []) (Float 0) = false
  /\ auto_cleared_percent [] = NaN
  /\ avg_resolution [] = NaN.
Proof. repeat split. Qed.

(** C1, amended.  A custom range whose start is after its end leaves no
    row, and on the empty table every scalar KPI is computed without an
    error: the four counts are 0, while the auto-cleared percentage, the
    average resolution, the within-SLA percentage and the resolution rate
    are all NaN. *)
Theorem empty_filtered_set_kpis :
  forall (sel : Selection) (df : list AlertEvent),
    period sel = CustomRange ->
    picked_end sel < picked_start sel ->
    sidebar_filter sel df = []
    /\ scalar_kpis (sidebar_filter sel df)
       = mkScalarKPIs 0 0 NaN NaN 0 0 NaN NaN
    /\ scalar_kpis [] = mkScalarKPIs 0 0 NaN NaN 0 0 NaN NaN.
Proof.
  intros sel df Hp Hlt.
  assert (E : sidebar_filter sel df = []).
  { unfold sidebar_filter. destruct (max_date df); [|reflexivity].
    rewrite Hp. simpl. now apply filter_pipeline_reversed_range. }
  split; [exact E|]. rewrite E. split; reflexivity.
Qed.

Lemma empty_filtered_set_kpis_witness :
  sidebar_filter
    (mkSelection CustomRange 739300 739290 fleets alert_types vessels)
    (@mock_data Z LcgState) = []
  /\ scalar_kpis
       (sidebar_filter
          (mkSelection CustomRange 739300 739290 fleets alert_types vessels)
          (@mock_data Z LcgState))
     = mkScalarKPIs 0 0 NaN NaN 0 0 NaN NaN
  /\ scalar_kpis [] = mkScalarKPIs 0 0 NaN NaN 0 0 NaN NaN.
Proof.
  apply empty_filtered_set_kpis; simpl; [reflexivity | lia].
Defined.

(* ------------------------------------------------------------------ *)
(** ** The mock data generator                                          *)
(* ------------------------------------------------------------------ *)

Lemma count_rows_app {A : Type} (p : A -> bool) (l1 l2 : list A) :
  count_rows p (l1 ++ l2)%list = (count_rows p l1 + count_rows p l2)%nat.
Proof.
  induction l1 as [| x l1 IH]; simpl; [reflexivity|].
  destruct (p x); simpl; now rewrite IH.
Qed.

Lemma count_rows_all {A : Type} (p : A -> bool) (l : list A) :
  Forall (fun x => p x = true) l -> count_rows p l = List.length l.
Proof.
  induction 1 as [| x l Hx _ IH]; simpl; [reflexivity|].
  now rewrite Hx, IH.
Qed.

Lemma count_rows_none {A : Type} (p : A -> bool) (l : list A) :
  Forall (fun x => p x = false) l -> count_rows p l = 0%nat.
Proof.
  induction 1 as [| x l Hx _ IH]; simpl; [reflexivity|].
  now rewrite Hx, IH.
Qed.

Lemma round_half_even_floor (q : Q) : Qfloor q <= round_half_even q.
Proof.
  unfold round_half_even.
  destruct (Qcompare (q - inject_Z (Qfloor q)) (1 # 2)); try lia.
  destruct (Z.even (Qfloor q)); lia.
Qed.

Lemma round_half_even_nonneg (q : Q) : (0 <= q)%Q -> 0 <= round_half_even q.
Proof.
  intros H. apply Qfloor_resp_le in H.
  change (Qfloor 0) with 0 in H.
  pose proof (round_half_even_floor q). lia.
Qed.

Section MockDataFacts.
Context {G : Type} {RS : RandomState G}.

Lemma round2_nonneg (x : Q) : (0 <= x)%Q -> (0 <= round2 x)%Q.
Proof.
  intros H. unfold round2.
  assert (H100 : (0 <= x * 100)%Q) by (apply Qmult_le_0_compat; [exact H | easy]).
  apply round_half_even_nonneg in H100.
  unfold Qdiv. apply Qmult_le_0_compat; [|easy].
  unfold Qle, inject_Z. simpl. lia.
Qed.

Lemma choice_In {A : Type} (default : A) (a : list A) (g : G) :
  a <> [] -> In (fst (choice default a g)) a.
Proof.
  intros H. unfold choice, bind, ret.
  pose proof (choice_index_range (List.length a) g) as Hi.
  destruct (choice_index (List.length a) g) as [i g']. simpl in *.
  apply nth_In, Hi. destruct a; simpl; [congruence | lia].
Qed.

Lemma mock_row_spec (date : Z) (g : G) :
  Date (fst (mock_row date g)) = date
  /\ well_formed_row (fst (mock_row date g)).
Proof.
  unfold mock_row, bind, ret, well_formed_row.
  pose proof (choice_In "" fleets g) as Hf.
  destruct (choice "" fleets g) as [fleet g1].
  pose proof (choice_In "" vessels g1) as Hv.
  destruct (choice "" vessels g1) as [vessel g2].
  pose proof (choice_In "" alert_types g2) as Ha.
  destruct (choice "" alert_types g2) as [alert g3].
  pose proof (exponential_nonneg 2 g3) as He.
  destruct (exponential 2 g3) as [res g4].
  destruct (choice_p false [true; false] [(3 # 5)%Q; (2 # 5)%Q] g4)
    as [cleared g5].
  simpl in *. repeat split.
  - now apply Hf.
  - now apply Hv.
  - now apply Ha.
  - apply round2_nonneg, He. easy.
Qed.

Lemma mock_rows_spec (n : nat) (date : Z) (g : G) :
  List.length (fst (mock_rows n date g)) = n
  /\ Forall (fun r => Date r = date /\ well_formed_row r)
       (fst (mock_rows n date g)).
Proof.
  revert g. induction n as [| n IH]; intros g; simpl.
  - split; [reflexivity | constructor].
  - unfold bind, ret.
    pose proof (mock_row_spec date g) as Hr.
    destruct (mock_row date g) as [r g1].
    specialize (IH g1). destruct (mock_rows n date g1) as [rs g2].
    simpl in *. destruct IH as [IHl IHf]. split; [now rewrite IHl|].
    now constructor.
Qed.

Lemma mock_days_rows (ds : list Z) (g : G) :
  Forall (fun r => In (Date r) ds /\ well_formed_row r) (fst (mock_days ds g)).
Proof.
  revert g. induction ds as [| a ds IH]; intros g; simpl; [constructor|].
  unfold bind, ret. destruct (randint 5 15 g) as [n g1].
  pose proof (mock_rows_spec (Z.to_nat n) a g1) as [_ Hr].
  destruct (mock_rows (Z.to_nat n) a g1) as [today_rows g2].
  specialize (IH g2). destruct (mock_days ds g2) as [later g3]. simpl in *.
  apply Forall_app. split.
  - eapply Forall_impl; [|exact Hr]. intros r [Hd Hw]. split; [now left | exact Hw].
  - eapply Forall_impl; [|exact IH]. intros r [Hd Hw]. split; [now right | exact Hw].
Qed.

(** The rows of one day are exactly the block appended for it, whose size
    is the value drawn by [randint(5, 15)]. *)
Lemma mock_days_count (ds : list Z) (g : G) (d : Z) :
  NoDup ds -> In d ds ->
  (5 <= count_rows (fun r => (Date r =? d)%Z) (fst (mock_days ds g)) < 15)%nat.
Proof.
  revert g. induction ds as [| a ds IH]; intros g Hnd Hin; [destruct Hin|].
  simpl. unfold bind, ret.
  pose proof (randint_range 5 15 g ltac:(lia)) as Hn.
  destruct (randint 5 15 g) as [n g1].
  pose proof (mock_rows_spec (Z.to_nat n) a g1) as [Hlen Hr].
  destruct (mock_rows (Z.to_nat n) a g1) as [today_rows g2].
  pose proof (mock_days_rows ds g2) as Hlater.
  specialize (IH g2). destruct (mock_days ds g2) as [later g3]. simpl in *.
  rewrite count_rows_app. inversion Hnd as [| ? ? Hnotin Hnd']; subst.
  destruct (Z.eq_dec a d) as [-> | Hne].
  - rewrite (count_rows_all _ today_rows), (count_rows_none _ later).
    + lia.
    + eapply Forall_impl; [|exact Hlater]. intros r [Hd _].
      apply Z.eqb_neq. intros E. now rewrite E in Hd.
    + eapply Forall_impl; [|exact Hr]. intros r [Hd _]. now apply Z.eqb_eq.
  - rewrite (count_rows_none _ today_rows).
    + apply IH; [exact Hnd'|]. destruct Hin; [contradiction | assumption].
    + eapply Forall_impl; [|exact Hr]. intros r [Hd _].
      apply Z.eqb_neq. congruence.
Qed.
End MockDataFacts.

Lemma dates_NoDup : NoDup dates.
Proof.
  unfold dates. apply Injective_map_NoDup; [|apply seq_NoDup].
  intros i j H. lia.
Qed.

(* ------------------------------------------------------------------ *)
(** ** Alerts over time                                                 *)
(* ------------------------------------------------------------------ *)

Lemma filter_keyed_absent {B : Type} (f : Z -> B) (k : Z) (keys : list Z) :
  ~ In k keys ->
  filter (fun kw => fst kw =? k) (map (fun k' => (k', f k')) keys) = [].
Proof.
  induction keys as [| a keys IH]; simpl; [reflexivity|].
  intros H. destruct (Z.eqb_spec a k) as [-> | _].
  - exfalso. apply H. now left.
  - apply IH. intros Hin. apply H. now right.
Qed.

Lemma filter_keyed {B : Type} (f : Z -> B) (k : Z) (keys : list Z) :
  NoDup keys ->
  filter (fun kw => fst kw =? k) (map (fun k' => (k', f k')) keys)
  = if isin Z.eqb keys k then [(k, f k)] else [].
Proof.
  unfold isin. induction 1 as [| a keys Hnotin Hnd IH]; simpl; [reflexivity|].
  rewrite (Z.eqb_sym k a). destruct (Z.eqb_spec a k) as [-> | _]; simpl.
  - now rewrite filter_keyed_absent.
  - exact IH.
Qed.

Lemma merge_left_keyed {V W : Type} (left : list (Z * V)) (f : Z -> W)
    (keys : list Z) :
  NoDup keys ->
  merge_left left (map (fun k => (k, f k)) keys)
  = map (fun kv =>
           (fst kv,
            (snd kv, if isin Z.eqb keys (fst kv) then Some (f (fst kv))
                     else None)))
      left.
Proof.
  intros Hnd. unfold merge_left.
  induction left as [| kv left IH]; [reflexivity|].
  cbn [flat_map]. rewrite IH, filter_keyed by exact Hnd.
  cbn [map]. destruct (isin Z.eqb keys (fst kv)); reflexivity.
Qed.

Lemma date_keys_NoDup (col : list Z) : NoDup (isort Z.leb (unique Z.eqb col)).
Proof. apply isort_NoDup, unique_NoDup, Z.eqb_eq. Qed.

Lemma date_keys_In (col : list Z) (d : Z) :
  isin Z.eqb (isort Z.leb (unique Z.eqb col)) d = true <-> In d col.
Proof.
  rewrite (isin_In _ Z.eqb_eq), isort_In. apply unique_In, Z.eqb_eq.
Qed.

Lemma date_sizes_keys (df : list AlertEvent) :
  map fst (date_sizes df) = isort Z.leb (unique Z.eqb (map Date df)).
Proof.
  unfold date_sizes, groupby_size. rewrite map_map. simpl. apply map_id.
Qed.

(** A cell of a left-merged count column, once filled. *)
Lemma filled_count (col : list Z) (d : Z) :
  fillna 0
    (if isin Z.eqb (isort Z.leb (unique Z.eqb col)) d
     then Some (count_eq Z.eqb d col) else None)
  = count_eq Z.eqb d col.
Proof.
  destruct (isin Z.eqb (isort Z.leb (unique Z.eqb col)) d) eqn:E;
    [reflexivity|]. simpl. symmetry. apply (count_eq_zero _ Z.eqb_eq).
  intros H. apply date_keys_In in H. congruence.
Qed.

Lemma alerts_time_merged_eq (df : list AlertEvent) :
  alerts_time_merged df
  = map (fun d =>
           (d, ((count_eq Z.eqb d (map Date df),
                 if isin Z.eqb (map fst (active_df df)) d
                 then Some (count_eq Z.eqb d
                              (map Date (filter (fun r => negb (AutoCleared r)) df)))
                 else None),
                if isin Z.eqb (map fst (resolved_df df)) d
                then Some (count_eq Z.eqb d (map Date (filter AutoCleared df)))
                else None)))
      (isort Z.leb (unique Z.eqb (map Date df))).
Proof.
  unfold alerts_time_merged, active_df, resolved_df.
  rewrite !date_sizes_keys. unfold date_sizes, groupby_size.
  rewrite !merge_left_keyed by apply date_keys_NoDup.
  rewrite !map_map. reflexivity.
Qed.

Lemma alerts_time_df_eq (df : list AlertEvent) :
  alerts_time_df df
  = map (fun d =>
           mkTimeRow d
             (count_rows (fun r => Date r =? d) df)
             (count_rows (fun r => (Date r =? d) && negb (AutoCleared r)) df)
             (count_rows (fun r => (Date r =? d) && AutoCleared r) df))
      (isort Z.leb (unique Z.eqb (map Date df))).
Proof.
  unfold alerts_time_df. rewrite alerts_time_merged_eq, map_map.
  apply map_ext. intros d. simpl.
  unfold active_df, resolved_df. rewrite !date_sizes_keys, !filled_count.
  rewrite !count_eq_map, !count_rows_filter_and. f_equal.
  - apply count_rows_ext. intros r. apply Z.eqb_sym.
  - apply count_rows_ext. intros r. now rewrite Z.eqb_sym.
  - apply count_rows_ext. intros r. now rewrite Z.eqb_sym.
Qed.

(** C4.  The time series has one row per distinct date of the filtered
    table, in date order.  On every row the total, active and resolved
    cells are the numbers of rows, of not auto-cleared rows and of
    auto-cleared rows of that date, so active plus resolved equals the
    total; and a date that the active (resolved) grouping lacks has a
    missing cell after the left merges, which [fillna] turns into 0. *)
Theorem alerts_time_active_plus_resolved :
  forall df : list AlertEvent,
    map tr_date (alerts_time_df df)
    = isort Z.leb (unique Z.eqb (map Date df))
    /\ NoDup (map tr_date (alerts_time_df df))
    /\ (forall d, In d (map tr_date (alerts_time_df df)) <-> In d (map Date df))
    /\ Forall
         (fun row =>
            tr_total row = count_rows (fun r => Date r =? tr_date row) df
            /\ tr_active row
               = count_rows
                   (fun r => (Date r =? tr_date row) && negb (AutoCleared r)) df
            /\ tr_resolved row
               = count_rows
                   (fun r => (Date r =? tr_date row) && AutoCleared r) df
            /\ (tr_active row + tr_resolved row = tr_total row)%nat)
         (alerts_time_df df)
    /\ Forall
         (fun m =>
            (snd (fst (snd m)) = None
             <-> ~ In (fst m) (map fst (active_df df)))
            /\ (snd (snd m) = None
                <-> ~ In (fst m) (map fst (resolved_df df))))
         (alerts_time_merged df)
    /\ Forall
         (fun row =>
            (tr_active row = 0%nat
             <-> ~ In (tr_date row) (map fst (active_df df)))
            /\ (tr_resolved row = 0%nat
                <-> ~ In (tr_date row) (map fst (resolved_df df))))
         (alerts_time_df df).
Proof.
  intros df.
  assert (Hdates : map tr_date (alerts_time_df df)
                   = isort Z.leb (unique Z.eqb (map Date df))).
  { rewrite alerts_time_df_eq, map_map. simpl. apply map_id. }
  split; [exact Hdates|]. split; [|split; [|split; [|split]]].
  - rewrite Hdates. apply date_keys_NoDup.
  - intros d. rewrite Hdates, isort_In. apply unique_In, Z.eqb_eq.
  - rewrite alerts_time_df_eq. apply Forall_map, Forall_forall.
    intros d _. simpl. repeat split.
    rewrite Nat.add_comm. apply count_rows_split.
  - rewrite alerts_time_merged_eq. apply Forall_map, Forall_forall.
    intros d _. simpl. split.
    + destruct (isin Z.eqb (map fst (active_df df)) d) eqn:E.
      * apply (isin_In _ Z.eqb_eq) in E. split; [discriminate | tauto].
      * split; [|reflexivity]. intros _ H.
        apply (isin_In _ Z.eqb_eq) in H. congruence.
    + destruct (isin Z.eqb (map fst (resolved_df df)) d) eqn:E.
      * apply (isin_In _ Z.eqb_eq) in E. split; [discriminate | tauto].
      * split; [|reflexivity]. intros _ H.
        apply (isin_In _ Z.eqb_eq) in H. congruence.
  - rewrite alerts_time_df_eq. apply Forall_map, Forall_forall.
    intros d _. simpl. unfold active_df, resolved_df.
    rewrite !date_sizes_keys, !isort_In, !(unique_In _ Z.eqb_eq).
    rewrite <- !(count_eq_pos _ Z.eqb_eq), !count_eq_map, !count_rows_filter_and.
    rewrite (count_rows_ext (fun r => (d =? Date r) && negb (AutoCleared r))
               (fun r => (Date r =? d) && negb (AutoCleared r)))
      by (intros r; now rewrite Z.eqb_sym).
    rewrite (count_rows_ext (fun r => (d =? Date r) && AutoCleared r)
               (fun r => (Date r =? d) && AutoCleared r))
      by (intros r; now rewrite Z.eqb_sym).
    lia.
Qed.

(* ------------------------------------------------------------------ *)
(** ** Top-5 lists                                                      *)
(* ------------------------------------------------------------------ *)

Lemma head_length {A : Type} (n : nat) (s : list A) :
  (List.length (head n s) <= n)%nat.
Proof. apply firstn_le_length. Qed.

Lemma head_sorted {A : Type} (R : A -> A -> Prop) (n : nat) (s : list A) :
  StronglySorted R s -> StronglySorted R (head n s).
Proof.
  unfold head. revert n. induction s as [| x s IH]; intros n H.
  - rewrite firstn_nil. constructor.
  - destruct n as [| n]; simpl; [constructor|].
    inversion H as [| ? ? Hs Hx]; subst. constructor; [now apply IH|].
    rewrite Forall_forall in *. intros y Hy. apply Hx.
    rewrite <- (firstn_skipn n s). apply in_or_app. now left.
Qed.

(** The entries of a class that reach the head of a list are the first
    ones of their class. *)
Lemma head_filter_prefix {A : Type} (p : A -> bool) (n : nat) (s : list A) :
  filter p s = (filter p (head n s) ++ filter p (skipn n s))%list.
Proof.
  unfold head. rewrite <- filter_app. now rewrite firstn_skipn.
Qed.

Lemma StronglySorted_weaken {A : Type} (R R' : A -> A -> Prop) (l : list A) :
  (forall x y, R x y -> R' x y) -> StronglySorted R l -> StronglySorted R' l.
Proof.
  intros H. induction 1 as [| x l Hs IH Hx]; constructor; [exact IH|].
  eapply Forall_impl; [|exact Hx]. intros y. apply H.
Qed.

Lemma sort_values_desc_sorted {K : Type} (s : list (K * nat)) :
  StronglySorted (fun x y => (snd y <= snd x)%nat) (sort_values_desc s).
Proof.
  unfold sort_values_desc.
  apply StronglySorted_weaken
    with (R := fun x y : K * nat => (snd y <=? snd x)%nat = true).
  - intros x y H. now apply Nat.leb_le.
  - apply isort_sorted.
    + intros x y. rewrite !Nat.leb_le. lia.
    + intros x y z. rewrite !Nat.leb_le. lia.
Qed.

Lemma sort_values_desc_stable {K : Type} (c : nat) (s : list (K * nat)) :
  filter (with_count c) (sort_values_desc s) = filter (with_count c) s.
Proof.
  apply isort_stable. unfold with_count. intros x y Hx Hy.
  apply Nat.eqb_eq in Hx, Hy. apply Nat.leb_le. lia.
Qed.

Lemma fdesc_total (x y : pyfloat) : fdesc x y = true \/ fdesc y x = true.
Proof.
  destruct x, y; simpl; auto.
  rewrite !Qle_bool_iff. destruct (Qlt_le_dec q q0) as [H | H]; auto.
  right. now apply Qlt_le_weak.
Qed.

Lemma fdesc_trans (x y z : pyfloat) :
  fdesc x y = true -> fdesc y z = true -> fdesc x z = true.
Proof.
  destruct x, y, z; simpl; try easy.
  rewrite !Qle_bool_iff. intros H1 H2. now apply Qle_trans with q0.
Qed.

Lemma sort_values_desc_float_sorted {K : Type} (s : list (K * pyfloat)) :
  StronglySorted (fun x y => fdesc (snd x) (snd y) = true)
    (sort_values_desc_float s).
Proof.
  unfold sort_values_desc_float. apply isort_sorted.
  - intros x y. apply fdesc_total.
  - intros x y z. apply fdesc_trans.
Qed.

Lemma sort_values_desc_float_stable {K : Type} (m : pyfloat)
    (s : list (K * pyfloat)) :
  filter (with_mean m) (sort_values_desc_float s) = filter (with_mean m) s.
Proof.
  apply isort_stable. unfold with_mean. intros x y.
  destruct (snd x), (snd y), m; simpl; try easy.
  rewrite !Qeq_bool_iff, Qle_bool_iff. intros -> ->. apply Qle_refl.
Qed.

(** Every alert type that is a key of the grouping has rows, so its mean
    is a finite number. *)
Lemma mean_by_alert_type_finite (df : list AlertEvent) :
  Forall (fun e => exists q, snd e = Float q) (mean_by_alert_type df).
Proof.
  unfold mean_by_alert_type. apply Forall_map, Forall_forall.
  intros k Hk. simpl.
  apply isort_In, (unique_In _ String.eqb_eq), in_map_iff in Hk.
  destruct Hk as [r [Hr Hin]].
  assert (Hne : In r (filter (fun r0 => String.eqb k (AlertType r0)) df)).
  { apply filter_In. split; [exact Hin|]. apply String.eqb_eq. now symmetry. }
  destruct (filter (fun r0 => String.eqb k (AlertType r0)) df) as [| r0 rs];
    [destruct Hne|].
  simpl. eexists. reflexivity.
Qed.

Lemma slowest_types_finite (df : list AlertEvent) :
  Forall (fun e => exists q, snd e = Float q) (slowest_types df).
Proof.
  pose proof (mean_by_alert_type_finite df) as H.
  rewrite Forall_forall in *. intros e He. apply H.
  unfold slowest_types, head, sort_values_desc_float in He.
  apply (isort_In (fun x y => fdesc (snd x) (snd y))).
  rewrite <- (firstn_skipn 5). apply in_or_app. left. exact He.
Qed.

(* ------------------------------------------------------------------ *)
(** ** Grouping by vessel and alert type                                *)
(* ------------------------------------------------------------------ *)

Lemma pair_eqb_eq (x y : string * string) : pair_eqb x y = true <-> x = y.
Proof.
  destruct x as [a b], y as [c d]. unfold pair_eqb. simpl.
  rewrite andb_true_iff, !String.eqb_eq. split.
  - now intros [-> ->].
  - intros E. now inversion E.
Qed.

Lemma vessel_alert_keys_In (df : list AlertEvent) (k : string * string) :
  In k (vessel_alert_keys df) <-> In k (vessel_alert_pairs df).
Proof.
  unfold vessel_alert_keys. rewrite isort_In. apply unique_In, pair_eqb_eq.
Qed.

Lemma vessel_alert_keys_NoDup (df : list AlertEvent) :
  NoDup (vessel_alert_keys df).
Proof. apply isort_NoDup, unique_NoDup, pair_eqb_eq. Qed.

Lemma pair_count_eq (df : list AlertEvent) (v a : string) :
  count_eq pair_eqb (v, a) (vessel_alert_pairs df) = pair_count df v a.
Proof.
  unfold vessel_alert_pairs, pair_count. rewrite count_eq_map.
  apply count_rows_ext. intros r. unfold pair_eqb. simpl.
  now rewrite (String.eqb_sym v), (String.eqb_sym a).
Qed.

Lemma vessel_alert_sizes_eq (df : list AlertEvent) :
  vessel_alert_sizes df
  = map (fun k => (k, pair_count df (fst k) (snd k))) (vessel_alert_keys df).
Proof.
  unfold vessel_alert_sizes, groupby_size. apply map_ext.
  intros [v a]. now rewrite pair_count_eq.
Qed.

Lemma pair_count_pos (df : list AlertEvent) (v a : string) :
  (0 < pair_count df v a)%nat <-> In (v, a) (vessel_alert_pairs df).
Proof.
  rewrite <- pair_count_eq. apply count_eq_pos, pair_eqb_eq.
Qed.

Lemma vessel_alert_sizes_In (df : list AlertEvent) (v a : string) (c : nat) :
  In ((v, a), c) (vessel_alert_sizes df)
  <-> c = pair_count df v a /\ (0 < c)%nat.
Proof.
  rewrite vessel_alert_sizes_eq, in_map_iff. split.
  - intros [k [E Hk]]. inversion E; subst. simpl. split; [reflexivity|].
    apply pair_count_pos, vessel_alert_keys_In. exact Hk.
  - intros [-> Hpos]. exists (v, a). split; [reflexivity|].
    apply vessel_alert_keys_In, pair_count_pos. exact Hpos.
Qed.

(** C6.  The repeat-alert table holds exactly the (vessel, alert type)
    pairs that occur at least 3 times in the filtered table, each once and
    with its number of occurrences, in descending order of that number. *)
Theorem repeat_alerts_table_exact :
  forall df : list AlertEvent,
    (forall v a c,
        In ((v, a), c) (repeat_alerts_table df)
        <-> c = pair_count df v a /\ (3 <= c)%nat)
    /\ NoDup (map fst (repeat_alerts_table df))
    /\ StronglySorted (fun x y => (snd y <= snd x)%nat)
         (repeat_alerts_table df).
Proof.
  intros df. split; [|split].
  - intros v a c. unfold repeat_alerts_table, sort_values_desc, repeat_alerts.
    rewrite isort_In, filter_In, vessel_alert_sizes_In, Nat.leb_le.
    cbn [snd]. lia.
  - unfold repeat_alerts_table, sort_values_desc, repeat_alerts.
    apply isort_map_NoDup.
    rewrite vessel_alert_sizes_eq.
    assert (H : forall (p : (string * string) * nat -> bool) keys,
               NoDup keys ->
               NoDup (map fst
                        (filter p
                           (map (fun k => (k, pair_count df (fst k) (snd k)))
                              keys)))).
    { intros p keys. induction 1 as [| k keys Hk Hnd IH]; simpl; [constructor|].
      destruct (p (k, pair_count df (fst k) (snd k))); [|exact IH].
      simpl. constructor; [|exact IH].
      intros Hin. apply Hk. apply in_map_iff in Hin.
      destruct Hin as [[k' c'] [E Hin]]. simpl in E. subst k'.
      apply filter_In in Hin. destruct Hin as [Hin _].
      apply in_map_iff in Hin. destruct Hin as [k'' [E Hin]].
      inversion E; now subst. }
    apply H, vessel_alert_keys_NoDup.
  - apply sort_values_desc_sorted.
Qed.

(* ------------------------------------------------------------------ *)
(** ** Heatmap                                                          *)
(* ------------------------------------------------------------------ *)

Lemma bool_eq_by_iff (b1 b2 : bool) : (b1 = true <-> b2 = true) -> b1 = b2.
Proof. destruct b1, b2; intuition congruence. Qed.

Lemma heatmap_index_In (df : list AlertEvent) (v : string) :
  In v (map (fun kc => fst (fst kc)) (vessel_alert_sizes df))
  <-> In v (map Vessel df).
Proof.
  rewrite vessel_alert_sizes_eq, map_map. simpl. rewrite !in_map_iff. split.
  - intros [[v' a] [E Hk]]. simpl in E. subst v'.
    apply vessel_alert_keys_In in Hk. unfold vessel_alert_pairs in Hk.
    apply in_map_iff in Hk. destruct Hk as [r [E Hr]].
    exists r. split; [now inversion E | exact Hr].
  - intros [r [E Hr]]. exists (Vessel r, AlertType r). split; [exact E|].
    apply vessel_alert_keys_In. unfold vessel_alert_pairs.
    apply in_map_iff. now exists r.
Qed.

Lemma heatmap_columns_In (df : list AlertEvent) (a : string) :
  In a (map (fun kc => snd (fst kc)) (vessel_alert_sizes df))
  <-> In a (map AlertType df).
Proof.
  rewrite vessel_alert_sizes_eq, map_map. simpl. rewrite !in_map_iff. split.
  - intros [[v a'] [E Hk]]. simpl in E. subst a'.
    apply vessel_alert_keys_In in Hk. unfold vessel_alert_pairs in Hk.
    apply in_map_iff in Hk. destruct Hk as [r [E Hr]].
    exists r. split; [now inversion E | exact Hr].
  - intros [r [E Hr]]. exists (Vessel r, AlertType r). split; [exact E|].
    apply vessel_alert_keys_In. unfold vessel_alert_pairs.
    apply in_map_iff. now exists r.
Qed.

(** A cell of the unstacked table, once filled, is the pair's count. *)
Lemma filled_lookup_pair (df : list AlertEvent) (v a : string) :
  fillna 0 (lookup_pair (v, a) (vessel_alert_sizes df)) = pair_count df v a.
Proof.
  unfold lookup_pair. rewrite vessel_alert_sizes_eq.
  rewrite (find_keyed pair_eqb pair_eqb_eq).
  destruct (isin pair_eqb (vessel_alert_keys df) (v, a)) eqn:E;
    [reflexivity|]. simpl.
  destruct (pair_count df v a) eqn:Ec; [reflexivity|]. exfalso.
  assert (H : In (v, a) (vessel_alert_keys df)).
  { apply vessel_alert_keys_In, pair_count_pos. lia. }
  apply (isin_In _ pair_eqb_eq) in H. congruence.
Qed.

Lemma heatmap_df_eq (df : list AlertEvent) :
  heatmap_df df
  = map (fun v =>
           (v, map (fun a => (a, pair_count df v a)) (heatmap_columns df)))
      (heatmap_index df).
Proof.
  unfold heatmap_df, unstack. fold (heatmap_index df) (heatmap_columns df).
  rewrite map_map. apply map_ext. intros v. simpl. f_equal.
  rewrite map_map. apply map_ext. intros a. simpl.
  now rewrite filled_lookup_pair.
Qed.

Lemma heatmap_cell_eq (df : list AlertEvent) (v a : string) :
  heatmap_cell (heatmap_df df) v a
  = if isin String.eqb (map Vessel df) v
       && isin String.eqb (map AlertType df) a
    then Some (pair_count df v a) else None.
Proof.
  unfold heatmap_cell. rewrite heatmap_df_eq.
  rewrite (find_keyed String.eqb String.eqb_eq).
  assert (Hv : isin String.eqb (heatmap_index df) v
               = isin String.eqb (map Vessel df) v).
  { apply bool_eq_by_iff. rewrite !(isin_In _ String.eqb_eq).
    unfold heatmap_index.
    rewrite isort_In, (unique_In _ String.eqb_eq). apply heatmap_index_In. }
  assert (Ha : isin String.eqb (heatmap_columns df) a
               = isin String.eqb (map AlertType df) a).
  { apply bool_eq_by_iff. rewrite !(isin_In _ String.eqb_eq).
    unfold heatmap_columns.
    rewrite isort_In, (unique_In _ String.eqb_eq). apply heatmap_columns_In. }
  rewrite Hv. destruct (isin String.eqb (map Vessel df) v); [|reflexivity].
  simpl. rewrite (find_keyed String.eqb String.eqb_eq), Ha.
  now destruct (isin String.eqb (map AlertType df) a).
Qed.

(** C8, as the claim has it, fails: with a single row in the filtered
    table the matrix has one row and one column, and a combination of the
    vocabularies such as (Vessel_2, Speeding) has no cell at all. *)
Lemma heatmap_misses_unobserved_vessel :
  In "Vessel_2" vessels
  /\ In "Speeding" alert_types
  /\ heatmap_cell (heatmap_df one_speeding_row) "Vessel_2" "Speeding" = None
  /\ heatmap_df one_speeding_row = [("Vessel_1", [("Speeding", 1%nat)])].
Proof.
  repeat split.
  - right. left. reflexivity.
  - left. reflexivity.
Qed.

(** C8, amended.  The heatmap has the vessels that occur in the filtered
    table as its index and the alert types that occur in it as its
    columns, each label once; every combination of such a vessel with such
    an alert type has a cell holding the number of rows with that pair (0
    when there is none), and a vessel or alert type that does not occur has
    no cell. *)
Theorem heatmap_observed_combinations :
  forall (df : list AlertEvent) (v a : string),
    heatmap_cell (heatmap_df df) v a
    = (if isin String.eqb (map Vessel df) v
          && isin String.eqb (map AlertType df) a
       then Some (pair_count df v a) else None)
    /\ NoDup (map fst (heatmap_df df))
    /\ (In v (map fst (heatmap_df df)) <-> In v (map Vessel df))
    /\ Forall
         (fun vrow =>
            NoDup (map fst (snd vrow))
            /\ (In a (map fst (snd vrow)) <-> In a (map AlertType df)))
         (heatmap_df df).
Proof.
  intros df v a. split; [apply heatmap_cell_eq|].
  rewrite heatmap_df_eq, map_map. simpl. rewrite map_id.
  split; [|split].
  - apply isort_NoDup, unique_NoDup, String.eqb_eq.
  - unfold heatmap_index.
    rewrite isort_In, (unique_In _ String.eqb_eq). apply heatmap_index_In.
  - apply Forall_map, Forall_forall. intros v' _. simpl.
    rewrite map_map. simpl. rewrite map_id. split.
    + apply isort_NoDup, unique_NoDup, String.eqb_eq.
    + unfold heatmap_columns.
      rewrite isort_In, (unique_In _ String.eqb_eq). apply heatmap_columns_In.
Qed.

(* ------------------------------------------------------------------ *)
(** ** Resolution time distribution                                     *)
(* ------------------------------------------------------------------ *)

Ltac q_bools :=
  repeat match goal with
    | H : Qle_bool _ _ = true |- _ => apply Qle_bool_iff in H
    | H : Qle_bool _ _ = false |- _ =>
        apply not_true_iff_false in H; rewrite Qle_bool_iff in H
    | H : Qeq_bool _ _ = true |- _ => apply Qeq_bool_iff in H
    | H : Qeq_bool _ _ = false |- _ => apply Qeq_bool_neq in H
    end.

(** [pd.cut] with these bins and [include_lowest] puts a time in the
    bucket the labels announce. *)
Lemma cut_bucket_of (x : Q) : cut x = bucket_of x.
Proof.
  unfold cut, bucket_of, searchsorted_left, bins, Qlt_bool.
  cbn [filter fltb feqb nth]. unfold Qlt_bool.
  destruct (Qle_bool 0 x) eqn:H0, (Qle_bool x 0) eqn:G0,
    (Qle_bool x (1 # 4)) eqn:G1, (Qle_bool x 1) eqn:G2,
    (Qle_bool x 3) eqn:G3, (Qle_bool x 6) eqn:G4, (Qle_bool x 12) eqn:G5,
    (Qeq_bool x 0) eqn:E0;
    try reflexivity; exfalso; q_bools; try lra.
  all: apply E0; apply Qle_antisym; assumption.
Qed.

Lemma keyed_seq_sorted (f : nat -> nat) (start len : nat) :
  StronglySorted (fun x y => (fst x <=? fst y)%nat = true)
    (map (fun c => (c, f c)) (seq start len)).
Proof.
  revert start. induction len as [| len IH]; intros start; simpl.
  - constructor.
  - constructor; [apply IH|].
    apply Forall_map, Forall_forall. intros c Hc. simpl.
    apply in_seq in Hc. apply Nat.leb_le. lia.
Qed.

(** Sorting by descending count and then by index gives the categories
    back in category order. *)
Lemma sort_index_value_counts (f : nat -> nat) (ncat : nat) :
  sort_index (sort_values_desc (map (fun c => (c, f c)) (seq 0 ncat)))
  = map (fun c => (c, f c)) (seq 0 ncat).
Proof.
  apply sorted_perm_eq
    with (R := fun x y : nat * nat => (fst x <=? fst y)%nat = true).
  - intros x y Hx Hy Hxy Hyx.
    apply isort_In, isort_In, in_map_iff in Hx.
    apply isort_In, isort_In, in_map_iff in Hy.
    destruct Hx as [c [<- _]], Hy as [c' [<- _]]. simpl in *.
    apply Nat.leb_le in Hxy, Hyx. assert (c = c') by lia. now subst.
  - apply isort_sorted.
    + intros x y. rewrite !Nat.leb_le. lia.
    + intros x y z. rewrite !Nat.leb_le. lia.
  - apply keyed_seq_sorted.
  - unfold sort_index, sort_values_desc.
    now rewrite !isort_perm.
Qed.

Lemma bin_counts_eq (col : list (option nat)) :
  bin_counts col
  = map (fun c => (nth c labels "", count_eq code_eqb (Some c) col))
      (seq 0 (List.length labels)).
Proof.
  unfold bin_counts, categorical_value_counts.
  rewrite sort_index_value_counts, map_map. reflexivity.
Qed.

Lemma ResBin_count (df : list AlertEvent) (c : nat) :
  count_eq code_eqb (Some c) (map (fun r => cut (ResolutionTime r)) df)
  = bucket_count df c.
Proof.
  unfold bucket_count. rewrite count_eq_map.
  apply count_rows_ext. intros r. now rewrite cut_bucket_of.
Qed.

Lemma bucket_of_nonneg (x : Q) :
  (0 <= x)%Q -> exists c, bucket_of x = Some c /\ (c < 6)%nat.
Proof.
  intros H. unfold bucket_of, Qlt_bool.
  apply Qle_bool_iff in H. rewrite H. simpl.
  destruct (Qle_bool x (1 # 4)); [exists 0%nat; split; [reflexivity | lia]|].
  destruct (Qle_bool x 1); [exists 1%nat; split; [reflexivity | lia]|].
  destruct (Qle_bool x 3); [exists 2%nat; split; [reflexivity | lia]|].
  destruct (Qle_bool x 6); [exists 3%nat; split; [reflexivity | lia]|].
  destruct (Qle_bool x 12); [exists 4%nat; split; [reflexivity | lia]|].
  exists 5%nat. split; [reflexivity | lia].
Qed.

Lemma bucket_counts_total (df : list AlertEvent) :
  Forall (fun r => (0 <= ResolutionTime r)%Q) df ->
  (bucket_count df 0 + bucket_count df 1 + bucket_count df 2
   + bucket_count df 3 + bucket_count df 4 + bucket_count df 5)%nat
  = List.length df.
Proof.
  unfold bucket_count.
  induction 1 as [| r df Hr _ IH]; [reflexivity|].
  cbn [count_rows List.length].
  destruct (bucket_of_nonneg _ Hr) as [c [-> Hc]].
  do 6 (destruct c as [| c]; [cbn [code_eqb Nat.eqb] in *; lia|]). lia.
Qed.

Lemma sidebar_filter_Forall (P : AlertEvent -> Prop) (sel : Selection)
    (df : list AlertEvent) :
  Forall P df -> Forall P (sidebar_filter sel df).
Proof.
  intros H. unfold sidebar_filter. destruct (max_date df); [|constructor].
  destruct (period_range (period sel) z (picked_start sel) (picked_end sel))
    as [start_date end_date].
  rewrite filter_pipeline_spec. rewrite Forall_forall in *.
  intros r Hr. apply filter_In in Hr. now apply H.
Qed.

(** C5.  The binned distribution has exactly the six buckets 0-15 min,
    15-60 min, 1-3 h, 3-6 h, 6-12 h and over 12 h, in that order, each with
    the number of rows whose resolution time falls in it; on a table whose
    resolution times are non-negative, as they are in every filtered set
    of generated rows, the six counts add up to the number of rows; and
    the times 0.1, 0.3, 1.5, 4, 7, 13 give one row per bucket. *)
Theorem binned_distribution_buckets :
  (forall df : list AlertEvent,
      Forall (fun r => (0 <= ResolutionTime r)%Q) df ->
      binned_distribution df
      = Some [("0–15 min", bucket_count df 0); ("15–60 m", bucket_count df 1);
              ("1–3 hrs", bucket_count df 2); ("3–6 hrs", bucket_count df 3);
              ("6–12 hrs", bucket_count df 4); ("> 12 hrs", bucket_count df 5)]
      /\ (bucket_count df 0 + bucket_count df 1 + bucket_count df 2
          + bucket_count df 3 + bucket_count df 4 + bucket_count df 5)%nat
         = List.length df)
  /\ (forall (G : Type) (RS : RandomState G) (sel : Selection),
        Forall (fun r => (0 <= ResolutionTime r)%Q)
          (sidebar_filter sel (@mock_data G RS)))
  /\ binned_distribution
       (rows_with_times [(1 # 10)%Q; (3 # 10)%Q; (3 # 2)%Q; 4%Q; 7%Q; 13%Q])
     = Some [("0–15 min", 1%nat); ("15–60 m", 1%nat); ("1–3 hrs", 1%nat);
             ("3–6 hrs", 1%nat); ("6–12 hrs", 1%nat); ("> 12 hrs", 1%nat)].
Proof.
  split; [|split; [|reflexivity]].
  - intros df Hnonneg. split; [|now apply bucket_counts_total].
    unfold binned_distribution, bind, assign_ResBin, res_time_counts. simpl.
    rewrite bin_counts_eq. simpl. now rewrite !ResBin_count.
  - intros G RS sel. apply sidebar_filter_Forall.
    pose proof (mock_days_rows dates (seed 42)) as H.
    unfold mock_data. eapply Forall_impl; [|exact H].
    intros r [_ Hw]. apply Hw.
Qed.

Lemma binned_distribution_buckets_witness :
  binned_distribution (rows_with_times [(1 # 8)%Q; 2%Q; 20%Q; 0%Q])
  = Some [("0–15 min", 2%nat); ("15–60 m", 0%nat); ("1–3 hrs", 1%nat);
          ("3–6 hrs", 0%nat); ("6–12 hrs", 0%nat); ("> 12 hrs", 1%nat)]
  /\ (2 + 0 + 1 + 0 + 0 + 1)%nat
     = List.length (rows_with_times [(1 # 8)%Q; 2%Q; 20%Q; 0%Q]).
Proof.
  apply (proj1 binned_distribution_buckets
           (rows_with_times [(1 # 8)%Q; 2%Q; 20%Q; 0%Q])).
  repeat constructor; simpl; unfold Qle; simpl; lia.
Defined.

(* ------------------------------------------------------------------ *)
(** ** Effect of the aggregations on [df]                               *)
(* ------------------------------------------------------------------ *)

Lemma aggregate_rows (a : Aggregation) (df : DataFrame) :
  rows (snd (aggregate a df)) = rows df.
Proof. destruct a; reflexivity. Qed.

(** The value of an aggregation depends on the rows only. *)
Lemma aggregate_value_rows (a : Aggregation) (df df' : DataFrame) :
  rows df = rows df' -> fst (aggregate a df) = fst (aggregate a df').
Proof.
  intros E. destruct a; unfold aggregate, bind, reads, ret,
    assign_ResBin, res_time_counts; simpl; now rewrite E.
Qed.

Lemma run_all_values (todo : list Aggregation) (df : DataFrame) :
  fst (run_all todo df) = map (fun a => fst (aggregate a df)) todo
  /\ rows (snd (run_all todo df)) = rows df.
Proof.
  revert df. induction todo as [| a todo IH]; intros df; simpl.
  - split; reflexivity.
  - unfold bind, ret. pose proof (aggregate_rows a df) as Hr.
    destruct (aggregate a df) as [v df1] eqn:Ea. simpl in Hr.
    specialize (IH df1).
    destruct (run_all todo df1) as [vs df2]. simpl in *.
    destruct IH as [IHv IHr]. split; [|congruence].
    rewrite IHv. f_equal.
    apply map_ext. intros b. now apply aggregate_value_rows.
Qed.

(** C9, as the claim has it, fails: computing the binned distribution
    leaves [df] with one more column than it had. *)
Lemma binned_distribution_mutates_frame :
  snd (aggregate AggBinnedDistribution (filtered_frame one_speeding_row))
  = mkDataFrame one_speeding_row (Some [Some 1%nat])
  /\ snd (aggregate AggBinnedDistribution (filtered_frame one_speeding_row))
     <> filtered_frame one_speeding_row.
Proof.
  split; [reflexivity|]. intros H. discriminate H.
Qed.

(** C9, amended.  No aggregation changes the rows of the filtered table,
    and every aggregation other than the binned distribution leaves the
    table exactly as it was; the binned distribution assigns the [ResBin]
    column, holding the bucket of each row.  The value of an aggregation is
    a function of the rows alone: it is the same whichever aggregations
    ran before it, and a run of the whole menu yields the values the
    aggregations have on the table as filtered. *)
Theorem aggregations_frame_effect :
  forall (a : Aggregation) (df : DataFrame),
    rows (snd (aggregate a df)) = rows df
    /\ match a with
       | AggBinnedDistribution =>
           ResBin (snd (aggregate a df))
           = Some (map (fun r => cut (ResolutionTime r)) (rows df))
       | _ => snd (aggregate a df) = df
       end
    /\ (forall b : Aggregation,
          fst (aggregate a (snd (aggregate b df))) = fst (aggregate a df))
    /\ fst (dashboard df) = map (fun a' => fst (aggregate a' df)) script_order
    /\ rows (snd (dashboard df)) = rows df.
Proof.
  intros a df. split; [apply aggregate_rows|]. split; [|split].
  - destruct a; try reflexivity; now destruct df.
  - intros b. apply aggregate_value_rows, aggregate_rows.
  - apply run_all_values.
Qed.

(* ------------------------------------------------------------------ *)
(** ** Calendar: ordinals and their fields                              *)
(* ------------------------------------------------------------------ *)

Section CalendarFacts.
Import Calendar.

Ltac quotient_with r := symmetry; apply Z.div_unique with r; [left; lia | lia].
Ltac remainder_with q := symmetry; apply Z.mod_unique with q; [left; lia | lia].

Lemma days_before_year_digits (q a b c : Z) :
  0 <= a <= 3 -> 0 <= b <= 24 -> 0 <= c <= 3 ->
  days_before_year (400 * q + 100 * a + 4 * b + c + 1)
  = 146097 * q + 36524 * a + 1461 * b + 365 * c.
Proof.
  intros Ha Hb Hc. unfold days_before_year.
  replace (400 * q + 100 * a + 4 * b + c + 1 - 1)
    with (400 * q + 100 * a + 4 * b + c) by lia.
  cbv zeta.
  assert (E4 : (400 * q + 100 * a + 4 * b + c) / 4 = 100 * q + 25 * a + b)
    by (quotient_with c).
  assert (E100 : (400 * q + 100 * a + 4 * b + c) / 100 = 4 * q + a)
    by (quotient_with (4 * b + c)).
  assert (E400 : (400 * q + 100 * a + 4 * b + c) / 400 = q)
    by (quotient_with (100 * a + 4 * b + c)).
  rewrite E4, E100, E400. lia.
Qed.

Lemma is_leap_digits (q a b c : Z) :
  0 <= a <= 3 -> 0 <= b <= 24 -> 0 <= c <= 3 ->
  is_leap (400 * q + 100 * a + 4 * b + c + 1)
  = (c =? 3) && (negb (b =? 24) || (a =? 3)).
Proof.
  intros Ha Hb Hc. unfold is_leap.
  destruct (Z.eqb_spec c 3) as [-> | Hc3].
  - assert (E4 : (400 * q + 100 * a + 4 * b + 3 + 1) mod 4 = 0)
      by (remainder_with (100 * q + 25 * a + b + 1)).
    rewrite E4. change (0 =? 0) with true. cbn [andb].
    destruct (Z.eqb_spec b 24) as [-> | Hb24].
    + assert (E100 : (400 * q + 100 * a + 4 * 24 + 3 + 1) mod 100 = 0)
        by (remainder_with (4 * q + a + 1)).
      rewrite E100. change (0 =? 0) with true. cbn [negb orb].
      destruct (Z.eqb_spec a 3) as [-> | Ha3].
      * assert (E400 : (400 * q + 100 * 3 + 4 * 24 + 3 + 1) mod 400 = 0)
          by (remainder_with (q + 1)).
        rewrite E400. reflexivity.
      * assert (E400 : (400 * q + 100 * a + 4 * 24 + 3 + 1) mod 400
                       = 100 * (a + 1))
          by (remainder_with q).
        rewrite E400. destruct (Z.eqb_spec (100 * (a + 1)) 0); [lia | reflexivity].
    + assert (E100 : (400 * q + 100 * a + 4 * b + 3 + 1) mod 100 = 4 * (b + 1))
        by (remainder_with (4 * q + a)).
      rewrite E100. destruct (Z.eqb_spec (4 * (b + 1)) 0); [lia | reflexivity].
  - assert (E4 : (400 * q + 100 * a + 4 * b + c + 1) mod 4 = c + 1)
      by (remainder_with (100 * q + 25 * a + b)).
    rewrite E4. destruct (Z.eqb_spec (c + 1) 0); [lia | reflexivity].
Qed.

Lemma month_check_all (leapyear : bool) (n : Z) :
  0 <= n <= 364 -> month_check leapyear n = true.
Proof.
  intros Hn.
  assert (H : forallb (fun i => month_check true (Z.of_nat i)
                                && month_check false (Z.of_nat i))
                (seq 0 365) = true) by (vm_compute; reflexivity).
  rewrite forallb_forall in H. specialize (H (Z.to_nat n)).
  rewrite Z2Nat.id in H by lia.
  apply andb_true_iff in H; [|apply in_seq; lia].
  destruct leapyear; tauto.
Qed.

Lemma ord2ymd_ymd2ord (n : Z) :
  1 <= month n <= 12 /\ 1 <= day n /\ ymd2ord (year n) (month n) (day n) = n.
Proof.
  unfold year, month, day, ord2ymd, DI400Y, DI100Y, DI4Y. cbv zeta.
  pose proof (Z.div_mod (n - 1) 146097 ltac:(lia)) as E400.
  pose proof (Z.mod_pos_bound (n - 1) 146097 ltac:(lia)) as B400.
  set (q := (n - 1) / 146097) in *. set (r400 := (n - 1) mod 146097) in *.
  pose proof (Z.div_mod r400 36524 ltac:(lia)) as E100.
  pose proof (Z.mod_pos_bound r400 36524 ltac:(lia)) as B100.
  set (n100 := r400 / 36524) in *. set (r100 := r400 mod 36524) in *.
  pose proof (Z.div_mod r100 1461 ltac:(lia)) as E4.
  pose proof (Z.mod_pos_bound r100 1461 ltac:(lia)) as B4.
  set (n4 := r100 / 1461) in *. set (r4 := r100 mod 1461) in *.
  pose proof (Z.div_mod r4 365 ltac:(lia)) as E1.
  pose proof (Z.mod_pos_bound r4 365 ltac:(lia)) as B1.
  set (n1 := r4 / 365) in *. set (r1 := r4 mod 365) in *.
  assert (R100 : 0 <= n100 <= 4) by lia.
  assert (R4 : 0 <= n4 <= 24) by lia.
  assert (R1 : 0 <= n1 <= 4) by lia.
  destruct (Z.eqb_spec n1 4) as [N1 | N1]; cbn [orb].
  - (* last day of a leap year that closes a 4-year block *)
    cbn [fst snd]. split; [lia|]. split; [lia|].
    replace (q * 400 + 1 + (n100 * 100 + n4 * 4 + n1) - 1)
      with (400 * q + 100 * n100 + 4 * n4 + 3 + 1) by lia.
    unfold ymd2ord, days_before_month.
    rewrite days_before_year_digits, is_leap_digits by lia.
    destruct (Z.eqb_spec n4 24); [lia|].
    change (3 =? 3) with true. change (2 <? 12) with true.
    change (nth (Z.to_nat 12) DAYS_BEFORE_MONTH 0) with 334.
    cbn [andb orb negb Z_of_bool]. lia.
  - destruct (Z.eqb_spec n100 4) as [N100 | N100].
    + (* last day of a 400-year cycle *)
      cbn [fst snd]. split; [lia|]. split; [lia|].
      replace (q * 400 + 1 + (n100 * 100 + n4 * 4 + n1) - 1)
        with (400 * q + 100 * 3 + 4 * 24 + 3 + 1) by lia.
      unfold ymd2ord, days_before_month.
      rewrite days_before_year_digits, is_leap_digits by lia.
      change ((3 =? 3) && (negb (24 =? 24) || (3 =? 3))) with true.
      change (2 <? 12) with true.
      change (nth (Z.to_nat 12) DAYS_BEFORE_MONTH 0) with 334.
      cbn [andb Z_of_bool]. lia.
    + pose proof (month_check_all
                    ((n1 =? 3) && (negb (n4 =? 24) || (n100 =? 3))) r1
                    ltac:(lia)) as Hm.
      unfold month_check in Hm. cbv zeta in Hm.
      set (leapyear := (n1 =? 3) && (negb (n4 =? 24) || (n100 =? 3))) in *.
      set (m0 := Z.shiftr (r1 + 50) 5) in *.
      set (p0 := nth (Z.to_nat m0) DAYS_BEFORE_MONTH 0
                 + Z_of_bool ((2 <? m0) && leapyear)) in *.
      replace (q * 400 + 1 + (n100 * 100 + n4 * 4 + n1))
        with (400 * q + 100 * n100 + 4 * n4 + n1 + 1) by lia.
      destruct (r1 <? p0); cbn [fst snd] in *;
        rewrite !andb_true_iff in Hm;
        destruct Hm as [[[Hm1 Hm2] Hm3] Hm4];
        apply Z.leb_le in Hm1, Hm2, Hm3; apply Z.eqb_eq in Hm4;
        (split; [lia|]); (split; [lia|]);
        unfold ymd2ord, days_before_month;
        rewrite days_before_year_digits, is_leap_digits by lia;
        fold leapyear; lia.
Qed.

Lemma days_before_month_quarter (y m : Z) :
  1 <= m <= 12 ->
  1 <= quarter_month m <= m
  /\ m <= quarter_month m + 2
  /\ days_before_month y (quarter_month m) <= days_before_month y m
  /\ days_before_month y 1 = 0
  /\ 0 <= days_before_month y m <= 335.
Proof.
  intros Hm. unfold days_before_month.
  assert (M : m = 1 \/ m = 2 \/ m = 3 \/ m = 4 \/ m = 5 \/ m = 6 \/ m = 7
              \/ m = 8 \/ m = 9 \/ m = 10 \/ m = 11 \/ m = 12) by lia.
  destruct (is_leap y);
    repeat (destruct M as [-> | M]; [vm_compute; intuition discriminate|]);
    subst m; vm_compute; intuition discriminate.
Qed.

End CalendarFacts.

(* ------------------------------------------------------------------ *)
(** ** Period presets                                                   *)
(* ------------------------------------------------------------------ *)

Lemma fold_left_max_spec (l : list Z) (a : Z) :
  (fold_left Z.max l a = a \/ In (fold_left Z.max l a) l)
  /\ a <= fold_left Z.max l a
  /\ Forall (fun x => x <= fold_left Z.max l a) l.
Proof.
  revert a. induction l as [| x l IH]; intros a; simpl.
  - repeat split; [now left | lia | constructor].
  - destruct (IH (Z.max a x)) as (Hin & Hle & Hall). repeat split.
    + destruct Hin as [E | Hin]; [|now right; right].
      rewrite E. destruct (Z.max_spec a x) as [[_ ->] | [_ ->]]; auto.
    + lia.
    + constructor; [lia | exact Hall].
Qed.

Lemma max_date_spec (df : list AlertEvent) (today : Z) :
  max_date df = Some today ->
  In today (map Date df) /\ Forall (fun r => Date r <= today) df.
Proof.
  destruct df as [| r df]; simpl; [discriminate|].
  intros E. inversion E as [E']. clear E.
  destruct (fold_left_max_spec (map Date df) (Date r)) as (Hin & Hle & Hall).
  split.
  - destruct Hin as [E | Hin]; [left; now rewrite E | now right].
  - constructor; [exact Hle|].
    rewrite Forall_forall in *. intros x Hx. apply Hall. now apply in_map.
Qed.



(* ================================================================== *)
(** * Further properties of the script                                  *)
(* ================================================================== *)

(* ------------------------------------------------------------------ *)
(** ** KPI values on any table                                          *)
(* ------------------------------------------------------------------ *)

Lemma length_filter_split {A : Type} (p : A -> bool) (l : list A) :
  (List.length (filter (fun x => negb (p x)) l) + List.length (filter p l))%nat
  = List.length l.
Proof.
  induction l as [| x l IH]; simpl; [reflexivity|].
  destruct (p x); simpl; lia.
Qed.

(** X1.  The two numbers printed under the total on the first KPI card add
    up to it: active alerts plus resolved alerts is the total. *)
Theorem active_plus_resolved_is_total :
  forall df : list AlertEvent,
    (active_alerts df + resolved_alerts df)%nat = total_alerts df.
Proof.
  intros df. unfold active_alerts, resolved_alerts, total_alerts.
  apply length_filter_split.
Qed.

Lemma round_half_even_comp (x y : Q) :
  (x == y)%Q -> round_half_even x = round_half_even y.
Proof.
  intros E. unfold round_half_even.
  assert (Ef : Qfloor x = Qfloor y) by now rewrite E.
  rewrite Ef.
  assert (Ec : Qcompare (x - inject_Z (Qfloor y)) (1 # 2)
               = Qcompare (y - inject_Z (Qfloor y)) (1 # 2)) by now rewrite E.
  now rewrite Ec.
Qed.

Lemma py_round_comp (x y : Q) (ndigits : nat) :
  (x == y)%Q -> py_round (Float x) ndigits = py_round (Float y) ndigits.
Proof.
  intros E. unfold py_round. do 2 f_equal. f_equal.
  apply round_half_even_comp. now rewrite E.
Qed.

Lemma auto_cleared_sum_Q (df : list AlertEvent) :
  (inject_Z (auto_cleared_sum df)
   == Qsum (map (fun r => Q_of_bool (AutoCleared r)) df))%Q.
Proof.
  unfold auto_cleared_sum. induction df as [| r df IH]; simpl; [reflexivity|].
  rewrite inject_Z_plus, IH. now destruct (AutoCleared r).
Qed.

(** X2.  The "resolution rate" of the overview section is the auto-cleared
    percentage of the first KPI row computed a second way: on every table,
    empty or not, the two values are the same. *)
Theorem resolution_rate_is_auto_cleared_percent :
  forall df : list AlertEvent,
    resolution_rate df = auto_cleared_percent df.
Proof.
  intros df. unfold resolution_rate, auto_cleared_percent.
  destruct df as [| r df]; [reflexivity|].
  unfold np_true_divide, series_mean.
  set (rows := r :: df).
  replace (Z.of_nat (List.length rows) =? 0) with false
    by (symmetry; apply Z.eqb_neq; simpl; lia).
  cbn [map]. fold (map (fun r0 => Q_of_bool (AutoCleared r0)) rows).
  cbn [fmul]. apply py_round_comp.
  rewrite length_map, auto_cleared_sum_Q. reflexivity.
Qed.

Lemma round_half_even_le (q : Q) (n : Z) :
  (q <= inject_Z n)%Q -> round_half_even q <= n.
Proof.
  intros H. unfold round_half_even.
  pose proof (Qfloor_le q) as Hf.
  assert (Hfn : Qfloor q <= n).
  { apply Qfloor_resp_le in H. now rewrite Qfloor_Z in H. }
  destruct (Qcompare (q - inject_Z (Qfloor q)) (1 # 2)) eqn:Ec; [| lia |].
  - destruct (Z.even (Qfloor q)); [lia|].
    destruct (Z.eq_dec (Qfloor q) n) as [E | ]; [|lia].
    apply Qeq_alt in Ec. rewrite E in Ec.
    exfalso. generalize dependent (inject_Z n). intros nq H Ec. lra.
  - destruct (Z.eq_dec (Qfloor q) n) as [E | ]; [|lia].
    apply Qgt_alt in Ec. rewrite E in Ec.
    exfalso. generalize dependent (inject_Z n). intros nq H Ec. lra.
Qed.

Lemma round_half_even_ge (q : Q) (n : Z) :
  (inject_Z n <= q)%Q -> n <= round_half_even q.
Proof.
  intros H. apply Qfloor_resp_le in H. rewrite Qfloor_Z in H.
  pose proof (round_half_even_floor q). lia.
Qed.

(** Rounding a percentage to one decimal keeps it a percentage. *)
Lemma py_round_percent (q : Q) :
  (0 <= q)%Q -> (q <= 100)%Q -> finite_between 0 100 (py_round (Float q) 1).
Proof.
  intros H0 H100. unfold py_round, finite_between.
  change (inject_Z (10 ^ Z.of_nat 1)) with 10%Q.
  assert (Hlo : 0 <= round_half_even (q * 10))
    by (apply round_half_even_ge; change (inject_Z 0) with 0%Q; lra).
  assert (Hhi : round_half_even (q * 10) <= 1000)
    by (apply round_half_even_le; change (inject_Z 1000) with 1000%Q; lra).
  set (z := round_half_even (q * 10)) in *.
  split.
  - apply Qle_shift_div_l; [reflexivity|].
    rewrite Qmult_0_l. change 0%Q with (inject_Z 0). now rewrite <- Zle_Qle.
  - apply Qle_shift_div_r; [reflexivity|].
    change (100 * 10)%Q with (inject_Z 1000). now rewrite <- Zle_Qle.
Qed.

Lemma Qsum_bools_bounds {A : Type} (p : A -> bool) (l : list A) :
  (0 <= Qsum (map (fun x => Q_of_bool (p x)) l))%Q
  /\ (Qsum (map (fun x => Q_of_bool (p x)) l)
      <= inject_Z (Z.of_nat (List.length l)))%Q.
Proof.
  induction l as [| x l [IH0 IH1]]; [split; apply Qle_refl|].
  cbn [map Qsum fold_right List.length]. fold (Qsum (map (fun x => Q_of_bool (p x)) l)).
  rewrite Nat2Z.inj_succ. unfold Z.succ. rewrite inject_Z_plus.
  change (inject_Z 1) with 1%Q.
  destruct (p x); simpl Q_of_bool; split; lra.
Qed.

(** The percentage of rows with a property, before rounding. *)
Lemma mean_bools_percent {A : Type} (p : A -> bool) (l : list A) :
  l <> [] ->
  exists q,
    fmul (series_mean (map (fun x => Q_of_bool (p x)) l)) (Float 100) = Float q
    /\ (0 <= q)%Q /\ (q <= 100)%Q.
Proof.
  intros Hne. destruct l as [| x l]; [congruence|].
  destruct (Qsum_bools_bounds p (x :: l)) as [H0 H1].
  set (rows := x :: l) in *.
  assert (Hlen : (0 < inject_Z (Z.of_nat (List.length rows)))%Q).
  { change 0%Q with (inject_Z 0). rewrite <- Zlt_Qlt. simpl. lia. }
  eexists. split; [reflexivity|]. rewrite length_map.
  set (s := Qsum (map (fun x0 => Q_of_bool (p x0)) rows)) in *.
  set (n := inject_Z (Z.of_nat (List.length rows))) in *.
  assert (Hd0 : (0 <= s / n)%Q).
  { apply Qle_shift_div_l; [exact Hlen | lra]. }
  assert (Hd1 : (s / n <= 1)%Q).
  { apply Qle_shift_div_r; [exact Hlen | lra]. }
  split; lra.
Qed.

Lemma Qsum_nonneg (col : list Q) :
  Forall (fun x => (0 <= x)%Q) col -> (0 <= Qsum col)%Q.
Proof.
  induction 1 as [| x col Hx _ IH]; simpl; lra.
Qed.

(** X3.  On a table with at least one row the three percentage KPIs are
    finite numbers between 0 and 100 and the average resolution is a
    finite number, which is not negative when no resolution time is. *)
Theorem kpis_in_range_on_rows :
  forall df : list AlertEvent,
    df <> [] ->
    finite_between 0 100 (auto_cleared_percent df)
    /\ finite_between 0 100 (within_sla_pct df)
    /\ finite_between 0 100 (resolution_rate df)
    /\ exists q,
         avg_resolution df = Float q
         /\ (Forall (fun r => (0 <= ResolutionTime r)%Q) df -> (0 <= q)%Q).
Proof.
  intros df Hne.
  assert (Hacp : finite_between 0 100 (auto_cleared_percent df)).
  { unfold auto_cleared_percent.
    destruct (mean_bools_percent AutoCleared df Hne) as (q & -> & H0 & H1).
    now apply py_round_percent. }
  split; [exact Hacp|]. split; [|split].
  - unfold within_sla_pct.
    destruct (mean_bools_percent
                (fun r => Qle_bool (ResolutionTime r) sla_threshold) df Hne)
      as (q & -> & H0 & H1).
    now apply py_round_percent.
  - unfold resolution_rate, auto_cleared_percent in *.
    destruct df as [| r df]; [congruence|].
    unfold np_true_divide, series_mean in *.
    set (rows := r :: df) in *.
    replace (Z.of_nat (List.length rows) =? 0) with false
      by (symmetry; apply Z.eqb_neq; simpl; lia).
    cbn [map] in Hacp.
    fold (map (fun r0 => Q_of_bool (AutoCleared r0)) rows) in Hacp.
    cbn [fmul] in *.
    rewrite (py_round_comp _
               (Qsum (map (fun r0 => Q_of_bool (AutoCleared r0)) rows)
                / inject_Z
                    (Z.of_nat
                       (List.length
                          (map (fun r0 => Q_of_bool (AutoCleared r0)) rows)))
                * 100)); [exact Hacp|].
    rewrite length_map, auto_cleared_sum_Q. reflexivity.
  - destruct df as [| r df]; [congruence|].
    unfold avg_resolution, series_mean. set (rows := r :: df).
    cbn [map]. fold (map ResolutionTime rows).
    eexists. split; [reflexivity|]. intros Hnn.
    assert (Hs : (0 <= Qsum (map ResolutionTime rows))%Q).
    { apply Qsum_nonneg. rewrite Forall_map. exact Hnn. }
    assert (Hm : (0 <= Qsum (map ResolutionTime rows)
                       / inject_Z (Z.of_nat (List.length (map ResolutionTime rows))))%Q).
    { apply Qle_shift_div_l; [|lra].
      change 0%Q with (inject_Z 0). rewrite <- Zlt_Qlt, length_map. simpl. lia. }
    apply Qle_shift_div_l; [reflexivity|]. rewrite Qmult_0_l.
    change 0%Q with (inject_Z 0). rewrite <- Zle_Qle.
    apply round_half_even_ge. change (inject_Z 0) with 0%Q.
    apply Qmult_le_0_compat; [exact Hm | easy].
Qed.

Lemma kpis_in_range_on_rows_witness :
  finite_between 0 100 (auto_cleared_percent two_row_table)
  /\ finite_between 0 100 (within_sla_pct two_row_table)
  /\ finite_between 0 100 (resolution_rate two_row_table)
  /\ exists q,
       avg_resolution two_row_table = Float q
       /\ (Forall (fun r => (0 <= ResolutionTime r)%Q) two_row_table
           -> (0 <= q)%Q).
Proof.
  apply kpis_in_range_on_rows. discriminate.
Defined.

(* ------------------------------------------------------------------ *)
(** ** Vessel options and default selections                            *)
(* ------------------------------------------------------------------ *)

Lemma unique_length_le {A : Type} (eqb : A -> A -> bool) (col : list A) :
  (List.length (unique eqb col) <= List.length col)%nat.
Proof.
  induction col as [| a col IH]; simpl; [lia|].
  pose proof (filter_length_le (fun y => negb (eqb a y)) (unique eqb col)).
  lia.
Qed.

Lemma available_vessels_In (df : list AlertEvent) (v : string) :
  In v (available_vessels df) <-> In v (map Vessel df).
Proof.
  unfold available_vessels. rewrite isort_In. apply unique_In, String.eqb_eq.
Qed.

Lemma available_vessels_NoDup (df : list AlertEvent) :
  NoDup (available_vessels df).
Proof. apply isort_NoDup, unique_NoDup, String.eqb_eq. Qed.

(** With a total order, insertion sort leaves neighbours in order. *)
Lemma insert_locally_sorted {A : Type} (leb : A -> A -> bool) (x : A)
    (l : list A) :
  (forall a b, leb a b = true \/ leb b a = true) ->
  Sorted (fun a b => leb a b = true) l ->
  Sorted (fun a b => leb a b = true) (insert leb x l).
Proof.
  intros Htot. induction 1 as [| y l Hs IH Hy]; simpl.
  - repeat constructor.
  - destruct (leb x y) eqn:E.
    + repeat constructor; assumption.
    + constructor; [exact IH|].
      assert (Hyx : leb y x = true)
        by (destruct (Htot x y); [congruence | assumption]).
      destruct l as [| z l]; simpl.
      * now constructor.
      * destruct (leb x z); constructor; [exact Hyx|].
        now inversion Hy.
Qed.

Lemma isort_locally_sorted {A : Type} (leb : A -> A -> bool) (l : list A) :
  (forall a b, leb a b = true \/ leb b a = true) ->
  Sorted (fun a b => leb a b = true) (isort leb l).
Proof.
  intros Htot. induction l as [| x l IH]; simpl; [constructor|].
  now apply insert_locally_sorted.
Qed.

(** X4.  The options offered by the vessel multi-select are the vessels
    that have rows in the table filtered so far, each once, with every
    option not after its successor in the lexicographic order of the names
    (so Vessel_10 comes before Vessel_2). *)
Theorem available_vessels_sorted_distinct :
  forall df : list AlertEvent,
    NoDup (available_vessels df)
    /\ (forall v, In v (available_vessels df) <-> In v (map Vessel df))
    /\ Sorted (fun a b => String.leb a b = true) (available_vessels df)
    /\ String.leb "Vessel_10" "Vessel_2" = true
    /\ String.leb "Vessel_2" "Vessel_10" = false.
Proof.
  intros df. split; [apply available_vessels_NoDup|].
  split; [apply available_vessels_In|]. split; [|split; reflexivity].
  apply isort_locally_sorted, String.leb_total.
Qed.

(** X5.  The "Vessels With Alerts" KPI counts the options the vessel
    multi-select would offer on the same table; it never exceeds the total
    number of alerts, and when every row names a vessel of the fleet list
    it never exceeds 20. *)
Theorem vessels_with_alerts_bounds :
  forall df : list AlertEvent,
    Forall (fun r => In (Vessel r) vessels) df ->
    vessels_with_alerts df = List.length (available_vessels df)
    /\ (vessels_with_alerts df <= total_alerts df)%nat
    /\ (vessels_with_alerts df <= 20)%nat.
Proof.
  intros df Hv. unfold vessels_with_alerts, nunique, available_vessels,
    total_alerts.
  split; [now rewrite isort_length|]. split.
  - rewrite <- (length_map Vessel df). apply unique_length_le.
  - change 20%nat with (List.length vessels).
    apply NoDup_incl_length; [apply unique_NoDup, String.eqb_eq|].
    intros v Hin. apply (unique_In _ String.eqb_eq), in_map_iff in Hin.
    destruct Hin as [r [<- Hr]]. rewrite Forall_forall in Hv. now apply Hv.
Qed.

Lemma vessels_with_alerts_bounds_witness :
  vessels_with_alerts two_row_table
  = List.length (available_vessels two_row_table)
  /\ (vessels_with_alerts two_row_table <= total_alerts two_row_table)%nat
  /\ (vessels_with_alerts two_row_table <= 20)%nat.
Proof.
  apply vessels_with_alerts_bounds.
  repeat constructor; simpl; tauto.
Defined.

Lemma filter_all {A : Type} (p : A -> bool) (l : list A) :
  Forall (fun x => p x = true) l -> filter p l = l.
Proof.
  induction 1 as [| x l Hx _ IH]; simpl; [reflexivity|].
  now rewrite Hx, IH.
Qed.

Lemma filter_vessel_available (df : list AlertEvent) :
  filter_vessel (available_vessels df) df = df.
Proof.
  unfold filter_vessel. apply filter_all, Forall_forall. intros r Hr.
  apply (isin_In _ String.eqb_eq), available_vessels_In. now apply in_map.
Qed.

Lemma filter_date_Forall (P : AlertEvent -> Prop) (s e : Z)
    (df : list AlertEvent) :
  Forall P df -> Forall P (filter_date s e df).
Proof.
  rewrite !Forall_forall. intros H r Hr. apply filter_In in Hr. now apply H.
Qed.

(** With the three multi-selects at their defaults, only the dates narrow
    a table of well-formed rows. *)
Lemma default_selection_filter (p : Period) (today : Z) (df : list AlertEvent) :
  max_date df = Some today ->
  Forall well_formed_row df ->
  sidebar_filter (default_selection p today df) df
  = filter_date
      (fst (period_range p today (minus_days today 30) today))
      (snd (period_range p today (minus_days today 30) today)) df.
Proof.
  intros Hmax Hwf. unfold sidebar_filter, default_selection. rewrite Hmax.
  cbn [period picked_start picked_end selected_fleets selected_alerts
       selected_vessels].
  destruct (period_range p today (minus_days today 30) today) as [s e].
  cbn [fst snd]. unfold filter_pipeline, before_vessel_filter.
  assert (Hd : Forall well_formed_row (filter_date s e df))
    by now apply filter_date_Forall.
  assert (Ef : filter_fleet fleets (filter_date s e df) = filter_date s e df).
  { unfold filter_fleet. apply filter_all.
    eapply Forall_impl; [|exact Hd]. intros r (Hf & _).
    now apply (isin_In _ String.eqb_eq). }
  rewrite Ef.
  assert (Ea : filter_alert alert_types (filter_date s e df)
               = filter_date s e df).
  { unfold filter_alert. apply filter_all.
    eapply Forall_impl; [|exact Hd]. intros r (_ & _ & Ha & _).
    now apply (isin_In _ String.eqb_eq). }
  rewrite Ea. apply filter_vessel_available.
Qed.

(** X6.  As first rendered (every fleet and alert type selected, every
    offered vessel selected), the sidebar narrows a table of well-formed
    rows by its date range only; and selecting all offered vessels never
    removes a row. *)
Theorem default_selection_keeps_date_range :
  forall (p : Period) (today : Z) (df : list AlertEvent),
    max_date df = Some today ->
    Forall well_formed_row df ->
    sidebar_filter (default_selection p today df) df
    = filter_date
        (fst (period_range p today (minus_days today 30) today))
        (snd (period_range p today (minus_days today 30) today)) df
    /\ (forall table, filter_vessel (available_vessels table) table = table).
Proof.
  intros p today df Hmax Hwf. split.
  - now apply default_selection_filter.
  - apply filter_vessel_available.
Qed.

Lemma default_selection_keeps_date_range_witness :
  sidebar_filter (default_selection Last30Days 739372 two_row_table)
    two_row_table
  = filter_date
      (fst (period_range Last30Days 739372 (minus_days 739372 30) 739372))
      (snd (period_range Last30Days 739372 (minus_days 739372 30) 739372))
      two_row_table
  /\ (forall table, filter_vessel (available_vessels table) table = table).
Proof.
  apply default_selection_keeps_date_range; [reflexivity|].
  repeat constructor; simpl; try tauto; unfold Qle; simpl; lia.
Defined.

(* ------------------------------------------------------------------ *)
(** ** Narrowing and widening the selection                             *)
(* ------------------------------------------------------------------ *)

Lemma filter_implied {A : Type} (p q : A -> bool) (l : list A) :
  (forall x, p x = true -> q x = true) ->
  filter p (filter q l) = filter p l.
Proof.
  intros H. induction l as [| x l IH]; simpl; [reflexivity|].
  destruct (q x) eqn:Eq; simpl.
  - destruct (p x); now rewrite IH.
  - destruct (p x) eqn:Ep; [|exact IH]. apply H in Ep. congruence.
Qed.

Lemma isin_incl (F F' : list string) (x : string) :
  incl F F' ->
  isin String.eqb F x = true -> isin String.eqb F' x = true.
Proof.
  intros Hincl H. apply (isin_In _ String.eqb_eq).
  apply (isin_In _ String.eqb_eq) in H. now apply Hincl.
Qed.

Lemma filter_pipeline_narrow (s e s' e' : Z) (F F' T T' V V' : list string)
    (df : list AlertEvent) :
  s' <= s -> e <= e' -> incl F F' -> incl T T' -> incl V V' ->
  filter_pipeline s e F T V (filter_pipeline s' e' F' T' V' df)
  = filter_pipeline s e F T V df.
Proof.
  intros Hs He HF HT HV. rewrite !filter_pipeline_spec.
  apply filter_implied. intros r. unfold matches_selection, date_in_range.
  rewrite !andb_true_iff, !Z.leb_le.
  intros [[[[H1 H2] H3] H4] H5]. repeat split; try lia.
  - now apply (isin_incl F).
  - now apply (isin_incl T).
  - now apply (isin_incl V).
Qed.

(** X7.  Narrowing is monotone: when a selection has a date interval
    inside that of a wider selection and fleets, alert types and vessels
    among those of the wider one, filtering the wider result by the narrow
    selection gives the narrow result; so every row shown for the narrow
    selection is shown, in the same order, for the wider one. *)
Theorem narrowing_a_wider_selection :
  forall (s e s' e' : Z) (F F' T T' V V' : list string)
         (df : list AlertEvent),
    s' <= s -> e <= e' -> incl F F' -> incl T T' -> incl V V' ->
    filter_pipeline s e F T V (filter_pipeline s' e' F' T' V' df)
    = filter_pipeline s e F T V df
    /\ incl (filter_pipeline s e F T V df)
         (filter_pipeline s' e' F' T' V' df).
Proof.
  intros s e s' e' F F' T T' V V' df Hs He HF HT HV.
  pose proof (filter_pipeline_narrow s e s' e' F F' T T' V V' df
                Hs He HF HT HV) as E.
  split; [exact E|]. intros r Hr. rewrite <- E in Hr.
  rewrite filter_pipeline_spec in Hr. now apply filter_In in Hr.
Qed.

Lemma narrowing_a_wider_selection_witness :
  filter_pipeline 739360 739372 ["Fleet B"] alert_types vessels
    (filter_pipeline 739252 739372 fleets alert_types vessels two_row_table)
  = filter_pipeline 739360 739372 ["Fleet B"] alert_types vessels
      two_row_table
  /\ incl
       (filter_pipeline 739360 739372 ["Fleet B"] alert_types vessels
          two_row_table)
       (filter_pipeline 739252 739372 fleets alert_types vessels
          two_row_table).
Proof.
  apply narrowing_a_wider_selection; try lia; try apply incl_refl.
  intros x [<- | []]. simpl. tauto.
Defined.

Lemma year_start_before_quarter_start (today : Z) :
  fst (period_range YearToDate today 0 0)
  <= fst (period_range QuarterToDate today 0 0).
Proof.
  cbn [period_range fst]. fold (quarter_month (Calendar.month today)).
  pose proof (ord2ymd_ymd2ord today) as (Hm & _ & _).
  pose proof (days_before_month_quarter (Calendar.year today)
                (Calendar.month today) Hm) as (Hq & _ & _ & H1 & _).
  pose proof (days_before_month_quarter (Calendar.year today)
                (quarter_month (Calendar.month today)) ltac:(lia))
    as (_ & _ & _ & _ & Hb).
  unfold Calendar.Timestamp, Calendar.ymd2ord. lia.
Qed.

(** X8.  The presets nest: for the same fleets, alert types and vessels,
    the rows of "Last 7 Days" are among those of "Last 30 Days" and the
    rows of "Quarter to Date" among those of "Year to Date", whatever the
    latest date of the table is. *)
Theorem presets_nest :
  forall (today : Z) (F T V : list string) (df : list AlertEvent),
    let pipeline p :=
      filter_pipeline (fst (period_range p today 0 0))
        (snd (period_range p today 0 0)) F T V df in
    incl (pipeline Last7Days) (pipeline Last30Days)
    /\ incl (pipeline QuarterToDate) (pipeline YearToDate)
    /\ (List.length (pipeline Last7Days)
        <= List.length (pipeline Last30Days))%nat
    /\ (List.length (pipeline QuarterToDate)
        <= List.length (pipeline YearToDate))%nat.
Proof.
  intros today F T V df pipeline.
  assert (E1 : filter_pipeline (fst (period_range Last7Days today 0 0))
                 (snd (period_range Last7Days today 0 0)) F T V
                 (pipeline Last30Days)
               = pipeline Last7Days).
  { apply filter_pipeline_narrow; try apply incl_refl;
      cbn [period_range fst snd]; unfold minus_days; lia. }
  assert (E2 : filter_pipeline (fst (period_range QuarterToDate today 0 0))
                 (snd (period_range QuarterToDate today 0 0)) F T V
                 (pipeline YearToDate)
               = pipeline QuarterToDate).
  { apply filter_pipeline_narrow; try apply incl_refl.
    - apply year_start_before_quarter_start.
    - cbn [period_range snd]. lia. }
  split; [|split; [|split]].
  - rewrite <- E1, filter_pipeline_spec. apply incl_filter.
  - rewrite <- E2, filter_pipeline_spec. apply incl_filter.
  - rewrite <- E1, filter_pipeline_spec. apply filter_length_le.
  - rewrite <- E2, filter_pipeline_spec. apply filter_length_le.
Qed.

(* ------------------------------------------------------------------ *)
(** ** Counts per key add up                                            *)
(* ------------------------------------------------------------------ *)

Lemma sum_counts_perm (l1 l2 : list nat) :
  Permutation l1 l2 -> sum_counts l1 = sum_counts l2.
Proof.
  induction 1; simpl; lia.
Qed.

Lemma sum_counts_add {K : Type} (f g : K -> nat) (keys : list K) :
  sum_counts (map (fun k => (f k + g k)%nat) keys)
  = (sum_counts (map f keys) + sum_counts (map g keys))%nat.
Proof.
  induction keys as [| k keys IH]; simpl; lia.
Qed.

Lemma sum_counts_ext {K : Type} (f g : K -> nat) (keys : list K) :
  (forall k, In k keys -> f k = g k) ->
  sum_counts (map f keys) = sum_counts (map g keys).
Proof.
  induction keys as [| k keys IH]; intros H; simpl; [reflexivity|].
  rewrite H by now left. rewrite IH; [reflexivity|].
  intros k' Hk'. apply H. now right.
Qed.

Section KeyCounts.
Context {K : Type}.
Variable eqb : K -> K -> bool.
Hypothesis eqb_eq : forall x y, eqb x y = true <-> x = y.

Lemma sum_indicator_absent (a : K) (keys : list K) :
  ~ In a keys ->
  sum_counts (map (fun k => if eqb k a then 1%nat else 0%nat) keys) = 0%nat.
Proof.
  induction keys as [| k keys IH]; intros H; simpl; [reflexivity|].
  destruct (eqb k a) eqn:E.
  - apply eqb_eq in E. subst. exfalso. apply H. now left.
  - apply IH. intros Hin. apply H. now right.
Qed.

Lemma sum_indicator (a : K) (keys : list K) :
  NoDup keys -> In a keys ->
  sum_counts (map (fun k => if eqb k a then 1%nat else 0%nat) keys) = 1%nat.
Proof.
  induction 1 as [| k keys Hk Hnd IH]; intros Hin; [destruct Hin|].
  simpl. destruct (eqb k a) eqn:E.
  - apply eqb_eq in E. subst. now rewrite sum_indicator_absent.
  - apply IH. destruct Hin as [-> | Hin]; [|exact Hin].
    rewrite (proj2 (eqb_eq a a) eq_refl) in E. discriminate.
Qed.

(** Over distinct keys that cover a column, the counts per key add up to
    the length of the column. *)
Lemma sum_count_eq (keys col : list K) :
  NoDup keys -> incl col keys ->
  sum_counts (map (fun k => count_eq eqb k col) keys) = List.length col.
Proof.
  intros Hnd. induction col as [| a col IH]; intros Hincl.
  - unfold count_eq. simpl. clear.
    induction keys as [| k keys IH]; simpl; [reflexivity | exact IH].
  - rewrite (sum_counts_ext _
               (fun k => ((if eqb k a then 1 else 0)
                          + count_eq eqb k col)%nat)).
    + rewrite sum_counts_add, sum_indicator, IH; simpl; auto.
      * intros x Hx. apply Hincl. now right.
      * apply Hincl. now left.
    + intros k _. unfold count_eq. simpl. now destruct (eqb k a).
Qed.
End KeyCounts.

(** The rows with a property, split by a key: the counts per key add up
    to the number of such rows. *)
Lemma sum_count_rows_by_key_of {K : Type} (eqb : K -> K -> bool)
    (eqb_eq : forall x y, eqb x y = true <-> x = y)
    (key : AlertEvent -> K) (p : AlertEvent -> bool) (keys : list K)
    (df : list AlertEvent) :
  NoDup keys -> incl (map key (filter p df)) keys ->
  sum_counts
    (map (fun k => count_rows (fun r => eqb k (key r) && p r) df) keys)
  = count_rows p df.
Proof.
  intros Hnd Hincl.
  rewrite (sum_counts_ext _
             (fun k => count_eq eqb k (map key (filter p df)))).
  - rewrite (sum_count_eq eqb eqb_eq); [| exact Hnd | exact Hincl].
    now rewrite length_map, count_rows_filter.
  - intros k _. now rewrite count_eq_map, count_rows_filter_and.
Qed.

Lemma sum_count_rows_by_key {K : Type} (eqb : K -> K -> bool)
    (eqb_eq : forall x y, eqb x y = true <-> x = y)
    (key : AlertEvent -> K) (p : AlertEvent -> bool) (keys : list K)
    (df : list AlertEvent) :
  NoDup keys -> incl (map key df) keys ->
  sum_counts
    (map (fun k => count_rows (fun r => eqb k (key r) && p r) df) keys)
  = count_rows p df.
Proof.
  intros Hnd Hincl. apply sum_count_rows_by_key_of; [exact eqb_eq | exact Hnd |].
  intros k Hk. apply Hincl. apply in_map_iff in Hk.
  destruct Hk as [r [<- Hr]]. apply filter_In in Hr. now apply in_map.
Qed.

(* ------------------------------------------------------------------ *)
(** ** Breakdowns by alert type and by fleet                            *)
(* ------------------------------------------------------------------ *)

Lemma first_seen_counts_spec (col : list string) :
  NoDup (map fst (first_seen_counts col))
  /\ (forall k c, In (k, c) (first_seen_counts col)
                  <-> In k col /\ c = count_eq String.eqb k col)
  /\ sum_counts (map snd (first_seen_counts col)) = List.length col.
Proof.
  unfold first_seen_counts. split; [|split].
  - rewrite map_map. simpl. rewrite map_id.
    apply unique_NoDup, String.eqb_eq.
  - intros k c. rewrite in_map_iff. split.
    + intros [k' [E Hk]]. inversion E; subst.
      split; [|reflexivity]. now apply (unique_In _ String.eqb_eq).
    + intros [Hk ->]. exists k. split; [reflexivity|].
      now apply (unique_In _ String.eqb_eq).
  - rewrite map_map. simpl.
    apply (sum_count_eq String.eqb String.eqb_eq).
    + apply unique_NoDup, String.eqb_eq.
    + intros k Hk. now apply (unique_In _ String.eqb_eq).
Qed.

Lemma value_counts_spec (col : list string) :
  NoDup (map fst (value_counts col))
  /\ (forall k c, In (k, c) (value_counts col)
                  <-> In k col /\ c = count_eq String.eqb k col)
  /\ Forall (fun e => (1 <= snd e)%nat) (value_counts col)
  /\ sum_counts (map snd (value_counts col)) = List.length col
  /\ StronglySorted (fun x y => (snd y <= snd x)%nat) (value_counts col).
Proof.
  destruct (first_seen_counts_spec col) as (Hnd & Hin & Hsum).
  unfold value_counts, sort_values_desc.
  assert (Hin' : forall k c,
             In (k, c)
               (isort (fun x y => (snd y <=? snd x)%nat) (first_seen_counts col))
             <-> In k col /\ c = count_eq String.eqb k col).
  { intros k c. rewrite isort_In. apply Hin. }
  split; [|split; [|split; [|split]]].
  - now apply isort_map_NoDup.
  - exact Hin'.
  - apply Forall_forall. intros [k c] He. apply Hin' in He.
    destruct He as [Hk ->]. simpl.
    apply (count_eq_pos _ String.eqb_eq) in Hk. lia.
  - rewrite <- Hsum. apply sum_counts_perm, Permutation_map, isort_perm.
  - apply sort_values_desc_sorted.
Qed.

Lemma column_value_counts (key : AlertEvent -> string) (df : list AlertEvent) :
  NoDup (map fst (value_counts (map key df)))
  /\ (forall k c,
        In (k, c) (value_counts (map key df))
        <-> In k (map key df)
            /\ c = count_rows (fun r => String.eqb k (key r)) df)
  /\ Forall (fun e => (1 <= snd e)%nat) (value_counts (map key df))
  /\ sum_counts (map snd (value_counts (map key df))) = List.length df
  /\ StronglySorted (fun x y => (snd y <= snd x)%nat)
       (value_counts (map key df)).
Proof.
  destruct (value_counts_spec (map key df)) as (H1 & H2 & H3 & H4 & H5).
  split; [exact H1|]. split; [|split; [exact H3|split; [|exact H5]]].
  - intros k c. rewrite H2, count_eq_map. reflexivity.
  - now rewrite H4, length_map.
Qed.

(** X9.  The two breakdowns behind the donut and the fleet bar chart list
    each alert type (each fleet) that has rows exactly once, with its
    number of rows, which is at least 1; the counts add up to the total
    number of alerts and are in descending order. *)
Theorem breakdown_counts_add_up :
  forall df : list AlertEvent,
    (NoDup (map fst (alert_type_counts df))
     /\ (forall k c,
           In (k, c) (alert_type_counts df)
           <-> In k (map AlertType df)
               /\ c = count_rows (fun r => String.eqb k (AlertType r)) df)
     /\ Forall (fun e => (1 <= snd e)%nat) (alert_type_counts df)
     /\ sum_counts (map snd (alert_type_counts df)) = total_alerts df
     /\ StronglySorted (fun x y => (snd y <= snd x)%nat)
          (alert_type_counts df))
    /\ (NoDup (map fst (fleet_alerts df))
        /\ (forall k c,
              In (k, c) (fleet_alerts df)
              <-> In k (map Fleet df)
                  /\ c = count_rows (fun r => String.eqb k (Fleet r)) df)
        /\ Forall (fun e => (1 <= snd e)%nat) (fleet_alerts df)
        /\ sum_counts (map snd (fleet_alerts df)) = total_alerts df
        /\ StronglySorted (fun x y => (snd y <= snd x)%nat)
             (fleet_alerts df)).
Proof.
  intros df. unfold alert_type_counts, fleet_alerts, total_alerts.
  split; apply column_value_counts.
Qed.

(* ------------------------------------------------------------------ *)
(** ** Sums over the time series                                        *)
(* ------------------------------------------------------------------ *)

(** X10.  Over the days of the time series the totals add up to the total
    number of alerts, the active counts to the active alerts and the
    resolved counts to the resolved alerts of the KPI card; and no day of
    the series has a total of zero. *)
Theorem time_series_sums :
  forall df : list AlertEvent,
    sum_counts (map tr_total (alerts_time_df df)) = total_alerts df
    /\ sum_counts (map tr_active (alerts_time_df df)) = active_alerts df
    /\ sum_counts (map tr_resolved (alerts_time_df df)) = resolved_alerts df
    /\ Forall (fun row => (1 <= tr_total row)%nat) (alerts_time_df df).
Proof.
  intros df. rewrite alerts_time_df_eq, !map_map. cbn [tr_total tr_active tr_resolved].
  assert (Hnd : NoDup (isort Z.leb (unique Z.eqb (map Date df))))
    by apply date_keys_NoDup.
  assert (Hincl : incl (map Date df) (isort Z.leb (unique Z.eqb (map Date df)))).
  { intros d Hd. apply isort_In, (unique_In _ Z.eqb_eq). exact Hd. }
  pose proof (sum_count_rows_by_key Z.eqb Z.eqb_eq Date) as Hsum.
  split; [|split; [|split]].
  - rewrite (sum_counts_ext _
               (fun k => count_rows (fun r => (k =? Date r) && true) df)).
    + rewrite Hsum by assumption. unfold total_alerts.
      rewrite count_rows_filter. now rewrite filter_all by now apply Forall_forall.
    + intros k _. apply count_rows_ext. intros r.
      now rewrite andb_true_r, Z.eqb_sym.
  - rewrite (sum_counts_ext _
               (fun k => count_rows
                           (fun r => (k =? Date r) && negb (AutoCleared r)) df)).
    + rewrite Hsum by assumption. unfold active_alerts.
      apply count_rows_filter.
    + intros k _. apply count_rows_ext. intros r. now rewrite Z.eqb_sym.
  - rewrite (sum_counts_ext _
               (fun k => count_rows
                           (fun r => (k =? Date r) && AutoCleared r) df)).
    + rewrite Hsum by assumption. unfold resolved_alerts.
      apply count_rows_filter.
    + intros k _. apply count_rows_ext. intros r. now rewrite Z.eqb_sym.
  - apply Forall_map, Forall_forall. intros d Hd. cbn [tr_total].
    rewrite isort_In, (unique_In _ Z.eqb_eq) in Hd.
    pose proof (proj2 (count_eq_pos Z.eqb Z.eqb_eq d (map Date df)) Hd)
      as Hpos.
    rewrite count_eq_map in Hpos.
    rewrite (count_rows_ext _ (fun r => d =? Date r)); [lia|].
    intros r. apply Z.eqb_sym.
Qed.

(* ------------------------------------------------------------------ *)
(** ** Heatmap and repeat table together                                *)
(* ------------------------------------------------------------------ *)

Lemma heatmap_index_spec (df : list AlertEvent) :
  NoDup (heatmap_index df)
  /\ forall v, In v (heatmap_index df) <-> In v (map Vessel df).
Proof.
  unfold heatmap_index. split.
  - apply isort_NoDup, unique_NoDup, String.eqb_eq.
  - intros v. rewrite isort_In, (unique_In _ String.eqb_eq).
    apply heatmap_index_In.
Qed.

Lemma heatmap_columns_spec (df : list AlertEvent) :
  NoDup (heatmap_columns df)
  /\ forall a, In a (heatmap_columns df) <-> In a (map AlertType df).
Proof.
  unfold heatmap_columns. split.
  - apply isort_NoDup, unique_NoDup, String.eqb_eq.
  - intros a. rewrite isort_In, (unique_In _ String.eqb_eq).
    apply heatmap_columns_In.
Qed.

(** The cells of one heatmap row add up to the rows of its vessel. *)
Lemma heatmap_row_sum (df : list AlertEvent) (v : string) :
  sum_counts (map (fun a => pair_count df v a) (heatmap_columns df))
  = count_rows (fun r => String.eqb v (Vessel r)) df.
Proof.
  destruct (heatmap_columns_spec df) as [Hnd Hin].
  rewrite (sum_counts_ext _
             (fun a => count_rows
                         (fun r => String.eqb a (AlertType r)
                                   && String.eqb v (Vessel r)) df)).
  - apply (sum_count_rows_by_key String.eqb String.eqb_eq AlertType);
      [exact Hnd|]. intros a Ha. now apply Hin.
  - intros a _. unfold pair_count. apply count_rows_ext. intros r.
    now rewrite andb_comm, (String.eqb_sym a), (String.eqb_sym v).
Qed.

(** X11.  The heatmap accounts for every row once: the cells of a
    vessel's row add up to the number of rows of that vessel, which is at
    least 1, and all cells together add up to the total number of
    alerts. *)
Theorem heatmap_cells_add_up :
  forall df : list AlertEvent,
    Forall
      (fun vrow =>
         sum_counts (map snd (snd vrow))
         = count_rows (fun r => String.eqb (fst vrow) (Vessel r)) df
         /\ (1 <= sum_counts (map snd (snd vrow)))%nat)
      (heatmap_df df)
    /\ sum_counts
         (map (fun vrow => sum_counts (map snd (snd vrow))) (heatmap_df df))
       = total_alerts df.
Proof.
  intros df. rewrite heatmap_df_eq.
  destruct (heatmap_index_spec df) as [Hnd Hin]. split.
  - apply Forall_map, Forall_forall. intros v Hv. cbn [fst snd].
    rewrite map_map. cbn [snd]. rewrite heatmap_row_sum.
    split; [reflexivity|].
    apply Hin in Hv.
    pose proof (proj2 (count_eq_pos String.eqb String.eqb_eq v
                         (map Vessel df)) Hv) as Hpos.
    rewrite count_eq_map in Hpos. lia.
  - rewrite map_map. cbn [snd].
    rewrite (sum_counts_ext _
               (fun v => count_rows
                           (fun r => String.eqb v (Vessel r) && true) df)).
    + rewrite (sum_count_rows_by_key String.eqb String.eqb_eq Vessel);
        [| exact Hnd | intros v Hv; now apply Hin].
      unfold total_alerts. rewrite count_rows_filter.
      now rewrite filter_all by now apply Forall_forall.
    + intros v _. rewrite map_map. cbn [snd]. rewrite heatmap_row_sum.
      apply count_rows_ext. intros r. now rewrite andb_true_r.
Qed.

Lemma repeat_alerts_table_In (df : list AlertEvent) (v a : string) (c : nat) :
  In ((v, a), c) (repeat_alerts_table df)
  <-> c = pair_count df v a /\ (3 <= c)%nat.
Proof.
  unfold repeat_alerts_table, sort_values_desc, repeat_alerts.
  rewrite isort_In, filter_In, vessel_alert_sizes_In, Nat.leb_le.
  cbn [snd]. lia.
Qed.

Lemma pair_count_le (df : list AlertEvent) (v a : string) :
  (pair_count df v a <= List.length df)%nat.
Proof.
  unfold pair_count. rewrite count_rows_filter. apply filter_length_le.
Qed.

(** X12.  The repeat table and the heatmap agree: every entry of the
    table has a cell in the heatmap, holding the same count; a count in
    the table is at most the total number of alerts; and a table with
    fewer than 3 rows has no repeat alert. *)
Theorem repeat_table_within_heatmap :
  forall df : list AlertEvent,
    (forall v a c,
        In ((v, a), c) (repeat_alerts_table df) ->
        heatmap_cell (heatmap_df df) v a = Some c
        /\ (3 <= c <= total_alerts df)%nat)
    /\ ((total_alerts df < 3)%nat -> repeat_alerts_table df = []).
Proof.
  intros df. split.
  - intros v a c Hin. apply repeat_alerts_table_In in Hin.
    destruct Hin as [-> Hc]. split.
    + rewrite heatmap_cell_eq.
      assert (Hp : In (v, a) (vessel_alert_pairs df))
        by (apply pair_count_pos; lia).
      unfold vessel_alert_pairs in Hp. apply in_map_iff in Hp.
      destruct Hp as [r [E Hr]]. inversion E; subst.
      assert (Hv : isin String.eqb (map Vessel df) (Vessel r) = true)
        by (apply (isin_In _ String.eqb_eq); now apply in_map).
      assert (Ha : isin String.eqb (map AlertType df) (AlertType r) = true)
        by (apply (isin_In _ String.eqb_eq); now apply in_map).
      now rewrite Hv, Ha.
    + pose proof (pair_count_le df v a). unfold total_alerts. lia.
  - intros Hlt. destruct (repeat_alerts_table df) as [| [[v a] c] rest] eqn:E;
      [reflexivity|]. exfalso.
    assert (Hin : In ((v, a), c) (repeat_alerts_table df))
      by (rewrite E; now left).
    apply repeat_alerts_table_In in Hin. destruct Hin as [-> Hc].
    pose proof (pair_count_le df v a). unfold total_alerts in Hlt. lia.
Qed.

(* ------------------------------------------------------------------ *)
(** ** The top-5 lists are the top                                      *)
(* ------------------------------------------------------------------ *)

Lemma StronglySorted_app_cross {A : Type} (R : A -> A -> Prop)
    (l1 l2 : list A) :
  StronglySorted R (l1 ++ l2)%list ->
  forall x y, In x l1 -> In y l2 -> R x y.
Proof.
  induction l1 as [| a l1 IH]; intros Hs x y Hx Hy; [destruct Hx|].
  simpl in Hs. inversion Hs as [| ? ? Hs' Ha]; subst.
  destruct Hx as [-> | Hx].
  - rewrite Forall_forall in Ha. apply Ha, in_or_app. now right.
  - now apply IH.
Qed.

Lemma head_beats_rest {A : Type} (R : A -> A -> Prop) (n : nat) (s : list A) :
  StronglySorted R s ->
  forall x y, In x (head n s) -> In y s -> ~ In y (head n s) -> R x y.
Proof.
  intros Hs x y Hx Hy Hny. unfold head in *.
  rewrite <- (firstn_skipn n s) in Hs, Hy.
  apply (StronglySorted_app_cross R _ _ Hs x y Hx).
  apply in_app_or in Hy. destruct Hy; [contradiction | assumption].
Qed.

Lemma value_counts_length (col : list string) :
  List.length (value_counts col) = nunique String.eqb col.
Proof.
  unfold value_counts, sort_values_desc, first_seen_counts, nunique.
  now rewrite isort_length, length_map.
Qed.

(** X13.  A top-5 list holds the largest entries of its breakdown: an
    alert type (vessel) left out of the list has a count no larger than
    any count in the list, an alert type left out of the slowest list has
    a mean no larger than any mean in it, and the two count lists have
    exactly min(5, number of distinct values) entries. *)
Theorem top5_lists_hold_the_largest :
  forall df : list AlertEvent,
    (forall x y,
        In x (top_alerts df) -> In y (alert_type_counts df) ->
        ~ In y (top_alerts df) -> (snd y <= snd x)%nat)
    /\ (forall x y,
          In x (top_vessels df) -> In y (value_counts (map Vessel df)) ->
          ~ In y (top_vessels df) -> (snd y <= snd x)%nat)
    /\ (forall x y,
          In x (slowest_types df) ->
          In y (sort_values_desc_float (mean_by_alert_type df)) ->
          ~ In y (slowest_types df) -> fdesc (snd x) (snd y) = true)
    /\ List.length (top_alerts df)
       = Nat.min 5 (nunique String.eqb (map AlertType df))
    /\ List.length (top_vessels df) = Nat.min 5 (vessels_with_alerts df).
Proof.
  intros df. split; [|split; [|split; [|split]]].
  - apply (head_beats_rest (fun x y : string * nat => (snd y <= snd x)%nat)).
    apply sort_values_desc_sorted.
  - apply (head_beats_rest (fun x y : string * nat => (snd y <= snd x)%nat)).
    apply sort_values_desc_sorted.
  - apply (head_beats_rest
             (fun x y : string * pyfloat => fdesc (snd x) (snd y) = true)).
    apply sort_values_desc_float_sorted.
  - unfold top_alerts, head. now rewrite length_firstn, value_counts_length.
  - unfold top_vessels, head, vessels_with_alerts.
    now rewrite length_firstn, value_counts_length.
Qed.

(* ------------------------------------------------------------------ *)
(** ** The bins of [pd.cut]                                             *)
(* ------------------------------------------------------------------ *)

Lemma cut_cases (x : Q) :
  ((x < 0)%Q /\ cut x = None)
  \/ (((0 <= x)%Q /\ (x <= 1 # 4)%Q) /\ cut x = Some 0%nat)
  \/ (((1 # 4 < x)%Q /\ (x <= 1)%Q) /\ cut x = Some 1%nat)
  \/ (((1 < x)%Q /\ (x <= 3)%Q) /\ cut x = Some 2%nat)
  \/ (((3 < x)%Q /\ (x <= 6)%Q) /\ cut x = Some 3%nat)
  \/ (((6 < x)%Q /\ (x <= 12)%Q) /\ cut x = Some 4%nat)
  \/ ((12 < x)%Q /\ cut x = Some 5%nat).
Proof.
  rewrite cut_bucket_of. unfold bucket_of, Qlt_bool.
  destruct (Qle_bool 0 x) eqn:H0; cbn [negb]; q_bools;
    [|left; split; [lra | reflexivity]].
  right.
  destruct (Qle_bool x (1 # 4)) eqn:G1; q_bools;
    [left; split; [lra | reflexivity]|]. right.
  destruct (Qle_bool x 1) eqn:G2; q_bools;
    [left; split; [lra | reflexivity]|]. right.
  destruct (Qle_bool x 3) eqn:G3; q_bools;
    [left; split; [lra | reflexivity]|]. right.
  destruct (Qle_bool x 6) eqn:G4; q_bools;
    [left; split; [lra | reflexivity]|]. right.
  destruct (Qle_bool x 12) eqn:G5; q_bools;
    [left; split; [lra | reflexivity]|]. right.
  split; [lra | reflexivity].
Qed.

Ltac bin_iff :=
  split; [intros E; try discriminate E; lra
         | intros H; try reflexivity; exfalso; lra].

(** X14.  [pd.cut] with the script's edges puts a resolution time in the
    first bin when it is between 0 and 0.25 (0 included), in the next ones
    when it is in (0.25, 1], (1, 3], (3, 6], (6, 12] and above 12, and in
    no bin exactly when it is negative; a longer time never lands in an
    earlier bin. *)
Theorem cut_bin_intervals :
  forall x y : Q,
    (cut x = None <-> (x < 0)%Q)
    /\ (cut x = Some 0%nat <-> (0 <= x)%Q /\ (x <= 1 # 4)%Q)
    /\ (cut x = Some 1%nat <-> (1 # 4 < x)%Q /\ (x <= 1)%Q)
    /\ (cut x = Some 2%nat <-> (1 < x)%Q /\ (x <= 3)%Q)
    /\ (cut x = Some 3%nat <-> (3 < x)%Q /\ (x <= 6)%Q)
    /\ (cut x = Some 4%nat <-> (6 < x)%Q /\ (x <= 12)%Q)
    /\ (cut x = Some 5%nat <-> (12 < x)%Q)
    /\ (forall i j,
          (x <= y)%Q -> cut x = Some i -> cut y = Some j -> (i <= j)%nat).
Proof.
  intros x y.
  destruct (cut_cases x)
    as [[Hx Ex] | [[Hx Ex] | [[Hx Ex] | [[Hx Ex] | [[Hx Ex] | [[Hx Ex] | [Hx Ex]]]]]]];
    rewrite Ex; (do 7 (split; [bin_iff|]));
    intros i j Hxy Ei Ej; try discriminate Ei; inversion Ei; subst i;
    destruct (cut_cases y)
      as [[Hy Ey] | [[Hy Ey] | [[Hy Ey] | [[Hy Ey] | [[Hy Ey] | [[Hy Ey] | [Hy Ey]]]]]]];
    rewrite Ey in Ej; try discriminate Ej; inversion Ej; subst j;
    try lia; exfalso; lra.
Qed.

(* ------------------------------------------------------------------ *)
(** ** The generated table as a whole                                   *)
(* ------------------------------------------------------------------ *)

Lemma StronglySorted_app {A : Type} (R : A -> A -> Prop) (l1 l2 : list A) :
  StronglySorted R l1 -> StronglySorted R l2 ->
  (forall x y, In x l1 -> In y l2 -> R x y) ->
  StronglySorted R (l1 ++ l2)%list.
Proof.
  induction 1 as [| a l1 Hs IH Ha]; intros H2 Hc; simpl; [exact H2|].
  constructor.
  - apply IH; [exact H2|]. intros x y Hx Hy. apply Hc; [now right | exact Hy].
  - apply Forall_app. split; [exact Ha|].
    apply Forall_forall. intros y Hy. apply Hc; [now left | exact Hy].
Qed.

Lemma same_key_sorted {A : Type} (key : A -> Z) (d : Z) (l : list A) :
  Forall (fun x => key x = d) l ->
  StronglySorted (fun a b => key a <= key b) l.
Proof.
  induction 1 as [| x l Hx Hl IH]; constructor; [exact IH|].
  eapply Forall_impl; [|exact Hl]. intros y Hy. simpl in Hy. lia.
Qed.

Lemma dates_In (d : Z) : In d dates <-> base_date <= d <= base_date + 120.
Proof.
  unfold dates. rewrite in_map_iff. split.
  - intros [i [<- Hi]]. apply in_seq in Hi. lia.
  - intros H. exists (Z.to_nat (d - base_date)). split; [lia|].
    apply in_seq. lia.
Qed.

Lemma day_range_sorted (start : Z) (first len : nat) :
  StronglySorted Z.le (map (fun i => start + Z.of_nat i) (seq first len)).
Proof.
  revert first. induction len as [| len IH]; intros first; simpl.
  - constructor.
  - constructor; [apply IH|].
    apply Forall_map, Forall_forall. intros i Hi. apply in_seq in Hi. lia.
Qed.

Lemma count_rows_pos_exists {A : Type} (p : A -> bool) (l : list A) :
  (0 < count_rows p l)%nat -> exists x, In x l /\ p x = true.
Proof.
  induction l as [| x l IH]; simpl; [lia|].
  destruct (p x) eqn:E.
  - intros _. exists x. split; [now left | exact E].
  - intros H. destruct (IH H) as [y [Hy Hp]]. exists y. split; [now right | exact Hp].
Qed.

Section GeneratedTable.
Context {G : Type} {RS : RandomState G}.

Lemma mock_days_length (ds : list Z) (g : G) :
  (5 * List.length ds <= List.length (fst (mock_days ds g))
   <= 14 * List.length ds)%nat.
Proof.
  revert g. induction ds as [| a ds IH]; intros g; simpl; [lia|].
  unfold bind, ret.
  pose proof (randint_range 5 15 g ltac:(lia)) as Hn.
  destruct (randint 5 15 g) as [n g1].
  pose proof (mock_rows_spec (Z.to_nat n) a g1) as [Hlen _].
  destruct (mock_rows (Z.to_nat n) a g1) as [today_rows g2].
  specialize (IH g2). destruct (mock_days ds g2) as [later g3]. simpl in *.
  rewrite length_app. lia.
Qed.

Lemma mock_days_sorted (ds : list Z) (g : G) :
  StronglySorted Z.le ds ->
  StronglySorted (fun a b => Date a <= Date b) (fst (mock_days ds g)).
Proof.
  intros Hs. revert g. induction Hs as [| a ds Hs IH Ha]; intros g; simpl;
    [constructor|].
  unfold bind, ret. destruct (randint 5 15 g) as [n g1].
  pose proof (mock_rows_spec (Z.to_nat n) a g1) as [_ Hr].
  destruct (mock_rows (Z.to_nat n) a g1) as [today_rows g2].
  pose proof (mock_days_rows ds g2) as Hlater.
  specialize (IH g2). destruct (mock_days ds g2) as [later g3]. simpl in *.
  apply StronglySorted_app.
  - apply same_key_sorted with a. eapply Forall_impl; [|exact Hr]. now intros r [].
  - exact IH.
  - intros x y Hx Hy. rewrite Forall_forall in Hr, Hlater, Ha.
    destruct (Hr x Hx) as [-> _]. destruct (Hlater y Hy) as [Hd _].
    now apply Ha.
Qed.

Lemma mock_data_dates (r : AlertEvent) :
  In r mock_data -> base_date <= Date r <= base_date + 120.
Proof.
  intros Hr. pose proof (mock_days_rows dates (seed 42)) as H.
  rewrite Forall_forall in H. destruct (H r Hr) as [Hd _].
  now apply dates_In.
Qed.

Lemma mock_data_max_date : max_date mock_data = Some (base_date + 120).
Proof.
  assert (Hlast : In (base_date + 120) dates) by (apply dates_In; lia).
  pose proof (mock_days_count dates (seed 42) _ dates_NoDup Hlast) as Hc.
  fold (@mock_data G RS) in Hc.
  assert (Hpos : (0 < count_rows (fun r => (Date r =? base_date + 120)%Z)
                         (@mock_data G RS))%nat) by lia.
  destruct (count_rows_pos_exists _ _ Hpos) as [r [Hr Hd]].
  apply Z.eqb_eq in Hd.
  destruct (max_date mock_data) as [today |] eqn:E.
  - destruct (max_date_spec _ _ E) as [Hin Hall].
    apply in_map_iff in Hin. destruct Hin as [r' [<- Hr']].
    pose proof (mock_data_dates r' Hr') as Hb.
    rewrite Forall_forall in Hall. specialize (Hall r Hr).
    f_equal. lia.
  - destruct (@mock_data G RS) as [| r0 rest]; [destruct Hr | discriminate E].
Qed.
End GeneratedTable.

(** X15.  Whatever the random draws, the generated table has between 605
    and 1694 rows (121 days of 5 to 14 rows), its rows are in date order,
    every date lies between 2025-01-01 and 2025-05-01, and the latest
    date, the [today] of the period presets, is 2025-05-01. *)
Theorem generated_table_shape :
  forall (G : Type) (RS : RandomState G),
    (605 <= List.length (@mock_data G RS) <= 1694)%nat
    /\ StronglySorted (fun a b => Date a <= Date b) (@mock_data G RS)
    /\ Forall (fun r => base_date <= Date r <= base_date + 120)
         (@mock_data G RS)
    /\ max_date (@mock_data G RS) = Some (base_date + 120)
    /\ Calendar.ord2ymd base_date = (2025, 1, 1)
    /\ Calendar.ord2ymd (base_date + 120) = (2025, 5, 1).
Proof.
  intros G RS. split; [|split; [|split; [|split; [|split; reflexivity]]]].
  - pose proof (mock_days_length dates (seed 42)) as H.
    change (List.length dates) with 121%nat in H. unfold mock_data. lia.
  - apply mock_days_sorted. apply day_range_sorted.
  - apply Forall_forall. intros r Hr. now apply mock_data_dates.
  - apply mock_data_max_date.
Qed.

(* ------------------------------------------------------------------ *)
(** ** Date ranges on the generated table                               *)
(* ------------------------------------------------------------------ *)

Lemma sum_counts_bounds {K : Type} (f : K -> nat) (lo hi : nat)
    (keys : list K) :
  (forall k, In k keys -> (lo <= f k <= hi)%nat) ->
  (lo * List.length keys <= sum_counts (map f keys)
   <= hi * List.length keys)%nat.
Proof.
  induction keys as [| k keys IH]; intros H; simpl; [lia|].
  pose proof (H k (or_introl eq_refl)).
  assert (Hrest : forall k', In k' keys -> (lo <= f k' <= hi)%nat)
    by (intros k' Hk'; apply H; now right).
  specialize (IH Hrest). lia.
Qed.

(** The rows of an interval of days, counted day by day. *)
Lemma filter_date_by_day (s e : Z) (df : list AlertEvent) :
  List.length (filter_date s e df)
  = sum_counts
      (map (fun d => count_rows (fun r => Date r =? d) df)
         (map (fun i => s + Z.of_nat i) (seq 0 (Z.to_nat (e - s + 1))))).
Proof.
  set (days := map (fun i => s + Z.of_nat i) (seq 0 (Z.to_nat (e - s + 1)))).
  assert (Hdays : forall d, In d days <-> s <= d <= e).
  { intros d. unfold days. rewrite in_map_iff. split.
    - intros [i [<- Hi]]. apply in_seq in Hi. lia.
    - intros H. exists (Z.to_nat (d - s)). split; [lia|]. apply in_seq. lia. }
  assert (Hnd : NoDup days).
  { unfold days. apply Injective_map_NoDup; [|apply seq_NoDup].
    intros i j H. lia. }
  rewrite (sum_counts_ext _
             (fun d => count_rows
                         (fun r => (d =? Date r) && date_in_range s e r) df)).
  - rewrite (sum_count_rows_by_key_of Z.eqb Z.eqb_eq Date); [| exact Hnd |].
    + unfold filter_date. now rewrite count_rows_filter.
    + intros d Hd. apply in_map_iff in Hd. destruct Hd as [r [<- Hr]].
      apply filter_In in Hr. destruct Hr as [_ Hr].
      unfold date_in_range in Hr. apply andb_true_iff in Hr.
      apply Hdays. lia.
  - intros d Hd. apply Hdays in Hd. apply count_rows_ext. intros r.
    unfold date_in_range. rewrite (Z.eqb_sym d).
    destruct (Z.eqb_spec (Date r) d) as [-> | _]; [|reflexivity].
    destruct (Z.leb_spec s d), (Z.leb_spec d e); simpl; try reflexivity; lia.
Qed.

Section GeneratedRanges.
Context {G : Type} {RS : RandomState G}.

Lemma mock_data_interval (s e : Z) :
  base_date <= s -> s <= e -> e <= base_date + 120 ->
  (5 * Z.to_nat (e - s + 1) <= List.length (filter_date s e mock_data)
   <= 14 * Z.to_nat (e - s + 1))%nat.
Proof.
  intros Hs Hse He. rewrite filter_date_by_day.
  set (days := map (fun i => s + Z.of_nat i) (seq 0 (Z.to_nat (e - s + 1)))).
  replace (Z.to_nat (e - s + 1)) with (List.length days)
    by (unfold days; now rewrite length_map, length_seq).
  apply sum_counts_bounds. intros d Hd.
  unfold days in Hd. apply in_map_iff in Hd. destruct Hd as [i [<- Hi]].
  apply in_seq in Hi.
  assert (Hin : In (s + Z.of_nat i) dates) by (apply dates_In; lia).
  pose proof (mock_days_count dates (seed 42) _ dates_NoDup Hin) as Hc.
  fold (@mock_data G RS) in Hc. lia.
Qed.

Lemma mock_data_well_formed : Forall well_formed_row (@mock_data G RS).
Proof.
  pose proof (mock_days_rows dates (seed 42)) as H.
  unfold mock_data. eapply Forall_impl; [|exact H]. now intros r [].
Qed.

Lemma mock_data_default (p : Period) :
  sidebar_filter (default_selection p (base_date + 120) mock_data) mock_data
  = filter_date
      (fst (period_range p (base_date + 120)
              (minus_days (base_date + 120) 30) (base_date + 120)))
      (snd (period_range p (base_date + 120)
              (minus_days (base_date + 120) 30) (base_date + 120)))
      mock_data.
Proof.
  apply default_selection_filter;
    [apply mock_data_max_date | apply mock_data_well_formed].
Qed.
End GeneratedRanges.

(** X16.  On the generated table a date interval inside the generated
    range that spans n days keeps between 5 n and 14 n rows, whatever the
    random draws. *)
Theorem generated_rows_in_interval :
  forall (G : Type) (RS : RandomState G) (s e : Z),
    base_date <= s -> s <= e -> e <= base_date + 120 ->
    (5 * Z.to_nat (e - s + 1)
     <= List.length (filter_date s e (@mock_data G RS))
     <= 14 * Z.to_nat (e - s + 1))%nat.
Proof.
  intros G RS s e. apply mock_data_interval.
Qed.

Lemma generated_rows_in_interval_witness :
  (5 * Z.to_nat (739260 - 739258 + 1)
   <= List.length (filter_date 739258 739260 (@mock_data Z LcgState))
   <= 14 * Z.to_nat (739260 - 739258 + 1))%nat.
Proof.
  apply generated_rows_in_interval; change base_date with 739252; lia.
Defined.

(** X17.  With the sidebar as first rendered, the dashboard of the
    generated table shows, whatever the random draws: every generated row
    for "Year to Date"; between 40 and 112 alerts for "Last 7 Days" (8
    days); and between 155 and 434 alerts for "Last 30 Days" and for
    "Quarter to Date" (31 days each, the quarter starting on
    2025-04-01). *)
Theorem generated_table_presets :
  forall (G : Type) (RS : RandomState G),
    let shown p :=
      sidebar_filter
        (default_selection p (base_date + 120) (@mock_data G RS))
        (@mock_data G RS) in
    shown YearToDate = @mock_data G RS
    /\ (40 <= total_alerts (shown Last7Days) <= 112)%nat
    /\ (155 <= total_alerts (shown Last30Days) <= 434)%nat
    /\ (155 <= total_alerts (shown QuarterToDate) <= 434)%nat
    /\ Calendar.ord2ymd
         (fst (period_range QuarterToDate (base_date + 120) 0 0))
       = (2025, 4, 1).
Proof.
  intros G RS shown. unfold shown, total_alerts.
  rewrite !mock_data_default.
  split; [|split; [|split; [|split; [|reflexivity]]]].
  - change (fst (period_range YearToDate (base_date + 120)
                   (minus_days (base_date + 120) 30) (base_date + 120)))
      with base_date.
    cbn [period_range snd]. unfold filter_date. apply filter_all.
    apply Forall_forall. intros r Hr. pose proof (mock_data_dates r Hr).
    unfold date_in_range.
    destruct (Z.leb_spec base_date (Date r)),
      (Z.leb_spec (Date r) (base_date + 120)); simpl; try reflexivity; lia.
  - cbn [period_range fst snd]. unfold minus_days.
    pose proof (mock_data_interval (G := G) (base_date + 120 - 7)
                  (base_date + 120) ltac:(lia) ltac:(lia) ltac:(lia)) as H.
    replace (Z.to_nat (base_date + 120 - (base_date + 120 - 7) + 1))
      with 8%nat in H by lia.
    lia.
  - cbn [period_range fst snd]. unfold minus_days.
    pose proof (mock_data_interval (G := G) (base_date + 120 - 30)
                  (base_date + 120) ltac:(lia) ltac:(lia) ltac:(lia)) as H.
    replace (Z.to_nat (base_date + 120 - (base_date + 120 - 30) + 1))
      with 31%nat in H by lia.
    lia.
  - change (fst (period_range QuarterToDate (base_date + 120)
                   (minus_days (base_date + 120) 30) (base_date + 120)))
      with (base_date + 90).
    cbn [period_range snd].
    pose proof (mock_data_interval (G := G) (base_date + 90)
                  (base_date + 120) ltac:(lia) ltac:(lia) ltac:(lia)) as H.
    replace (Z.to_nat (base_date + 120 - (base_date + 90) + 1))
      with 31%nat in H by lia.
    lia.
Qed.

(* ------------------------------------------------------------------ *)
(** ** Charts of a table without rows                                   *)
(* ------------------------------------------------------------------ *)

Lemma empty_by_length {A : Type} (l : list A) :
  l = [] <-> List.length l = 0%nat.
Proof. destruct l; simpl; split; intros H; congruence. Qed.

Lemma nunique_zero {A : Type} (eqb : A -> A -> bool) (col : list A) :
  nunique eqb col = 0%nat <-> col = [].
Proof.
  unfold nunique. destruct col; simpl; split; intros H; congruence.
Qed.

Lemma map_empty {A B : Type} (f : A -> B) (l : list A) :
  map f l = [] <-> l = [].
Proof. destruct l; simpl; split; intros H; congruence. Qed.

(** X18.  The time series, the two breakdowns, the three top-5 lists, the
    heatmap and the list of vessel options are empty exactly
    when the filtered table has no row; the binned distribution is the one
    chart that always has its six bars. *)
Theorem charts_empty_iff_no_rows :
  forall df : list AlertEvent,
    (alerts_time_df df = [] <-> df = [])
    /\ (alert_type_counts df = [] <-> df = [])
    /\ (fleet_alerts df = [] <-> df = [])
    /\ (top_alerts df = [] <-> df = [])
    /\ (top_vessels df = [] <-> df = [])
    /\ (slowest_types df = [] <-> df = [])
    /\ (heatmap_df df = [] <-> df = [])
    /\ (available_vessels df = [] <-> df = [])
    /\ (exists counts,
          binned_distribution df = Some counts /\ map fst counts = labels).
Proof.
  intros df.
  assert (Hcol : forall (key : AlertEvent -> string),
             nunique String.eqb (map key df) = 0%nat <-> df = []).
  { intros key. rewrite nunique_zero. apply map_empty. }
  split; [|split; [|split; [|split; [|split; [|split; [|split; [|split]]]]]]].
  - rewrite alerts_time_df_eq, map_empty, empty_by_length, isort_length.
    fold (nunique Z.eqb (map Date df)). rewrite nunique_zero.
    apply map_empty.
  - unfold alert_type_counts.
    rewrite empty_by_length, value_counts_length. apply Hcol.
  - unfold fleet_alerts.
    rewrite empty_by_length, value_counts_length. apply Hcol.
  - unfold top_alerts, head.
    rewrite empty_by_length, length_firstn, value_counts_length.
    rewrite <- (Hcol AlertType). lia.
  - unfold top_vessels, head.
    rewrite empty_by_length, length_firstn, value_counts_length.
    rewrite <- (Hcol Vessel). lia.
  - unfold slowest_types, head, sort_values_desc_float, mean_by_alert_type.
    rewrite empty_by_length, length_firstn, isort_length, length_map,
      isort_length.
    fold (nunique String.eqb (map AlertType df)).
    rewrite <- (Hcol AlertType). lia.
  - rewrite heatmap_df_eq, map_empty. split.
    + intros E. destruct df as [| r df]; [reflexivity|]. exfalso.
      assert (Hin : In (Vessel r) (heatmap_index (r :: df)))
        by (apply heatmap_index_spec; now left).
      rewrite E in Hin. destruct Hin.
    + intros ->. reflexivity.
  - unfold available_vessels. rewrite empty_by_length, isort_length.
    apply Hcol.
  - unfold binned_distribution, bind, assign_ResBin, res_time_counts.
    cbn [fst snd rows ResBin filtered_frame option_map].
    eexists. split; [reflexivity|].
    rewrite bin_counts_eq, map_map. reflexivity.
Qed.

(* ------------------------------------------------------------------ *)
(** ** Mean resolution time per alert type                              *)
(* ------------------------------------------------------------------ *)

(** X19.  On a table whose resolution times are non-negative, the means
    behind the "slowest alerts" chart have one entry per alert type that
    has rows, each a finite non-negative number (never NaN), and the chart
    shows entries of that list only. *)
Theorem mean_by_alert_type_entries :
  forall df : list AlertEvent,
    Forall (fun r => (0 <= ResolutionTime r)%Q) df ->
    NoDup (map fst (mean_by_alert_type df))
    /\ (forall k,
          In k (map fst (mean_by_alert_type df)) <-> In k (map AlertType df))
    /\ Forall (fun e => exists q, snd e = Float q /\ (0 <= q)%Q)
         (mean_by_alert_type df)
    /\ incl (slowest_types df) (mean_by_alert_type df).
Proof.
  intros df Hnn.
  assert (Hkeys : map fst (mean_by_alert_type df)
                  = isort String.leb (unique String.eqb (map AlertType df))).
  { unfold mean_by_alert_type. rewrite map_map. simpl. apply map_id. }
  split; [|split; [|split]].
  - rewrite Hkeys. apply isort_NoDup, unique_NoDup, String.eqb_eq.
  - intros k. rewrite Hkeys, isort_In. apply unique_In, String.eqb_eq.
  - unfold mean_by_alert_type. apply Forall_map, Forall_forall.
    intros k Hk. cbn [snd].
    rewrite isort_In, (unique_In _ String.eqb_eq), in_map_iff in Hk.
    destruct Hk as [r [Hr Hin]].
    set (group := filter (fun r0 => String.eqb k (AlertType r0)) df).
    assert (Hg : In r group).
    { apply filter_In. split; [exact Hin|]. apply String.eqb_eq. now symmetry. }
    assert (Hgn : Forall (fun x => (0 <= x)%Q) (map ResolutionTime group)).
    { apply Forall_map, Forall_forall. intros x Hx. apply filter_In in Hx.
      rewrite Forall_forall in Hnn. now apply Hnn. }
    destruct group as [| r0 rest]; [destruct Hg|].
    unfold series_mean. cbn [map]. eexists. split; [reflexivity|].
    apply Qle_shift_div_l.
    + change 0%Q with (inject_Z 0). rewrite <- Zlt_Qlt. simpl. lia.
    + rewrite Qmult_0_l. now apply Qsum_nonneg.
  - intros e He. unfold slowest_types, head, sort_values_desc_float in He.
    apply (isort_In (fun x y => fdesc (snd x) (snd y))).
    rewrite <- (firstn_skipn 5). apply in_or_app. now left.
Qed.

Lemma mean_by_alert_type_entries_witness :
  NoDup (map fst (mean_by_alert_type two_row_table))
  /\ (forall k,
        In k (map fst (mean_by_alert_type two_row_table))
        <-> In k (map AlertType two_row_table))
  /\ Forall (fun e => exists q, snd e = Float q /\ (0 <= q)%Q)
       (mean_by_alert_type two_row_table)
  /\ incl (slowest_types two_row_table) (mean_by_alert_type two_row_table).
Proof.
  apply mean_by_alert_type_entries.
  repeat constructor; unfold Qle; simpl; lia.
Defined.

(* ------------------------------------------------------------------ *)
(** ** Percentages at their two ends                                    *)
(* ------------------------------------------------------------------ *)

Lemma Qsum_all {A : Type} (p : A -> bool) (l : list A) :
  Forall (fun x => p x = true) l ->
  (Qsum (map (fun x => Q_of_bool (p x)) l)
   == inject_Z (Z.of_nat (List.length l)))%Q.
Proof.
  induction 1 as [| x l Hx _ IH]; [reflexivity|].
  cbn [map Qsum fold_right List.length].
  fold (Qsum (map (fun x => Q_of_bool (p x)) l)).
  rewrite Hx, IH, Nat2Z.inj_succ. unfold Z.succ. rewrite inject_Z_plus.
  simpl Q_of_bool. change (inject_Z 1) with 1%Q. ring.
Qed.

Lemma Qsum_none {A : Type} (p : A -> bool) (l : list A) :
  Forall (fun x => p x = false) l ->
  (Qsum (map (fun x => Q_of_bool (p x)) l) == 0)%Q.
Proof.
  induction 1 as [| x l Hx _ IH]; [reflexivity|].
  cbn [map Qsum fold_right].
  fold (Qsum (map (fun x => Q_of_bool (p x)) l)).
  rewrite Hx, IH. reflexivity.
Qed.

(** The rounded percentage of rows with a property, when all rows or no
    row has it. *)
Lemma percent_all_or_none {A : Type} (p : A -> bool) (l : list A) :
  l <> [] ->
  (Forall (fun x => p x = true) l ->
   py_round
     (fmul (series_mean (map (fun x => Q_of_bool (p x)) l)) (Float 100)) 1
   = py_round (Float 100) 1)
  /\ (Forall (fun x => p x = false) l ->
      py_round
        (fmul (series_mean (map (fun x => Q_of_bool (p x)) l)) (Float 100)) 1
      = py_round (Float 0) 1).
Proof.
  intros Hne. destruct l as [| x l]; [congruence|].
  set (rows := x :: l) in *.
  assert (Hlen : ~ (inject_Z (Z.of_nat (List.length rows)) == 0)%Q).
  { change 0%Q with (inject_Z 0). rewrite inject_Z_injective. simpl. lia. }
  unfold series_mean. cbn [map].
  fold (map (fun x0 => Q_of_bool (p x0)) rows). cbn [fmul].
  rewrite length_map. split; intros H; apply py_round_comp.
  - rewrite (Qsum_all p rows H). field. exact Hlen.
  - rewrite (Qsum_none p rows H). field. exact Hlen.
Qed.

(** X20.  On a table with rows, the auto-cleared percentage is 100.0 with
    no active alert when every row is auto-cleared, and 0.0 with no
    resolved alert when none is; the within-SLA percentage is 100.0 when
    every resolution time is at most 2 hours (2 included) and 0.0 when
    every one is longer. *)
Theorem percentages_at_their_ends :
  forall df : list AlertEvent,
    df <> [] ->
    (Forall (fun r => AutoCleared r = true) df ->
     feqb (auto_cleared_percent df) (Float 100) = true
     /\ active_alerts df = 0%nat)
    /\ (Forall (fun r => AutoCleared r = false) df ->
        feqb (auto_cleared_percent df) (Float 0) = true
        /\ resolved_alerts df = 0%nat)
    /\ (Forall (fun r => (ResolutionTime r <= 2)%Q) df ->
        feqb (within_sla_pct df) (Float 100) = true)
    /\ (Forall (fun r => (2 < ResolutionTime r)%Q) df ->
        feqb (within_sla_pct df) (Float 0) = true).
Proof.
  intros df Hne.
  destruct (percent_all_or_none AutoCleared df Hne) as [Hall Hnone].
  destruct (percent_all_or_none
              (fun r => Qle_bool (ResolutionTime r) sla_threshold) df Hne)
    as [Sall Snone].
  split; [|split; [|split]].
  - intros H. unfold auto_cleared_percent. rewrite (Hall H).
    split; [reflexivity|]. unfold active_alerts.
    rewrite <- count_rows_filter. apply count_rows_none.
    eapply Forall_impl; [|exact H]. intros r Hr. simpl in Hr. now rewrite Hr.
  - intros H. unfold auto_cleared_percent. rewrite (Hnone H).
    split; [reflexivity|]. unfold resolved_alerts.
    rewrite <- count_rows_filter. now apply count_rows_none.
  - intros H. unfold within_sla_pct. rewrite Sall; [reflexivity|].
    eapply Forall_impl; [|exact H]. intros r Hr. now apply Qle_bool_iff.
  - intros H. unfold within_sla_pct. rewrite Snone; [reflexivity|].
    eapply Forall_impl; [|exact H]. intros r Hr. simpl in Hr.
    apply not_true_iff_false. rewrite Qle_bool_iff. unfold sla_threshold. lra.
Qed.

Lemma percentages_at_their_ends_witness :
  (Forall (fun r => AutoCleared r = true) one_speeding_row ->
   feqb (auto_cleared_percent one_speeding_row) (Float 100) = true
   /\ active_alerts one_speeding_row = 0%nat)
  /\ (Forall (fun r => AutoCleared r = false) one_speeding_row ->
      feqb (auto_cleared_percent one_speeding_row) (Float 0) = true
      /\ resolved_alerts one_speeding_row = 0%nat)
  /\ (Forall (fun r => (ResolutionTime r <= 2)%Q) one_speeding_row ->
      feqb (within_sla_pct one_speeding_row) (Float 100) = true)
  /\ (Forall (fun r => (2 < ResolutionTime r)%Q) one_speeding_row ->
      feqb (within_sla_pct one_speeding_row) (Float 0) = true).
Proof.
  apply percentages_at_their_ends. discriminate.
Defined.

(* ------------------------------------------------------------------ *)
(** ** Top-5 lists under any kind of sort                               *)
(* ------------------------------------------------------------------ *)

Lemma stable_kind_sorts : sorts_descending stable_kind.
Proof.
  split; intros K s; cbn [sort_counts sort_floats stable_kind]; split.
  - apply isort_perm.
  - apply sort_values_desc_sorted.
  - apply isort_perm.
  - apply sort_values_desc_float_sorted.
Qed.

Lemma reversing_kind_sorts : sorts_descending reversing_kind.
Proof.
  split; intros K s; cbn [sort_counts sort_floats reversing_kind]; split.
  - unfold sort_values_desc. rewrite isort_perm.
    apply Permutation_sym, Permutation_rev.
  - apply sort_values_desc_sorted.
  - unfold sort_values_desc_float. rewrite isort_perm.
    apply Permutation_sym, Permutation_rev.
  - apply sort_values_desc_float_sorted.
Qed.

Lemma NoDup_map_eq {A B : Type} (f : A -> B) (l : list A) (x y : A) :
  NoDup (map f l) -> In x l -> In y l -> f x = f y -> x = y.
Proof.
  induction l as [| a l IH]; intros Hnd Hx Hy E; [destruct Hx|].
  simpl in Hnd. inversion Hnd as [| ? ? Ha Hnd']; subst.
  destruct Hx as [-> | Hx], Hy as [-> | Hy].
  - reflexivity.
  - exfalso. apply Ha. rewrite E. now apply in_map.
  - exfalso. apply Ha. rewrite <- E. now apply in_map.
  - now apply IH.
Qed.

(** Without ties there is one descending arrangement only. *)
Lemma sort_counts_unique {K : Type} (kind : SortKind) (s : list (K * nat)) :
  sorts_descending kind -> no_tied_counts s ->
  sort_counts kind K s = sort_values_desc s.
Proof.
  intros [Hk _] Hnd. destruct (Hk K s) as [Hp Hs].
  apply sorted_perm_eq with (R := fun x y : K * nat => (snd y <= snd x)%nat).
  - intros x y Hx Hy Hxy Hyx.
    apply (NoDup_map_eq snd s); [exact Hnd | | | lia].
    + now apply (Permutation_in _ Hp).
    + now apply (Permutation_in _ Hp).
  - exact Hs.
  - apply sort_values_desc_sorted.
  - rewrite Hp. apply Permutation_sym, isort_perm.
Qed.

Lemma sort_floats_unique {K : Type} (kind : SortKind)
    (s : list (K * pyfloat)) :
  sorts_descending kind -> no_tied_floats s ->
  sort_floats kind K s = sort_values_desc_float s.
Proof.
  intros [_ Hk] Hnt. destruct (Hk K s) as [Hp Hs].
  apply sorted_perm_eq
    with (R := fun x y : K * pyfloat => fdesc (snd x) (snd y) = true).
  - intros x y Hx Hy Hxy Hyx.
    apply Hnt; try assumption.
    + now apply (Permutation_in _ Hp).
    + now apply (Permutation_in _ Hp).
  - exact Hs.
  - apply sort_values_desc_float_sorted.
  - rewrite Hp. apply Permutation_sym, isort_perm.
Qed.

Lemma head_incl {A : Type} (n : nat) (s : list A) : incl (head n s) s.
Proof.
  intros x Hx. unfold head in Hx. rewrite <- (firstn_skipn n s).
  apply in_or_app. now left.
Qed.

(** What the head of a descending arrangement of a list is. *)
Lemma head_of_arrangement {A : Type} (R : A -> A -> Prop) (n : nat)
    (sorted original : list A) :
  Permutation sorted original -> StronglySorted R sorted ->
  (List.length (head n sorted) <= n)%nat
  /\ StronglySorted R (head n sorted)
  /\ incl (head n sorted) original
  /\ (forall x y,
        In x (head n sorted) -> In y original -> ~ In y (head n sorted) ->
        R x y).
Proof.
  intros Hp Hs. split; [apply head_length|]. split; [now apply head_sorted|].
  split.
  - intros x Hx. apply (Permutation_in _ Hp). now apply (head_incl n).
  - intros x y Hx Hy Hny. apply (head_beats_rest R n sorted Hs); auto.
    apply (Permutation_in _ (Permutation_sym Hp)). exact Hy.
Qed.

(** C7, as the claim has it, fails: nothing in the script asks for a
    stable sort, and a sort that meets all that [sort_values] promises can
    return tied entries in another order than the grouping has them.  On a
    table with one Speeding and one AE Usage alert the two alert types tie;
    one kind of sort lists Speeding first, another AE Usage first. *)
Lemma top5_tie_order_depends_on_sort_kind :
  sorts_descending reversing_kind
  /\ first_seen_counts (map AlertType two_row_table)
     = [("Speeding", 1%nat); ("AE Usage", 1%nat)]
  /\ top_alerts_by stable_kind two_row_table
     = [("Speeding", 1%nat); ("AE Usage", 1%nat)]
  /\ top_alerts_by reversing_kind two_row_table
     = [("AE Usage", 1%nat); ("Speeding", 1%nat)]
  /\ ~ (exists later,
          filter (with_count 1)
            (first_seen_counts (map AlertType two_row_table))
          = (filter (with_count 1) (top_alerts_by reversing_kind two_row_table)
             ++ later)%list).
Proof.
  split; [apply reversing_kind_sorts|].
  split; [reflexivity|]. split; [reflexivity|]. split; [reflexivity|].
  intros [later E]. vm_compute in E. discriminate E.
Qed.

(** C7, amended.  Whatever kind of sort pandas uses and however the group
    means are rounded, each of the three top-5 lists has at most 5 entries,
    is in descending order of its ranking metric (count, count, mean
    resolution time), and holds entries of its grouping such that no entry
    left out has a larger metric than an entry in the list.  The order
    among entries that tie is the sort's own: when no two entries tie, the
    list is the same for every kind of sort. *)
Theorem top5_lists_any_sort_kind :
  forall (kind : SortKind) (mean : list Q -> pyfloat)
         (df : list AlertEvent),
    sorts_descending kind ->
    ((List.length (top_alerts_by kind df) <= 5)%nat
     /\ (List.length (top_vessels_by kind df) <= 5)%nat
     /\ (List.length (slowest_types_by kind mean df) <= 5)%nat)
    /\ (StronglySorted (fun x y => (snd y <= snd x)%nat)
          (top_alerts_by kind df)
        /\ StronglySorted (fun x y => (snd y <= snd x)%nat)
             (top_vessels_by kind df)
        /\ StronglySorted (fun x y => fdesc (snd x) (snd y) = true)
             (slowest_types_by kind mean df))
    /\ (incl (top_alerts_by kind df)
          (first_seen_counts (map AlertType df))
        /\ incl (top_vessels_by kind df) (first_seen_counts (map Vessel df))
        /\ incl (slowest_types_by kind mean df)
             (mean_by_alert_type_with mean df))
    /\ ((forall x y,
            In x (top_alerts_by kind df) ->
            In y (first_seen_counts (map AlertType df)) ->
            ~ In y (top_alerts_by kind df) -> (snd y <= snd x)%nat)
        /\ (forall x y,
              In x (top_vessels_by kind df) ->
              In y (first_seen_counts (map Vessel df)) ->
              ~ In y (top_vessels_by kind df) -> (snd y <= snd x)%nat)
        /\ (forall x y,
              In x (slowest_types_by kind mean df) ->
              In y (mean_by_alert_type_with mean df) ->
              ~ In y (slowest_types_by kind mean df) ->
              fdesc (snd x) (snd y) = true))
    /\ ((no_tied_counts (first_seen_counts (map AlertType df)) ->
         top_alerts_by kind df = top_alerts df)
        /\ (no_tied_counts (first_seen_counts (map Vessel df)) ->
            top_vessels_by kind df = top_vessels df)
        /\ (no_tied_floats (mean_by_alert_type_with mean df) ->
            slowest_types_by kind mean df
            = slowest_types_by stable_kind mean df))
    /\ (top_alerts_by stable_kind df = top_alerts df
        /\ top_vessels_by stable_kind df = top_vessels df
        /\ slowest_types_by stable_kind series_mean df = slowest_types df).
Proof.
  intros kind mean df Hkind.
  pose proof Hkind as [Hc Hf].
  destruct (Hc string (first_seen_counts (map AlertType df))) as [Pa Sa].
  destruct (Hc string (first_seen_counts (map Vessel df))) as [Pv Sv].
  destruct (Hf string (mean_by_alert_type_with mean df)) as [Pm Sm].
  destruct (head_of_arrangement _ 5 _ _ Pa Sa) as (La & Oa & Ia & Ba).
  destruct (head_of_arrangement _ 5 _ _ Pv Sv) as (Lv & Ov & Iv & Bv).
  destruct (head_of_arrangement _ 5 _ _ Pm Sm) as (Lm & Om & Im & Bm).
  unfold top_alerts_by, top_vessels_by, slowest_types_by, value_counts_by.
  split; [now repeat split|]. split; [now repeat split|].
  split; [now repeat split|]. split; [now repeat split|].
  split; [|now repeat split].
  split; [|split].
  - intros Hnt. unfold top_alerts, value_counts.
    now rewrite (sort_counts_unique kind _ Hkind Hnt).
  - intros Hnt. unfold top_vessels, value_counts.
    now rewrite (sort_counts_unique kind _ Hkind Hnt).
  - intros Hnt. cbn [sort_floats stable_kind].
    now rewrite (sort_floats_unique kind _ Hkind Hnt).
Qed.

Lemma top5_lists_any_sort_kind_witness :
  sorts_descending reversing_kind
  /\ (List.length (top_alerts_by reversing_kind two_row_table) <= 5)%nat
  /\ StronglySorted (fun x y => (snd y <= snd x)%nat)
       (top_vessels_by reversing_kind two_row_table)
  /\ incl (slowest_types_by reversing_kind series_mean two_row_table)
       (mean_by_alert_type_with series_mean two_row_table).
Proof.
  split; [apply reversing_kind_sorts|].
  destruct (top5_lists_any_sort_kind reversing_kind series_mean two_row_table
              reversing_kind_sorts)
    as ((La & _ & _) & (_ & Sv & _) & (_ & _ & Im) & _).
  split; [exact La|]. split; [exact Sv | exact Im].
Defined.

(* ------------------------------------------------------------------ *)
(** ** Every generated row                                              *)
(* ------------------------------------------------------------------ *)

Section GeneratedRows.
Context {G : Type} {RS : RandomState G}.

Lemma mock_row_hundredths (date : Z) (g : G) :
  whole_hundredths (ResolutionTime (fst (mock_row date g))).
Proof.
  unfold mock_row, bind, ret.
  destruct (choice "" fleets g) as [fleet g1].
  destruct (choice "" vessels g1) as [vessel g2].
  destruct (choice "" alert_types g2) as [alert g3].
  pose proof (exponential_nonneg 2 g3 ltac:(easy)) as He.
  destruct (exponential 2 g3) as [res g4].
  destruct (choice_p false [true; false] [(3 # 5)%Q; (2 # 5)%Q] g4)
    as [cleared g5].
  cbn [fst snd ResolutionTime] in *. unfold round2.
  exists (round_half_even (res * 100)). split; [|reflexivity].
  apply round_half_even_nonneg. apply Qmult_le_0_compat; [exact He | easy].
Qed.

Lemma mock_rows_hundredths (n : nat) (date : Z) (g : G) :
  Forall (fun r => whole_hundredths (ResolutionTime r))
    (fst (mock_rows n date g)).
Proof.
  revert g. induction n as [| n IH]; intros g; simpl; [constructor|].
  unfold bind, ret.
  pose proof (mock_row_hundredths date g) as Hr.
  destruct (mock_row date g) as [r g1].
  specialize (IH g1). destruct (mock_rows n date g1) as [rs g2].
  simpl in *. now constructor.
Qed.

Lemma mock_days_hundredths (ds : list Z) (g : G) :
  Forall (fun r => whole_hundredths (ResolutionTime r))
    (fst (mock_days ds g)).
Proof.
  revert g. induction ds as [| a ds IH]; intros g; simpl; [constructor|].
  unfold bind, ret. destruct (randint 5 15 g) as [n g1].
  pose proof (mock_rows_hundredths (Z.to_nat n) a g1) as Hr.
  destruct (mock_rows (Z.to_nat n) a g1) as [today_rows g2].
  specialize (IH g2). destruct (mock_days ds g2) as [later g3]. simpl in *.
  apply Forall_app. now split.
Qed.
End GeneratedRows.

(** X21.  Whatever the random draws, every day of the generated range
    gets between 5 and 14 rows (the upper end of [randint(5, 15)] is
    excluded), and every generated row has its date in the range, its
    fleet, vessel and alert type in the three lists, and a resolution time
    that is a non-negative whole number of hundredths of an hour. *)
Theorem generated_rows_per_day :
  forall (G : Type) (RS : RandomState G) (d : Z),
    In d dates ->
    (5 <= count_rows (fun r => (Date r =? d)%Z) (@mock_data G RS) <= 14)%nat
    /\ Forall
         (fun r =>
            In (Date r) dates /\ well_formed_row r
            /\ whole_hundredths (ResolutionTime r))
         (@mock_data G RS).
Proof.
  intros G RS d Hd. split.
  - pose proof (mock_days_count dates (seed 42) d dates_NoDup Hd) as H.
    unfold mock_data. lia.
  - pose proof (mock_days_rows dates (seed 42)) as H1.
    pose proof (mock_days_hundredths dates (seed 42)) as H2.
    unfold mock_data. rewrite Forall_forall in *. intros r Hr.
    destruct (H1 r Hr) as [Ha Hb]. split; [exact Ha|]. split; [exact Hb|].
    now apply H2.
Qed.

Lemma generated_rows_per_day_witness :
  (5 <= count_rows (fun r => (Date r =? 739300)%Z) (@mock_data Z LcgState)
   <= 14)%nat
  /\ Forall
       (fun r =>
          In (Date r) dates /\ well_formed_row r
          /\ whole_hundredths (ResolutionTime r))
       (@mock_data Z LcgState).
Proof.
  apply (generated_rows_per_day Z LcgState 739300).
  apply dates_In. change base_date with 739252. lia.
Defined.
